(** * SF transit delay pipeline: feature engine and delay predictor

    A shallow embedding of [src/feature_engineering.py]
    ([TransitFeatureEngine]) and [src/model.py] ([TransitDelayPredictor]),
    together with the part of pandas / numpy / scikit-learn / joblib that
    the two classes call.

    Conventions.
    - Numbers are exact rationals ([Q]); a float computed by numpy that is
      not rational (square roots, sines) is obtained from a function taken
      as a parameter.
    - Instants are integers: nanoseconds since 1970-01-01T00:00 (pandas'
      [datetime64[ns]]), timezone-naive.
    - A raised Python exception is a value [Exn cls msg]; a call returns
      [Ok v] or [Raise e].
    - Code that mutates a DataFrame runs in the monad [M]: a store of
      DataFrame objects is threaded through, and survives a raise. *)

From Stdlib Require Import ZArith QArith Qminmax Qround Qabs.
From Stdlib Require Import Sorting.Sorted.
From stdpp Require Import base option list sorting gmap strings pretty.

Local Open Scope string_scope.

(** ** Python results *)

Module Py.

Record exn := Exn { exn_class : string; exn_msg : string }.

Inductive result (A : Type) :=
  | Ok (a : A)
  | Raise (e : exn).
Arguments Ok {A} a.
Arguments Raise {A} e.

Definition rbind {A B} (r : result A) (k : A -> result B) : result B :=
  match r with
  | Ok a => k a
  | Raise e => Raise e
  end.

Definition rmap {A B} (f : A -> B) (r : result A) : result B :=
  rbind r (fun a => Ok (f a)).

(** [raises r cls]: the call ended with an exception of class [cls]. *)
Definition raises {A} (r : result A) (cls : string) : Prop :=
  match r with
  | Ok _ => False
  | Raise e => exn_class e = cls
  end.

Definition ValueError := Exn "ValueError".
Definition KeyError := Exn "KeyError".
Definition TypeError := Exn "TypeError".
Definition AttributeError := Exn "AttributeError".
Definition NotImplementedError := Exn "NotImplementedError".
Definition FileNotFoundError := Exn "FileNotFoundError".

(** Sequencing over a list, left to right, stopping at the first raise. *)
Fixpoint rmapM {A B} (f : A -> result B) (l : list A) : result (list B) :=
  match l with
  | [] => Ok []
  | a :: l' => rbind (f a) (fun b => rbind (rmapM f l') (fun bs => Ok (b :: bs)))
  end.

End Py.
Export Py.

Declare Scope py_scope.
Delimit Scope py_scope with py.
Notation "x <- c1 ;; c2" := (rbind c1 (fun x => c2))
  (at level 100, c1 at next level, right associativity) : py_scope.

(** ** Tables *)

Module Pandas.

(** A cell: missing ([NaN], [NaT], [None]), a number, a string, or an
    instant. *)
Inductive cell :=
  | NaN
  | Num (q : Q)
  | Str (s : string)
  | Time (ns : Z).

Abbreviation column := (list cell).

(** A DataFrame whose row labels are integers (what [pd.DataFrame(dict)]
    and [read_csv] build; the source never calls [set_index]).  Columns
    are kept in insertion order. *)
Record DataFrame := mkDF {
  df_index : list Z;
  df_columns : list (string * column)
}.

Definition columns (df : DataFrame) : list string := (df_columns df).*1.

Definition nrows (df : DataFrame) : nat := length (df_index df).

(** ['c' in df.columns] *)
Definition has_col (c : string) (df : DataFrame) : bool :=
  bool_decide (c ∈ columns df).

Fixpoint assoc (c : string) (l : list (string * column)) : option column :=
  match l with
  | [] => None
  | (k, v) :: l' => if decide (k = c) then Some v else assoc c l'
  end.

(** [df[c]] for a single label. *)
Definition get_col (c : string) (df : DataFrame) : result column :=
  match assoc c (df_columns df) with
  | Some v => Ok v
  | None => Raise (KeyError c)
  end.

Fixpoint assoc_set (c : string) (v : column) (l : list (string * column))
  : list (string * column) :=
  match l with
  | [] => [(c, v)]
  | (k, w) :: l' =>
      if decide (k = c) then (k, v) :: l' else (k, w) :: assoc_set c v l'
  end.

(** [df[c] = v]: replaces the column in place or appends a new one. *)
Definition set_col (c : string) (v : column) (df : DataFrame) : DataFrame :=
  mkDF (df_index df) (assoc_set c v (df_columns df)).

(** A scalar broadcast to every row: [df[c] = 0]. *)
Definition broadcast (x : cell) (df : DataFrame) : column :=
  replicate (nrows df) x.

(** [df[names]] for a list of labels: for each requested label, every
    column that carries it, in the requested order; [KeyError] when a label
    matches no column. *)
Definition cols_named (c : string) (l : list (string * column))
  : list (string * column) :=
  filter (fun kv => kv.1 = c) l.

Definition select (names : list string) (df : DataFrame) : result DataFrame :=
  match filter (fun c => c ∉ columns df) names with
  | [] => Ok (mkDF (df_index df)
                (concat (map (fun c => cols_named c (df_columns df)) names)))
  | missing => Raise (KeyError (String.concat ", " missing ++ " not in index"))
  end.

(** Rows taken by position: [df.take(indexer)] / [df.iloc[indexer]]. *)
Definition take_at {A} (d : A) (idx : list nat) (l : list A) : list A :=
  map (fun i => nth i l d) idx.

Definition take_rows (idx : list nat) (df : DataFrame) : DataFrame :=
  mkDF (take_at 0%Z idx (df_index df))
       (map (fun kv => (kv.1, take_at NaN idx kv.2)) (df_columns df)).

(** *** Library functions taken as parameters *)

(** numpy's floating-point functions that leave the rationals, and pandas'
    datetime parser for cells that are not instants yet. *)
Class NumLib := {
  np_sqrt : Q -> Q;
  (** [np.sin(2 * np.pi * x)] and [np.cos(2 * np.pi * x)] *)
  sin_2pi : Q -> Q;
  cos_2pi : Q -> Q;
  parse_datetime : cell -> option Z
}.

(** [ndarray.argsort(kind='quicksort')], the sort behind [sort_values]
    when no [kind] is passed.  numpy promises a permutation that puts the
    keys in nondecreasing order; for this kind it promises nothing about
    equal keys. *)
Class ArgSort := {
  argsort : list Q -> list nat;
  argsort_perm : forall ks, argsort ks ≡ₚ seq 0 (length ks);
  argsort_sorted : forall ks, StronglySorted Qle (take_at 0%Q (argsort ks) ks)
}.

(** *** Datetime accessors ([Series.dt]) *)

Definition ns_per_second : Z := 1000000000.
Definition ns_per_hour : Z := 3600 * ns_per_second.
Definition ns_per_day : Z := 24 * ns_per_hour.

Definition hour_of (t : Z) : Z := ((t / ns_per_hour) mod 24)%Z.

(** Monday is 0; 1970-01-01 was a Thursday. *)
Definition dayofweek_of (t : Z) : Z := ((t / ns_per_day + 3) mod 7)%Z.

(** Proleptic Gregorian date of a day number (days since 1970-01-01):
    (year, month, day). *)
Definition civil_of_days (days : Z) : Z * Z * Z :=
  (let z := days + 719468 in
   let era := z / 146097 in
   let doe := z - era * 146097 in
   let yoe := (doe - doe / 1460 + doe / 36524 - doe / 146096) / 365 in
   let doy := doe - (365 * yoe + yoe / 4 - yoe / 100) in
   let mp := (5 * doy + 2) / 153 in
   let d := doy - (153 * mp + 2) / 5 + 1 in
   let m := if mp <? 10 then mp + 3 else mp - 9 in
   let y := yoe + era * 400 + (if m <=? 2 then 1 else 0) in
   (y, m, d))%Z.

Definition month_of (t : Z) : Z := (civil_of_days (t / ns_per_day)).1.2.
Definition day_of (t : Z) : Z := (civil_of_days (t / ns_per_day)).2.

(** [s.dt.<field>]: defined on datetime columns only; [NaT] gives [NaN]. *)
Definition dt_field (f : Z -> Z) (s : column) : result column :=
  rmapM (fun c => match c with
                  | Time t => Ok (Num (inject_Z (f t)))
                  | NaN => Ok NaN
                  | _ => Raise (AttributeError
                           "Can only use .dt accessor with datetimelike values")
                  end) s.

(** [pd.to_datetime(s)] *)
Definition to_datetime `{NumLib} (s : column) : result column :=
  rmapM (fun c => match c with
                  | Time t => Ok (Time t)
                  | NaN => Ok NaN
                  | _ => match parse_datetime c with
                         | Some t => Ok (Time t)
                         | None => Raise (ValueError "Unknown datetime string format")
                         end
                  end) s.

(** *** Element-wise operations on numeric columns *)

(** A number or [NaN]; anything else makes the operation raise. *)
Definition as_float (c : cell) : result (option Q) :=
  match c with
  | NaN => Ok None
  | Num q => Ok (Some q)
  | _ => Raise (TypeError "unsupported operand type(s)")
  end.

Definition of_float (o : option Q) : cell :=
  match o with
  | Some q => Num (Qred q)
  | None => NaN
  end.

Definition floats (s : column) : result (list (option Q)) := rmapM as_float s.

(** [f(s)] element-wise, [NaN] propagating. *)
Definition map_num (f : Q -> Q) (s : column) : result column :=
  rmap (map (fun o => of_float (f <$> o))) (floats s).

(** [s.astype(int)] of a boolean column. *)
Definition flag (b : bool) : cell := Num (if b then 1%Q else 0%Q).

(** [s.between(lo, hi)]: both ends included; [NaN] is in no interval. *)
Definition between (lo hi : Q) (o : option Q) : bool :=
  match o with
  | Some q => Qle_bool lo q && Qle_bool q hi
  | None => false
  end.

(** [s.isin(values)] *)
Definition isin (values : list Q) (o : option Q) : bool :=
  match o with
  | Some q => existsb (Qeq_bool q) values
  | None => false
  end.

(** [(a | b)] on two integer columns: bitwise or. *)
Definition bit_or (a b : cell) : result cell :=
  match a, b with
  | Num x, Num y => Ok (Num (inject_Z (Z.lor (Qfloor x) (Qfloor y))))
  | _, _ => Raise (TypeError "unsupported operand type(s) for |")
  end.

Fixpoint zip_with_r {A B C} (f : A -> B -> result C) (l : list A) (k : list B)
  : result (list C) :=
  match l, k with
  | a :: l', b :: k' =>
      rbind (f a b) (fun c => rbind (zip_with_r f l' k') (fun cs => Ok (c :: cs)))
  | _, _ => Ok []
  end.

(** *** Sorting ([DataFrame.sort_values]) *)

(** The sort key of a cell.  The source sorts a datetime column and a float
    column; string keys do not occur. *)
Definition sort_key (c : cell) : result (option Q) :=
  match c with
  | NaN => Ok None
  | Num q => Ok (Some q)
  | Time t => Ok (Some (inject_Z t))
  | Str _ => Raise (TypeError "'<' not supported between instances of 'str'")
  end.

(** [pandas.core.sorting.nargsort] with [na_position='last']: the missing
    keys are set aside, the others go through [argsort], and the missing
    ones are appended in their original order. *)
Definition nargsort `{ArgSort} (ascending : bool) (items : list (option Q))
  : list nat :=
  let idx := seq 0 (length items) in
  let non_nans := omap id items in
  let non_nan_idx := filter (fun i => is_Some (mjoin (items !! i))) idx in
  let nan_idx := filter (fun i => ~ is_Some (mjoin (items !! i))) idx in
  let indexer :=
    if ascending then take_at 0%nat (argsort non_nans) non_nan_idx
    else rev (take_at 0%nat (argsort (rev non_nans)) (rev non_nan_idx)) in
  indexer ++ nan_idx.

(** [df.sort_values(by, ascending=...)]: a new frame. *)
Definition sort_values `{ArgSort} (by_ : string) (ascending : bool)
    (df : DataFrame) : result DataFrame :=
  (k <- get_col by_ df ;;
   items <- rmapM sort_key k ;;
   Ok (take_rows (nargsort ascending items) df))%py.

(** *** Groups ([DataFrame.groupby]) *)

Definition is_nan (c : cell) : bool :=
  match c with NaN => true | _ => false end.

Definition cell_eqb (a b : cell) : bool :=
  match a, b with
  | Num x, Num y => Qeq_bool x y
  | Str s, Str t => bool_decide (s = t)
  | Time s, Time t => Z.eqb s t
  | _, _ => false
  end.

(** Positions of the rows whose key is [k], in frame order.  Rows with a
    missing key belong to no group. *)
Definition in_group (keys : column) (k : cell) (j : nat) : bool :=
  match keys !! j with
  | Some c => cell_eqb c k
  | None => false
  end.

Definition group_rows (keys : column) (k : cell) : list nat :=
  filter (fun j => in_group keys k j) (seq 0 (length keys)).

(** The distinct keys, first occurrence first. *)
Fixpoint group_keys (keys : column) : list cell :=
  match keys with
  | [] => []
  | k :: rest =>
      if is_nan k then group_keys rest
      else k :: filter (fun c => negb (cell_eqb c k)) (group_keys rest)
  end.

(** Rank of row [i] inside its group. *)
Definition rank_in (rows : list nat) (i : nat) : nat :=
  length (filter (fun j => (j < i)%nat) rows).

(** [df.groupby(by)[col].transform(f)]: [f] runs on each group's values and
    the results go back to the rows they came from. *)
Definition transform (f : list (option Q) -> list (option Q))
    (keys : column) (vals : list (option Q)) : list (option Q) :=
  imap (fun i k =>
          if is_nan k then None
          else let rows := group_rows keys k in
               mjoin (f (take_at None rows vals) !! rank_in rows i)) keys.

(** *** Aggregates *)

Definition observed (xs : list (option Q)) : list Q := omap id xs.

Definition Qsum (l : list Q) : Q := foldr Qplus 0%Q l.

Definition count (l : list Q) : Q := inject_Z (Z.of_nat (length l)).

Definition mean (obs : list Q) : Q := (Qsum obs / count obs)%Q.

(** Sample variance ([ddof=1]). *)
Definition var (obs : list Q) : Q :=
  (Qsum (map (fun x => (x - mean obs) * (x - mean obs)) obs)
   / (count obs - 1))%Q.

(** *** Rolling windows ([Series.rolling(window=w, min_periods=p)]) *)

(** An integer [window] is a number of observations: the window of row [i]
    is rows [i-w+1 .. i] of the series, whatever their timestamps. *)
Definition window {A} (w : nat) (xs : list A) (i : nat) : list A :=
  drop (S i - w) (take (S i) xs).

Definition rolling_mean (w min_periods : nat) (xs : list (option Q))
  : list (option Q) :=
  map (fun i => let obs := observed (window w xs i) in
                if decide (min_periods <= length obs /\ 1 <= length obs)%nat
                then Some (mean obs) else None)
      (seq 0 (length xs)).

Definition rolling_std `{NumLib} (w min_periods : nat) (xs : list (option Q))
  : list (option Q) :=
  map (fun i => let obs := observed (window w xs i) in
                if decide (min_periods <= length obs /\ 2 <= length obs)%nat
                then Some (np_sqrt (var obs)) else None)
      (seq 0 (length xs)).

(** [df.groupby(by)[col].mean()] / [.std()] mapped back on the key column:
    [df[by].map(...)]. *)
Definition group_agg (agg : list Q -> option Q) (keys : column)
    (vals : list (option Q)) : list (option Q) :=
  map (fun k => if is_nan k then None
                else agg (observed (take_at None (group_rows keys k) vals)))
      keys.

Definition agg_mean (obs : list Q) : option Q :=
  if decide (1 <= length obs)%nat then Some (mean obs) else None.

Definition agg_std `{NumLib} (obs : list Q) : option Q :=
  if decide (2 <= length obs)%nat then Some (np_sqrt (var obs)) else None.

(** *** Shifting by a frequency ([shift(freq=...)]) *)

(** [Index.shift(periods, freq)] exists for datetime-like indexes only; on
    the integer row labels of a [DataFrame] it raises. *)
Definition Index_shift (index : list Z) (periods : Z) (freq : string)
  : result (list Z) :=
  Raise (NotImplementedError
    "This method is only implemented for DatetimeIndex, PeriodIndex and TimedeltaIndex; Got type Index").

(** [Series.shift(freq=...)] moves the index and leaves the data. *)
Definition Series_shift (index : list Z) (vals : column) (periods : Z)
    (freq : string) : result (list (Z * cell)) :=
  (index' <- Index_shift index periods freq ;;
   Ok (zip index' vals))%py.

(** [df.groupby(by)[col].shift(freq=...)]: [Series.shift] on each group, the
    pieces glued together. *)
Definition groupby_shift (index : list Z) (keys vals : column) (freq : string)
  : result (list (Z * cell)) :=
  rmap (fun pieces => concat pieces)
    (rmapM (fun k => let rows := group_rows keys k in
                     Series_shift (take_at 0%Z rows index)
                                  (take_at NaN rows vals) 1 freq)
           (group_keys keys)).

(** [df[c] = series]: the series is aligned on the frame's row labels; a
    label the series does not have gets [NaN]. *)
Definition align (index : list Z) (s : list (Z * cell)) : column :=
  map (fun lbl => match list_find (fun p => p.1 = lbl) s with
                  | Some (_, (_, v)) => v
                  | None => NaN
                  end) index.

End Pandas.
Export Pandas.

(** ** numpy's argsort for [kind='quicksort'] *)

(** [aquicksort_] of numpy's [npysort/quicksort.cpp], the routine behind
    [ndarray.argsort(kind='quicksort')] where no vectorised sort is
    dispatched: an introsort on an array of positions, with a
    median-of-three partition while a range spans more than
    [SMALL_QUICKSORT] cells, insertion sort on shorter ranges, and heapsort
    for a range that is reached with the depth limit used up.  Arrays are
    lists read and written by position ([a[i]] is [at_ a i]); every loop is
    given as many turns as the array has cells, which the C loops do not
    exceed. *)
Module Npysort.

Definition SMALL_QUICKSORT : nat := 16.

(** [Tag::less] *)
Definition less (a b : Q) : bool := negb (Qle_bool b a).

Section Sort.
Variable v : list Q.

Definition at_ (a : list nat) (i : nat) : nat := nth i a 0%nat.

(** [v[a[i]]] and [v[vi]] *)
Definition key (a : list nat) (i : nat) : Q := nth (at_ a i) v 0%Q.
Definition val (vi : nat) : Q := nth vi v 0%Q.

(** [INTP_SWAP(a[i], a[j])] *)
Definition swap (a : list nat) (i j : nat) : list nat :=
  <[j := at_ a i]> (<[i := at_ a j]> a).

(** *** [aheapsort_] *)

(** The sift-down loop
    [for (i = l, j = l << 1; j <= n;) { ... }  a[i] = tmp;].
    The C code indexes from 1 through [a = tosort - 1]: its cell [k] is
    cell [base + k - 1] here. *)
Fixpoint sift_down (fuel : nat) (a : list nat) (base n tmp i j : nat)
  : list nat :=
  match fuel with
  | O => <[(base + i - 1)%nat := tmp]> a
  | S fuel =>
      if decide (j <= n)%nat then
        let j := if bool_decide (j < n)%nat
                    && less (key a (base + j - 1)) (key a (base + j))
                 then (j + 1)%nat else j in
        if less (val tmp) (key a (base + j - 1)) then
          sift_down fuel (<[(base + i - 1)%nat := at_ a (base + j - 1)]> a)
            base n tmp j (j + j)
        else <[(base + i - 1)%nat := tmp]> a
      else <[(base + i - 1)%nat := tmp]> a
  end.

Definition aheapsort (a : list nat) (base n : nat) : list nat :=
  (* for (l = n >> 1; l > 0; --l) *)
  let a := foldl (fun a l =>
                    sift_down (length a) a base n (at_ a (base + l - 1))
                      l (l + l))
                 a (rev (seq 1 (n / 2))) in
  (* for (; n > 1;) { tmp = a[n]; a[n] = a[1]; n -= 1; ... } *)
  foldl (fun a n =>
           let tmp := at_ a (base + n - 1) in
           let a := <[(base + n - 1)%nat := at_ a base]> a in
           sift_down (length a) a base (n - 1) tmp 1 2)
        a (rev (seq 2 (n - 1))).

(** *** The partition *)

(** [do { ++pi; } while (less(v[*pi], vp));] *)
Fixpoint scan_up (fuel : nat) (a : list nat) (vp : Q) (pi : nat) : nat :=
  match fuel with
  | O => S pi
  | S fuel =>
      if less (key a (S pi)) vp then scan_up fuel a vp (S pi) else S pi
  end.

(** [do { --pj; } while (less(vp, v[*pj]));] *)
Fixpoint scan_down (fuel : nat) (a : list nat) (vp : Q) (pj : nat) : nat :=
  match fuel with
  | O => pred pj
  | S fuel =>
      if less vp (key a (pred pj)) then scan_down fuel a vp (pred pj)
      else pred pj
  end.

(** [for (;;) { scan up; scan down; if (pi >= pj) break; swap }] *)
Fixpoint cross (fuel : nat) (a : list nat) (vp : Q) (pi pj : nat)
  : list nat * nat :=
  match fuel with
  | O => (a, pi)
  | S fuel =>
      let pi := scan_up (length a) a vp pi in
      let pj := scan_down (length a) a vp pj in
      if decide (pj <= pi)%nat then (a, pi)
      else cross fuel (swap a pi pj) vp pi pj
  end.

(** One turn of [while ((pr - pl) > SMALL_QUICKSORT)]: the array after the
    partition and the place [pi] of the pivot. *)
Definition partition (a : list nat) (pl pr : nat) : list nat * nat :=
  let pm := (pl + (pr - pl) / 2)%nat in
  let a := if less (key a pm) (key a pl) then swap a pm pl else a in
  let a := if less (key a pr) (key a pm) then swap a pr pm else a in
  let a := if less (key a pm) (key a pl) then swap a pm pl else a in
  let vp := key a pm in
  let pj := (pr - 1)%nat in
  let a := swap a pm pj in
  let '(a, pi) := cross (length a) a vp pl pj in
  (swap a pi (pr - 1), pi).

(** The ranges and depths pushed on the stack. *)
Abbreviation stack := (list (nat * nat * Z)).

(** The whole [while ((pr - pl) > SMALL_QUICKSORT)] loop: the smaller part
    is kept, the larger one pushed with the depth left. *)
Fixpoint partitions (fuel : nat) (a : list nat) (pl pr : nat) (cdepth : Z)
    (st : stack) : list nat * (nat * nat) * stack :=
  match fuel with
  | O => (a, (pl, pr), st)
  | S fuel =>
      if decide (SMALL_QUICKSORT < pr - pl)%nat then
        let '(a, pi) := partition a pl pr in
        let cdepth := (cdepth - 1)%Z in
        if decide (pi - pl < pr - pi)%nat then
          partitions fuel a pl (pi - 1) cdepth (((pi + 1)%nat, pr, cdepth) :: st)
        else
          partitions fuel a (pi + 1) pr cdepth ((pl, (pi - 1)%nat, cdepth) :: st)
      else (a, (pl, pr), st)
  end.

(** *** Insertion sort *)

(** [while (pj > pl && less(vp, v[*pk])) { *pj-- = *pk--; }  *pj = vi;]
    with [pk = pj - 1]. *)
Fixpoint shift (fuel : nat) (a : list nat) (pl : nat) (vp : Q) (vi pj : nat)
  : list nat :=
  match fuel with
  | O => <[pj := vi]> a
  | S fuel =>
      if bool_decide (pl < pj)%nat && less vp (key a (pj - 1)) then
        shift fuel (<[pj := at_ a (pj - 1)]> a) pl vp vi (pj - 1)
      else <[pj := vi]> a
  end.

(** [for (pi = pl + 1; pi <= pr; ++pi)] *)
Definition insertion (a : list nat) (pl pr : nat) : list nat :=
  foldl (fun a pi => let vi := at_ a pi in
                     shift (length a) a pl (val vi) vi pi)
        a (seq (S pl) (pr - pl)).

(** *** The outer loop *)

(** [while (1)]: heapsort or partitions and insertion sort on the current
    range, then the next range from the stack. *)
Fixpoint ranges (fuel : nat) (a : list nat) (pl pr : nat) (cdepth : Z)
    (st : stack) : list nat :=
  match fuel with
  | O => a
  | S fuel =>
      let '(a, st) :=
        if (cdepth <? 0)%Z then (aheapsort a pl (pr - pl + 1), st)
        else
          let '(a, (pl, pr), st) := partitions (length a) a pl pr cdepth st in
          (insertion a pl pr, st) in
      match st with
      | [] => a
      | (pl, pr, cdepth) :: st => ranges fuel a pl pr cdepth st
      end
  end.

(** [aquicksort_(v, tosort, num)] on [tosort = 0, 1, ..., num - 1], with
    the depth limit [npy_get_msb(num) * 2]. *)
Definition aquicksort : list nat :=
  let num := length v in
  ranges (S num) (seq 0 num) 0 (num - 1) (Z.log2 (Z.of_nat num) * 2) [].

End Sort.

End Npysort.

(** ** The store of DataFrame objects *)

Module Store.

(** The identity of a DataFrame object. *)
Abbreviation loc := positive.
Abbreviation store := (gmap positive DataFrame).

(** A computation that reads and writes the store and may raise; what it
    wrote before raising stays written. *)
Definition M (A : Type) : Type := store -> result A * store.

Definition ret {A} (a : A) : M A := fun h => (Ok a, h).

Definition bind {A B} (m : M A) (k : A -> M B) : M B :=
  fun h => match m h with
           | (Ok a, h') => k a h'
           | (Raise e, h') => (Raise e, h')
           end.

Definition lift {A} (r : result A) : M A := fun h => (r, h).

Definition alloc (d : DataFrame) : M loc :=
  fun h => let l := fresh (dom h) in (Ok l, <[l := d]> h).

Definition deref (l : loc) : M DataFrame :=
  fun h => match h !! l with
           | Some d => (Ok d, h)
           | None => (Raise (Exn "ReferenceError" "no such object"), h)
           end.

Definition modify (l : loc) (f : DataFrame -> DataFrame) : M unit :=
  fun h => match h !! l with
           | Some d => (Ok tt, <[l := f d]> h)
           | None => (Raise (Exn "ReferenceError" "no such object"), h)
           end.

Fixpoint forM_ {A} (l : list A) (body : A -> M unit) : M unit :=
  match l with
  | [] => ret tt
  | a :: l' => bind (body a) (fun _ => forM_ l' body)
  end.

End Store.
Export Store.

Declare Scope store_scope.
Delimit Scope store_scope with M.
Notation "x <- c1 ;; c2" := (bind c1 (fun x => c2))
  (at level 100, c1 at next level, right associativity) : store_scope.
Notation "c1 ;;; c2" := (bind c1 (fun _ => c2))
  (at level 100, right associativity) : store_scope.

(** [df.copy()] *)
Definition copy (df : loc) : M loc := (d <- deref df ;; alloc d)%M.

(** ['c' in df.columns] *)
Definition contains (c : string) (df : loc) : M bool :=
  (d <- deref df ;; ret (has_col c d))%M.

(** [df[c]] *)
Definition getitem (df : loc) (c : string) : M column :=
  (d <- deref df ;; lift (get_col c d))%M.

(** [df[c] = v] *)
Definition setitem (df : loc) (c : string) (v : column) : M unit :=
  modify df (set_col c v).

(** [df[c] = x] for a scalar [x] *)
Definition setitem_scalar (df : loc) (c : string) (x : cell) : M unit :=
  modify df (fun d => set_col c (broadcast x d) d).

(** [df.sort_values(by)]: the sorted rows are a new object. *)
Definition df_sort_values `{ArgSort} (df : loc) (by_ : string) : M loc :=
  (d <- deref df ;;
   d' <- lift (sort_values by_ true d) ;;
   alloc d')%M.

(** ** [src/feature_engineering.py] *)

Module FeatureEngineering.

Section Engine.
Context `{NumLib} `{ArgSort}.

Local Open Scope store_scope.

Record TransitFeatureEngine := { lag_hours : list Z }.

(** [TransitFeatureEngine()] *)
Definition default_engine : TransitFeatureEngine :=
  {| lag_hours := [1; 3; 24; 168]%Z |}.

(** [(expected - aimed).dt.total_seconds() / 60] *)
Definition minutes_between (expected aimed : cell) : result cell :=
  match expected, aimed with
  | Time e, Time a =>
      Ok (of_float (Some (inject_Z (e - a) / inject_Z ns_per_second / 60)%Q))
  | Time _, NaN | NaN, Time _ | NaN, NaN => Ok NaN
  | _, _ => Raise (TypeError "unsupported operand type(s) for -")
  end.

Definition _add_temporal_features (df : loc) : M loc :=
  has_ts <- contains "timestamp" df ;;
  if negb has_ts then ret df else
  ts <- getitem df "timestamp" ;;
  hour <- lift (dt_field hour_of ts) ;;
  setitem df "hour" hour ;;;
  ts <- getitem df "timestamp" ;;
  dow <- lift (dt_field dayofweek_of ts) ;;
  setitem df "day_of_week" dow ;;;
  ts <- getitem df "timestamp" ;;
  dom <- lift (dt_field day_of ts) ;;
  setitem df "day_of_month" dom ;;;
  ts <- getitem df "timestamp" ;;
  month <- lift (dt_field month_of ts) ;;
  setitem df "month" month ;;;
  dow <- getitem df "day_of_week" ;;
  dow <- lift (floats dow) ;;
  setitem df "is_weekend" (map (fun d => flag (isin [5; 6]%Q d)) dow) ;;;
  (* Peak hours *)
  hour <- getitem df "hour" ;;
  hour <- lift (floats hour) ;;
  setitem df "is_morning_peak" (map (fun h => flag (between 7 9 h)) hour) ;;;
  hour <- getitem df "hour" ;;
  hour <- lift (floats hour) ;;
  setitem df "is_evening_peak" (map (fun h => flag (between 16 18 h)) hour) ;;;
  morning <- getitem df "is_morning_peak" ;;
  evening <- getitem df "is_evening_peak" ;;
  peak <- lift (zip_with_r bit_or morning evening) ;;
  setitem df "is_peak_hour" peak ;;;
  (* Cyclical encoding for hour *)
  hour <- getitem df "hour" ;;
  v <- lift (map_num (fun h => sin_2pi (h / 24)) hour) ;;
  setitem df "hour_sin" v ;;;
  hour <- getitem df "hour" ;;
  v <- lift (map_num (fun h => cos_2pi (h / 24)) hour) ;;
  setitem df "hour_cos" v ;;;
  (* Cyclical encoding for day of week *)
  dow <- getitem df "day_of_week" ;;
  v <- lift (map_num (fun d => sin_2pi (d / 7)) dow) ;;
  setitem df "dow_sin" v ;;;
  dow <- getitem df "day_of_week" ;;
  v <- lift (map_num (fun d => cos_2pi (d / 7)) dow) ;;
  setitem df "dow_cos" v ;;;
  ret df.

Definition _add_delay_features (df : loc) : M loc :=
  has_seconds <- contains "delay_seconds" df ;;
  if has_seconds then
    s <- getitem df "delay_seconds" ;;
    m <- lift (map_num (fun x => x / 60)%Q s) ;;
    setitem df "delay_minutes" m ;;;
    ret df
  else
    has_aimed <- contains "aimed_arrival" df ;;
    has_expected <- contains "expected_arrival" df ;;
    if has_aimed && has_expected then
      a <- getitem df "aimed_arrival" ;;
      a <- lift (to_datetime a) ;;
      setitem df "aimed_arrival" a ;;;
      e <- getitem df "expected_arrival" ;;
      e <- lift (to_datetime e) ;;
      setitem df "expected_arrival" e ;;;
      e <- getitem df "expected_arrival" ;;
      a <- getitem df "aimed_arrival" ;;
      m <- lift (zip_with_r minutes_between e a) ;;
      setitem df "delay_minutes" m ;;;
      ret df
    else ret df.

(** One turn of the loop over [self.lag_hours]. *)
Definition add_lag (df : loc) (hours : Z) : M unit :=
  let col_name := "delay_lag_" ++ pretty hours ++ "h" in
  d <- deref df ;;
  keys <- getitem df "route_id" ;;
  vals <- getitem df "delay_minutes" ;;
  shifted <- lift (groupby_shift (df_index d) keys vals (pretty hours ++ "H")) ;;
  setitem df col_name (align (df_index d) shifted).

(** One turn of the loop over the rolling windows. *)
Definition add_rolling (df : loc) (w : nat) : M unit :=
  keys <- getitem df "route_id" ;;
  vals <- getitem df "delay_minutes" ;;
  xs <- lift (floats vals) ;;
  setitem df ("delay_rolling_mean_" ++ pretty w ++ "h")
    (map of_float (transform (rolling_mean w 1) keys xs)) ;;;
  keys <- getitem df "route_id" ;;
  vals <- getitem df "delay_minutes" ;;
  xs <- lift (floats vals) ;;
  setitem df ("delay_rolling_std_" ++ pretty w ++ "h")
    (map of_float (transform (rolling_std w 1) keys xs)).

Definition _add_lag_features (self : TransitFeatureEngine) (df : loc) : M loc :=
  has_delay <- contains "delay_minutes" df ;;
  has_route <- contains "route_id" df ;;
  if negb has_delay || negb has_route then ret df else
  forM_ (lag_hours self) (add_lag df) ;;;
  (* Rolling statistics *)
  forM_ [3; 6; 12]%nat (add_rolling df) ;;;
  ret df.

Definition _add_route_features (df : loc) : M loc :=
  has_route <- contains "route_id" df ;;
  if negb has_route then ret df else
  (* Average delay by route *)
  keys <- getitem df "route_id" ;;
  vals <- getitem df "delay_minutes" ;;
  xs <- lift (floats vals) ;;
  setitem df "route_avg_delay" (map of_float (group_agg agg_mean keys xs)) ;;;
  (* Route variance *)
  keys <- getitem df "route_id" ;;
  vals <- getitem df "delay_minutes" ;;
  xs <- lift (floats vals) ;;
  setitem df "route_delay_std" (map of_float (group_agg agg_std keys xs)) ;;;
  ret df.

Definition _add_weather_features (df : loc) : M loc :=
  setitem_scalar df "temperature" NaN ;;;
  setitem_scalar df "precipitation" NaN ;;;
  setitem_scalar df "is_rainy" (Num 0) ;;;
  ret df.

Definition _add_event_features (df : loc) : M loc :=
  setitem_scalar df "is_holiday" (Num 0) ;;;
  setitem_scalar df "nearby_event" (Num 0) ;;;
  ret df.

(** Step (a) of [create_features]: the timestamp column is coerced on the
    copy, and the copy is replaced by its sorted rows. *)
Definition sort_by_timestamp (df : loc) : M loc :=
  has_ts <- contains "timestamp" df ;;
  if has_ts then
    ts <- getitem df "timestamp" ;;
    ts <- lift (to_datetime ts) ;;
    setitem df "timestamp" ts ;;;
    df_sort_values df "timestamp"
  else ret df.

(** What [create_features] runs once the rows are in order. *)
Definition derive_features (self : TransitFeatureEngine) (df : loc)
    (include_weather include_events : bool) : M loc :=
  df <- _add_temporal_features df ;;
  df <- _add_delay_features df ;;
  df <- _add_lag_features self df ;;
  df <- _add_route_features df ;;
  df <- (if include_weather then _add_weather_features df else ret df) ;;
  df <- (if include_events then _add_event_features df else ret df) ;;
  ret df.

Definition create_features (self : TransitFeatureEngine) (df : loc)
    (include_weather include_events : bool) : M loc :=
  df <- copy df ;;
  df <- sort_by_timestamp df ;;
  derive_features self df include_weather include_events.

Definition get_feature_names (self : TransitFeatureEngine) : list string :=
  let base_features :=
    ["hour"; "day_of_week"; "day_of_month"; "month";
     "is_weekend"; "is_morning_peak"; "is_evening_peak"; "is_peak_hour";
     "hour_sin"; "hour_cos"; "dow_sin"; "dow_cos"] in
  let lag_features :=
    map (fun h => "delay_lag_" ++ pretty h ++ "h") (lag_hours self) in
  let rolling_features :=
    concat (map (fun w : nat => ["delay_rolling_mean_" ++ pretty w ++ "h";
                                 "delay_rolling_std_" ++ pretty w ++ "h"])
                [3; 6; 12]%nat) in
  let route_features := ["route_avg_delay"; "route_delay_std"] in
  base_features ++ lag_features ++ rolling_features ++ route_features.

End Engine.

End FeatureEngineering.
Export FeatureEngineering.

(** ** [src/model.py] *)

Module Model.

(** What the predictor uses of a scikit-learn regressor.  [est_fit] returns
    the fitted estimator; [estimators_] and [feature_importances_] are
    [None] when the object has no such attribute. *)
Class Estimator (E : Type) := {
  RandomForestRegressor : E;
  GradientBoostingRegressor : E;
  est_fit : E -> DataFrame -> column -> result E;
  est_predict : E -> DataFrame -> result (list Q);
  estimators_ : E -> option (list E);
  feature_importances_ : E -> option (list Q)
}.

(** *** numpy and sklearn.metrics *)

(** [np.clip(x, lo, hi)] *)
Definition np_clip (lo hi x : Q) : Q := Qmin (Qmax x lo) hi.

Definition np_mean (l : list Q) : Q := mean l.

(** [np.std]: population standard deviation. *)
Definition np_std `{NumLib} (l : list Q) : Q :=
  np_sqrt (mean (map (fun x => (x - mean l) * (x - mean l))%Q l)).

Definition mean_absolute_error (y_true y_pred : list Q) : Q :=
  mean (zip_with (fun a b => Qabs (a - b)) y_true y_pred).

Definition mean_squared_error (y_true y_pred : list Q) : Q :=
  mean (zip_with (fun a b => (a - b) * (a - b))%Q y_true y_pred).

Definition r2_score (y_true y_pred : list Q) : Q :=
  let ss_res := Qsum (zip_with (fun a b => (a - b) * (a - b))%Q y_true y_pred) in
  let ss_tot :=
    Qsum (map (fun a => (a - mean y_true) * (a - mean y_true))%Q y_true) in
  if Qeq_bool ss_tot 0 then (if Qeq_bool ss_res 0 then 1 else 0)%Q
  else (1 - ss_res / ss_tot)%Q.

(** [TimeSeriesSplit(n_splits).split(X)] on [n] samples: the pairs of
    training and validation positions, fold by fold. *)
Definition time_series_split (n_splits n : nat)
  : result (list (list nat * list nat)) :=
  let n_folds := S n_splits in
  if decide (n < n_folds)%nat then
    Raise (ValueError "Cannot have number of folds greater than the number of samples")
  else
    let test_size := (n / n_folds)%nat in
    Ok (map (fun k => let test_start := (n - n_splits * test_size + k * test_size)%nat in
                      (seq 0 test_start, seq test_start test_size))
            (seq 0 n_splits)).

(** A numeric target: sklearn refuses missing and non-numeric targets. *)
Definition target (y : column) : result (list Q) :=
  rmapM (fun c => match c with
                  | Num q => Ok q
                  | _ => Raise (ValueError "Input y contains NaN or is not numeric")
                  end) y.

Section Predictor.
Context `{NumLib} `{ArgSort} {E : Type} `{Estimator E}.

Local Open Scope py_scope.

Record TransitDelayPredictor := mkPredictor {
  model_type : string;
  model : E;
  feature_names : option (list string);
  is_trained : bool
}.

Record metrics := mkMetrics {
  mae : Q; rmse : Q; r2 : Q; cv_mae_mean : Q; cv_mae_std : Q
}.

Definition __init__ (model_type : string) : result TransitDelayPredictor :=
  if decide (model_type = "random_forest") then
    Ok (mkPredictor model_type RandomForestRegressor None false)
  else if decide (model_type = "gradient_boosting") then
    Ok (mkPredictor model_type GradientBoostingRegressor None false)
  else Raise (ValueError ("Unknown model type: " ++ model_type)).

(** The cross-validation loop of [train]: the estimator is refitted fold
    after fold; a raise leaves it as the last completed fit left it. *)
Fixpoint cv_loop (folds : list (list nat * list nat)) (X : DataFrame)
    (y : column) (m : E) (cv_scores : list Q) : result (list Q) * E :=
  match folds with
  | [] => (Ok cv_scores, m)
  | (train_idx, val_idx) :: rest =>
      let X_train_cv := take_rows train_idx X in
      let X_val_cv := take_rows val_idx X in
      let y_train_cv := take_at NaN train_idx y in
      let y_val_cv := take_at NaN val_idx y in
      match est_fit m X_train_cv y_train_cv with
      | Raise e => (Raise e, m)
      | Ok m1 =>
          match (y_pred <- est_predict m1 X_val_cv ;;
                 y_val <- target y_val_cv ;;
                 Ok (mean_absolute_error y_val y_pred)) with
          | Raise e => (Raise e, m1)
          | Ok score => cv_loop rest X y m1 (cv_scores ++ [score])
          end
      end
  end.

(** [train] writes the predictor's attributes one after the other; the
    second component is the object as the call leaves it. *)
Definition train (X : DataFrame) (y : column) (validation_split : Q)
    (self : TransitDelayPredictor)
  : result metrics * TransitDelayPredictor :=
  (* Store feature names *)
  let self := mkPredictor (model_type self) (model self)
                (Some (columns X)) (is_trained self) in
  match time_series_split 5 (nrows X) with
  | Raise e => (Raise e, self)
  | Ok folds =>
      match cv_loop folds X y (model self) [] with
      | (Raise e, m) =>
          (Raise e, mkPredictor (model_type self) m (feature_names self)
                      (is_trained self))
      | (Ok cv_scores, m) =>
          (* Final training on all data *)
          match est_fit m X y with
          | Raise e =>
              (Raise e, mkPredictor (model_type self) m (feature_names self)
                          (is_trained self))
          | Ok m' =>
              let self := mkPredictor (model_type self) m'
                            (feature_names self) true in
              (y_pred <- est_predict m' X ;;
               y <- target y ;;
               Ok {| mae := mean_absolute_error y y_pred;
                     rmse := np_sqrt (mean_squared_error y y_pred);
                     r2 := r2_score y y_pred;
                     cv_mae_mean := np_mean cv_scores;
                     cv_mae_std := np_std cv_scores |},
               self)
          end
      end
  end.

Definition predict (self : TransitDelayPredictor) (X : DataFrame)
  : result (list Q) :=
  if negb (is_trained self) then
    Raise (ValueError "Model must be trained before making predictions")
  else
    (* Ensure features match training *)
    X <- (match feature_names self with
          | Some names =>
              if decide (columns X ≠ names) then select names X else Ok X
          | None => Raise (KeyError "None")
          end) ;;
    predictions <- est_predict (model self) X ;;
    (* Clip predictions to reasonable range *)
    Ok (map (np_clip (-10) 60) predictions).

(** Column [j] of a list of per-tree prediction vectors. *)
Definition across {A} (d : A) (rows : list (list A)) (j : nat) : list A :=
  map (fun r => nth j r d) rows.

Definition predict_with_confidence (self : TransitDelayPredictor)
    (X : DataFrame) : result (list Q * list Q) :=
  predictions <- predict self X ;;
  match estimators_ (model self) with
  | Some trees =>
      tree_predictions <- rmapM (fun tree => est_predict tree X) trees ;;
      let std_devs :=
        map (fun j => np_std (across 0%Q tree_predictions j))
            (seq 0 (nrows X)) in
      Ok (predictions, std_devs)
  | None => Ok (predictions, map (fun _ => 2%Q) predictions)
  end.

Definition empty_frame : DataFrame := mkDF [] [].

Definition get_feature_importance (self : TransitDelayPredictor)
  : result DataFrame :=
  if negb (is_trained self) then
    Raise (ValueError "Model must be trained first")
  else
    match feature_importances_ (model self) with
    | None => Ok empty_frame
    | Some imps =>
        let names := default [] (feature_names self) in
        if decide (length names = length imps) then
          sort_values "importance" false
            (mkDF (map Z.of_nat (seq 0 (length names)))
                  [("feature", map Str names); ("importance", map Num imps)])
        else Raise (ValueError "All arrays must be of the same length")
    end.

(** The dictionary that [save] hands to [joblib.dump]. *)
Record model_data := mkModelData {
  md_model : E;
  md_model_type : string;
  md_feature_names : option (list string);
  md_is_trained : bool
}.

(** The files written by [joblib.dump], by path as written.  [joblib.load]
    gives back the object that was dumped.  Nothing below compares two
    different paths. *)
Abbreviation disk := (gmap string model_data).

Definition save (self : TransitDelayPredictor) (path : string) (fs : disk)
  : result unit * disk :=
  if negb (is_trained self) then
    (Raise (ValueError "Cannot save untrained model"), fs)
  else
    let data := {| md_model := model self;
                   md_model_type := model_type self;
                   md_feature_names := feature_names self;
                   md_is_trained := is_trained self |} in
    (Ok tt, <[path := data]> fs).

Definition load (path : string) (fs : disk) : result TransitDelayPredictor :=
  data <- (match fs !! path with
           | Some d => Ok d
           | None => Raise (FileNotFoundError path)
           end) ;;
  predictor <- __init__ (md_model_type data) ;;
  let predictor := mkPredictor (model_type predictor) (md_model data)
                     (feature_names predictor) (is_trained predictor) in
  let predictor := mkPredictor (model_type predictor) (model predictor)
                     (md_feature_names data) (is_trained predictor) in
  let predictor := mkPredictor (model_type predictor) (model predictor)
                     (feature_names predictor) (md_is_trained data) in
  Ok predictor.

(** The predictors a program can hold: built by [__init__], then trained
    any number of times (a call to [train] that raises included). *)
Inductive reachable : TransitDelayPredictor -> Prop :=
  | reach_init model_type p :
      __init__ model_type = Ok p -> reachable p
  | reach_train p X y validation_split :
      reachable p -> reachable (train X y validation_split p).2.

End Predictor.

End Model.
Export Model.

(** ** The specification's reading, and the vocabulary of the statements *)

Module Spec.

(** "Rows with equal timestamps keep their original relative order": in a
    frame that was labelled 0, 1, 2, ... before sorting, two rows that carry
    the same timestamp come out with increasing labels. *)
Definition ties_keep_order (after : DataFrame) : Prop :=
  forall ts a b la lb c,
    get_col "timestamp" after = Ok ts ->
    (a < b)%nat ->
    ts !! a = Some c -> ts !! b = Some c ->
    df_index after !! a = Some la -> df_index after !! b = Some lb ->
    (la < lb)%Z.

(** "The trailing time window of W hours ending at the current row's
    timestamp": the rows of the same route, up to the current row, whose
    timestamp lies in (T - W hours, T]. *)
Definition in_time_window (W : Z) (times keys : column) (i j : nat) : bool :=
  match times !! i, times !! j, keys !! i with
  | Some (Time T), Some (Time t), Some k =>
      in_group keys k j && bool_decide (j <= i)%nat
      && bool_decide (T - W * ns_per_hour < t <= T)%Z
  | _, _, _ => false
  end.

Definition time_window_mean (W : Z) (times keys : column)
    (xs : list (option Q)) (i : nat) : option Q :=
  let rows := filter (fun j => in_time_window W times keys i j)
                     (seq 0 (length xs)) in
  let obs := observed (take_at None rows xs) in
  if decide (1 <= length obs)%nat then Some (mean obs) else None.

(** The rows of the route of row [i], up to row [i] included. *)
Definition route_rows_upto (keys : column) (i : nat) : list nat :=
  match keys !! i with
  | Some k => filter (fun j => (j <= i)%nat) (group_rows keys k)
  | None => []
  end.

(** The last [w] observations of the route of row [i], row [i] included,
    whatever their timestamps. *)
Definition trailing_rows (w : nat) (keys : column) (i : nat) : list nat :=
  let rows := route_rows_upto keys i in
  drop (length rows - w) rows.

(** Timestamps in ascending order, the missing ones last. *)
Definition cell_le (a b : cell) : Prop :=
  match a, b with
  | Time s, Time t => (s <= t)%Z
  | _, NaN => True
  | _, _ => False
  end.

(** "The most recent delay value of the same route at a time at most
    T - H": among the rows of the route of row [i] whose timestamp is at
    most T - H hours, the value of the one with the latest timestamp. *)
Definition at_most_lag (H : Z) (times keys : list cell) (i j : nat) : bool :=
  match times !! i, times !! j, keys !! i with
  | Some (Time T), Some (Time t), Some k =>
      in_group keys k j && bool_decide (t <= T - H * ns_per_hour)%Z
  | _, _, _ => false
  end.

Definition later_of (times : list cell) (best j : nat) : nat :=
  match times !! best, times !! j with
  | Some (Time a), Some (Time b) => if (a <=? b)%Z then j else best
  | _, _ => best
  end.

Definition asof_lag (H : Z) (times keys : list cell) (xs : list (option Q))
    (i : nat) : option Q :=
  match filter (fun j => at_most_lag H times keys i j) (seq 0 (length xs)) with
  | [] => None
  | j0 :: rest => mjoin (xs !! foldl (later_of times) j0 rest)
  end.

(** The interval of predicted delays, in minutes. *)
Definition in_range (y : Q) : Prop := (-10 <= y /\ y <= 60)%Q.

(** *** Vocabulary of the statements *)

(** The columns of [X] that the contract names, in the order of the
    contract. *)
Definition contract_view (names : list string) (X : DataFrame) : DataFrame :=
  mkDF (df_index X)
       (map (fun c => (c, default [] (assoc c (df_columns X)))) names).

(** [keeps P m Q]: started in a store that holds the objects [P], [m] leaves
    each of them as it was, whether it returns or raises, and a returned
    value satisfies [Q]. *)
Definition keeps {A} (P : gset positive) (m : M A) (Q : A -> Prop) : Prop :=
  forall h : gmap positive DataFrame,
    P ⊆ dom h ->
    (forall l, l ∈ P -> (m h).2 !! l = h !! l) /\
    (forall a, (m h).1 = Ok a -> Q a).

(** A cell of a datetime column: an instant or [NaT]. *)
Definition datetimelike (c : cell) : Prop :=
  match c with
  | Time _ | NaN => True
  | _ => False
  end.

(** The value of a [dt] field on one cell, as a number and as a cell. *)
Definition dt_opt (f : Z -> Z) (c : cell) : option Q :=
  match c with
  | Time t => Some (inject_Z (f t))
  | _ => None
  end.

Definition dt_cell (f : Z -> Z) (c : cell) : cell :=
  match c with
  | Time t => Num (inject_Z (f t))
  | _ => NaN
  end.

(** The column names of the rolling features. *)
Definition mean_name (w : nat) : string :=
  "delay_rolling_mean_" ++ pretty w ++ "h".

Definition std_name (w : nat) : string :=
  "delay_rolling_std_" ++ pretty w ++ "h".

(** Mean and standard deviation of the last [w] observations of the route
    of row [i]. *)
Definition trailing_mean (w : nat) (keys : list cell) (xs : list (option Q))
    (i : nat) : option Q :=
  let obs := observed (take_at None (trailing_rows w keys i) xs) in
  if decide (1 <= length obs)%nat then Some (mean obs) else None.

Definition trailing_std `{NumLib} (w : nat) (keys : list cell)
    (xs : list (option Q)) (i : nat) : option Q :=
  let obs := observed (take_at None (trailing_rows w keys i) xs) in
  if decide (2 <= length obs)%nat then Some (np_sqrt (var obs)) else None.

(** The positions of the keys that are not missing, counted from [a]. *)
Fixpoint positions_from (a : nat) (items : list (option Q)) : list nat :=
  match items with
  | [] => []
  | Some _ :: rest => a :: positions_from (S a) rest
  | None :: rest => positions_from (S a) rest
  end.

(** The sort key of a cell of a datetime column. *)
Definition dt_key (c : cell) : option Q :=
  match c with
  | Time t => Some (inject_Z t)
  | _ => None
  end.

(** The columns that [_add_temporal_features] writes. *)
Definition temporal_names : list string :=
  ["hour"; "day_of_week"; "day_of_month"; "month"; "is_weekend";
   "is_morning_peak"; "is_evening_peak"; "is_peak_hour";
   "hour_sin"; "hour_cos"; "dow_sin"; "dow_cos"].

(** The name of a lag column, and the names [get_feature_names] lists
    besides the lag columns. *)
Definition lag_name (hours : Z) : string := "delay_lag_" ++ pretty hours ++ "h".

Definition fixed_names : list string :=
  temporal_names
  ++ ["delay_rolling_mean_3h"; "delay_rolling_std_3h";
      "delay_rolling_mean_6h"; "delay_rolling_std_6h";
      "delay_rolling_mean_12h"; "delay_rolling_std_12h";
      "route_avg_delay"; "route_delay_std"].

(** Columns of a feature table that are no features: the raw inputs, the
    target and the placeholders. *)
Definition not_features : list string :=
  ["timestamp"; "route_id"; "delay_seconds"; "aimed_arrival";
   "expected_arrival"; "delay_minutes"; "temperature"; "precipitation";
   "is_rainy"; "is_holiday"; "nearby_event"].

(** The columns [create_features] may write on its copy. *)
Definition written_names : list string :=
  "timestamp" :: "delay_minutes" :: fixed_names
  ++ ["temperature"; "precipitation"; "is_rainy"; "is_holiday";
      "nearby_event"].

(** [adds names d d']: [d'] has the row labels of [d], carries every column
    of [names], and agrees with [d] on every other column. *)
Definition adds (names : list string) (d d' : DataFrame) : Prop :=
  df_index d' = df_index d /\
  (forall c, c ∈ names -> has_col c d' = true) /\
  (forall c, c ∉ names -> get_col c d' = get_col c d).

End Spec.
Export Spec.

(** ** Concrete library instances and tables *)

Module Examples.

(** Insertion sort on positions: position [i] is put in front of the first
    position [j] with [before k_i k_j]. *)
Fixpoint insert_by (before : Q -> Q -> bool) (ks : list Q) (i : nat)
    (l : list nat) : list nat :=
  match l with
  | [] => [i]
  | j :: l' =>
      if before (nth i ks 0%Q) (nth j ks 0%Q) then i :: j :: l'
      else j :: insert_by before ks i l'
  end.

Definition argsort_by (before : Q -> Q -> bool) (ks : list Q) : list nat :=
  foldr (insert_by before ks) [] (seq 0 (length ks)).

(** In front of the first key that is not smaller: equal keys stay in
    their original order. *)
Definition before_le (a b : Q) : bool := Qle_bool a b.

(** Keys in nondecreasing order. *)
Fixpoint nondecreasing (l : list Q) : bool :=
  match l with
  | a :: (b :: _) as rest => Qle_bool a b && nondecreasing rest
  | _ => true
  end.

(** numpy's quicksort as an argsort for the engine.  Its result is checked
    against numpy's promise (a permutation of the positions that puts the
    keys in order); the insertion sort stands behind a run that would break
    the promise. *)
Definition npy_argsort (ks : list Q) : list nat :=
  let order := Npysort.aquicksort ks in
  if bool_decide (order ≡ₚ seq 0 (length ks))
     && nondecreasing (take_at 0%Q order ks)
  then order else argsort_by before_le ks.

(** No parser, and stand-ins for the irrational functions. *)
Definition plain_numlib : NumLib :=
  {| np_sqrt := fun x => x;
     sin_2pi := fun _ => 0%Q;
     cos_2pi := fun _ => 1%Q;
     parse_datetime := fun _ => None |}.

(** A regressor with one parameter: it predicts the slope times the first
    feature, and fitting sets the slope to the mean target. *)
Definition slope_fit (m : Q) (X : DataFrame) (y : column) : result Q :=
  rmap (fun ys => Qred (mean ys)) (target y).

Definition slope_predict (m : Q) (X : DataFrame) : result (list Q) :=
  match df_columns X with
  | (_, v) :: _ =>
      rmap (map (fun o => match o with
                          | Some x => Qred (m * x)
                          | None => 0%Q
                          end)) (floats v)
  | [] => Raise (ValueError "at least one feature is required")
  end.

Definition slope_estimator : Estimator Q :=
  {| RandomForestRegressor := 0%Q;
     GradientBoostingRegressor := 0%Q;
     est_fit := slope_fit;
     est_predict := slope_predict;
     estimators_ := fun _ => None;
     feature_importances_ := fun _ => None |}.

Definition hours (n : Z) : Z := (n * ns_per_hour)%Z.

(** 2024-01-01T00:00, the first instant of the tables in
    [tests/test_transit.py]. *)
Definition t0 : Z := (19723 * ns_per_day)%Z.

(** The table of [test_delay_calculation]: ten hourly rows of route 14. *)
Definition test_table : DataFrame :=
  mkDF (map Z.of_nat (seq 0 10))
    [("timestamp", map (fun n => Time (t0 + hours (Z.of_nat n))) (seq 0 10));
     ("route_id", replicate 10 (Str "14"));
     ("delay_seconds",
      map (fun z => Num (inject_Z z))
          [0; 60; 120; 180; 240; 300; -60; -120; 0; 180]%Z)].

(** Three observations of one route, ten hours apart. *)
Definition sparse_table : DataFrame :=
  mkDF [0; 1; 2]%Z
    [("timestamp", [Time t0; Time (t0 + hours 10); Time (t0 + hours 20)]);
     ("route_id", [Str "14"; Str "14"; Str "14"]);
     ("delay_minutes", [Num 0; Num 6; Num 12])].

(** Two rows with the same timestamp. *)
Definition tied_table : DataFrame :=
  mkDF [0; 1]%Z
    [("timestamp", [Time t0; Time t0]);
     ("entity_id", [Str "a"; Str "b"])].

(** Eighteen stop visits reported at one instant, in the order of the
    feed. *)
Definition burst_table : DataFrame :=
  mkDF (map Z.of_nat (seq 0 18))
    [("timestamp", replicate 18 (Time t0));
     ("delay_seconds", map (fun n => Num (inject_Z (60 * Z.of_nat n))) (seq 0 18))].

(** A table with both target sources. *)
Definition both_sources_table : DataFrame :=
  mkDF [0; 1]%Z
    [("delay_seconds", [Num 180; Num (-60)]);
     ("aimed_arrival", [Time t0; Time t0]);
     ("expected_arrival", [Time (t0 + hours 1); Time (t0 + hours 1)])].

(** A table with the timestamp pair only, five minutes apart. *)
Definition pair_table : DataFrame :=
  mkDF [0]%Z
    [("aimed_arrival", [Time t0]);
     ("expected_arrival", [Time (t0 + 300 * ns_per_second)])].

(** Two stop visits without a route, later one first. *)
Definition deviation_table : DataFrame :=
  mkDF [0; 1]%Z
    [("entity_id", [Str "a"; Str "b"]);
     ("timestamp", [Time (t0 + hours 1); Time t0]);
     ("delay_seconds", [Num 60; Num 180])].

(** Training data for the one-parameter regressor, and a feature table
    whose columns are in another order. *)
Definition X_train : DataFrame :=
  mkDF (map Z.of_nat (seq 0 6))
    [("hour", map (fun n => Num (inject_Z (Z.of_nat n))) (seq 0 6));
     ("is_peak_hour", replicate 6 (Num 0))].

Definition y_train : column := replicate 6 (Num 10).

Definition X_far : DataFrame :=
  mkDF [0; 1; 2]%Z
    [("hour", [Num (-5); Num 20; Num (1 # 2)]);
     ("is_peak_hour", [Num 0; Num 1; Num 0])].

Definition X_shuffled : DataFrame :=
  mkDF [0; 1; 2]%Z
    [("extra", [Str "x"; Str "y"; Str "z"]);
     ("is_peak_hour", [Num 0; Num 1; Num 0]);
     ("hour", [Num (-5); Num 20; Num (1 # 2)])].

Definition X_missing : DataFrame :=
  mkDF [0; 1; 2]%Z [("hour", [Num (-5); Num 20; Num (1 # 2)])].

(** A fresh random-forest predictor over the one-parameter regressor, and
    the same predictor after [train(X_train, y_train)]: slope 10, contract
    [hour; is_peak_hour]. *)
Definition fresh_predictor : @TransitDelayPredictor Q :=
  mkPredictor "random_forest" 0%Q None false.

Definition trained_predictor : @TransitDelayPredictor Q :=
  (@train plain_numlib Q slope_estimator X_train y_train (1 # 5)
     fresh_predictor).2.

(** A committee of one-parameter regressors that all read the first
    feature: it predicts the mean of its members' outputs, exposes the
    members as [estimators_] and their slopes as [feature_importances_].
    Fitting gives a silent member and one with the mean target as slope. *)
Definition committee_fit (m : list Q) (X : DataFrame) (y : column)
  : result (list Q) :=
  rmap (fun ys => [0%Q; Qred (mean ys)]) (target y).

Definition committee_predict (m : list Q) (X : DataFrame) : result (list Q) :=
  rmap (fun outs => map (fun j => Qred (np_mean (across 0%Q outs j)))
                        (seq 0 (nrows X)))
       (rmapM (fun s => slope_predict s X) m).

Definition committee_estimator : Estimator (list Q) :=
  {| RandomForestRegressor := [0%Q; 0%Q];
     GradientBoostingRegressor := [0%Q];
     est_fit := committee_fit;
     est_predict := committee_predict;
     estimators_ := fun m => Some (map (fun s => [s]) m);
     feature_importances_ := fun m => Some m |}.

(** A fresh committee and the committee after [train(X_train, y_train)]:
    members with slopes 0 and 10, contract [hour; is_peak_hour]. *)
Definition fresh_committee : @TransitDelayPredictor (list Q) :=
  mkPredictor "random_forest" [0%Q; 0%Q] None false.

Definition trained_committee : @TransitDelayPredictor (list Q) :=
  (@train plain_numlib (list Q) committee_estimator X_train y_train (1 # 5)
     fresh_committee).2.

(** A table with none of the columns the feature steps look for, and one
    that names routes but has no delay. *)
Definition ids_table : DataFrame :=
  mkDF [0; 1]%Z [("entity_id", [Str "a"; Str "b"])].

Definition routes_table : DataFrame :=
  mkDF [0; 1]%Z
    [("timestamp", [Time (t0 + hours 1); Time t0]);
     ("route_id", [Str "14"; Str "38"])].

(** Saturday 2024-01-06 at 08:00, and a row without a timestamp. *)
Definition calendar_table : DataFrame :=
  mkDF [0; 1]%Z
    [("timestamp", [Time (t0 + hours (5 * 24 + 8)); NaN]);
     ("entity_id", [Str "a"; Str "b"])].

(** A table that brings its own [temperature] column. *)
Definition weather_table : DataFrame :=
  mkDF [0; 1]%Z
    [("temperature", [Num 12; Num 14]);
     ("entity_id", [Str "a"; Str "b"])].

(** Two routes and a row without a route. *)
Definition two_routes_table : DataFrame :=
  mkDF [0; 1; 2; 3]%Z
    [("route_id", [Str "14"; Str "38"; Str "14"; NaN]);
     ("delay_minutes", [Num 2; Num 5; Num 4; Num 1])].

End Examples.
Export Examples.

(** * Lists *)

Lemma lookup_map {A B} (f : A -> B) (l : list A) (i : nat) :
  map f l !! i = f <$> l !! i.
Proof. revert i. induction l as [| a l IH]; intros [| i]; simpl; auto. Qed.

(** * Properties of the delay predictor *)

Section PredictorFacts.
Context `{NumLib} `{ArgSort} {E : Type} `{Estimator E}.

Lemma init_inv (mt : string) (p : TransitDelayPredictor) :
  __init__ mt = Ok p ->
  model_type p = mt /\ is_trained p = false /\ feature_names p = None /\
  (mt = "random_forest" \/ mt = "gradient_boosting").
Proof.
  unfold __init__. intros Hp.
  destruct (decide (mt = "random_forest")) as [-> | ?].
  { inversion Hp; subst; simpl; auto. }
  destruct (decide (mt = "gradient_boosting")) as [-> | ?];
    inversion Hp; subst; simpl; auto.
Qed.

(** [train] never touches the model-type tag, and always records the
    columns of [X]. *)
Lemma train_model_type X y vs (p : TransitDelayPredictor) :
  model_type (train X y vs p).2 = model_type p.
Proof.
  unfold train; simpl.
  destruct (time_series_split 5 (nrows X)) as [folds | e]; [| reflexivity].
  destruct (cv_loop folds X y (model p) []) as [[scores | e] m]; [| reflexivity].
  destruct (est_fit m X y); reflexivity.
Qed.

Lemma train_feature_names X y vs (p : TransitDelayPredictor) :
  feature_names (train X y vs p).2 = Some (columns X).
Proof.
  unfold train; simpl.
  destruct (time_series_split 5 (nrows X)) as [folds | e]; [| reflexivity].
  destruct (cv_loop folds X y (model p) []) as [[scores | e] m]; [| reflexivity].
  destruct (est_fit m X y); reflexivity.
Qed.

(** Invariant of the reachable predictors: the tag is one [__init__]
    accepts, and a trained predictor has a feature-name contract. *)
Lemma reachable_inv (p : TransitDelayPredictor) :
  reachable p ->
  (model_type p = "random_forest" \/ model_type p = "gradient_boosting") /\
  (is_trained p = true -> is_Some (feature_names p)).
Proof.
  induction 1 as [mt p Hinit | p X y vs Hreach [IHty IHnames]].
  - destruct (init_inv mt p Hinit) as (-> & -> & _ & Hmt). split; [exact Hmt | discriminate].
  - rewrite train_model_type, train_feature_names. split; [exact IHty | eauto].
Qed.

Lemma init_valid (mt : string) :
  mt = "random_forest" \/ mt = "gradient_boosting" ->
  exists m : E, __init__ mt = Ok (mkPredictor mt m None false).
Proof.
  unfold __init__. intros [-> | ->]; simpl; eauto.
Qed.

Lemma np_clip_in_range (x : Q) : in_range (np_clip (-10) 60 x).
Proof.
  unfold in_range, np_clip. split.
  - apply Q.min_glb; [apply Q.le_max_r | discriminate].
  - apply Q.le_min_r.
Qed.

Lemma np_clip_id (x : Q) : in_range x -> (np_clip (-10) 60 x == x)%Q.
Proof.
  intros [Hlo Hhi]. unfold np_clip.
  rewrite (Q.max_l x (-10)) by exact Hlo. apply Q.min_l. exact Hhi.
Qed.

Lemma np_clip_below (x : Q) : (x < -10 -> np_clip (-10) 60 x == -10)%Q.
Proof.
  intros Hlt. unfold np_clip.
  rewrite (Q.max_r x (-10)) by (by apply Qlt_le_weak). by apply Q.min_l.
Qed.

Lemma np_clip_above (x : Q) : (60 < x -> np_clip (-10) 60 x == 60)%Q.
Proof.
  intros Hlt. unfold np_clip.
  rewrite (Q.max_l x (-10)).
  - apply Q.min_r. by apply Qlt_le_weak.
  - apply Qlt_le_weak. eapply Qlt_trans; [| exact Hlt]. reflexivity.
Qed.

(** ** C3: the untrained guard *)

(** C3 (as the code has it): on a freshly constructed predictor, [predict],
    [predict_with_confidence], [get_feature_importance] and [save] each
    raise a [ValueError]; nothing is written to disk and no operation
    returns a value. *)
Theorem untrained_guard (mt : string) (p : TransitDelayPredictor)
    (X : DataFrame) (path : string) (fs : gmap string model_data) :
  __init__ mt = Ok p ->
  predict p X
    = Raise (ValueError "Model must be trained before making predictions") /\
  predict_with_confidence p X
    = Raise (ValueError "Model must be trained before making predictions") /\
  get_feature_importance p = Raise (ValueError "Model must be trained first") /\
  save p path fs = (Raise (ValueError "Cannot save untrained model"), fs).
Proof.
  intros Hinit. destruct (init_inv mt p Hinit) as (_ & Htr & _ & _).
  unfold predict_with_confidence, predict, get_feature_importance, save.
  rewrite Htr. simpl. auto.
Qed.

End PredictorFacts.

(** * The sorts of the examples meet numpy's contract *)

Section InsertionSort.
Variable before : Q -> Q -> bool.
Hypothesis before_true : forall a b, before a b = true -> (a <= b)%Q.
Hypothesis before_false : forall a b, before a b = false -> (b <= a)%Q.

Lemma insert_by_perm ks i l : insert_by before ks i l ≡ₚ i :: l.
Proof.
  induction l as [| j l IH]; simpl; [reflexivity |].
  destruct (before _ _); [reflexivity |].
  rewrite IH. apply Permutation_swap.
Qed.

Lemma argsort_by_perm ks : argsort_by before ks ≡ₚ seq 0 (length ks).
Proof.
  unfold argsort_by. induction (seq 0 (length ks)) as [| i l IH]; simpl.
  - reflexivity.
  - rewrite insert_by_perm. by rewrite IH.
Qed.

Lemma insert_by_sorted ks i l :
  StronglySorted Qle (take_at 0%Q l ks) ->
  StronglySorted Qle (take_at 0%Q (insert_by before ks i l) ks).
Proof.
  unfold take_at. induction l as [| j l IH]; simpl; intros Hs.
  - repeat constructor.
  - inversion Hs as [| ? ? Hs' Hall]; subst.
    destruct (before _ _) eqn:Hb; simpl.
    + constructor; [exact Hs |]. constructor; [by apply before_true |].
      eapply Forall_impl; [exact Hall |]. simpl. intros x Hx.
      eapply Qle_trans; [by apply before_true | exact Hx].
    + constructor; [by apply IH |].
      assert (Hp : map (fun i0 => nth i0 ks 0%Q) (insert_by before ks i l)
                   ≡ₚ nth i ks 0%Q :: map (fun i0 => nth i0 ks 0%Q) l).
      { change (nth i ks 0%Q :: map (fun i0 => nth i0 ks 0%Q) l)
          with (map (fun i0 => nth i0 ks 0%Q) (i :: l)).
        apply Permutation_map, insert_by_perm. }
      rewrite Hp. constructor; [by apply before_false | exact Hall].
Qed.

Lemma argsort_by_sorted ks :
  StronglySorted Qle (take_at 0%Q (argsort_by before ks) ks).
Proof.
  unfold argsort_by. induction (seq 0 (length ks)) as [| i l IH]; simpl.
  - constructor.
  - by apply insert_by_sorted.
Qed.

End InsertionSort.

Lemma before_le_true a b : before_le a b = true -> (a <= b)%Q.
Proof. unfold before_le. apply Qle_bool_imp_le. Qed.

Lemma before_le_false a b : before_le a b = false -> (b <= a)%Q.
Proof.
  unfold before_le. intros Hf. apply Qlt_le_weak, Qnot_le_lt.
  intros Hle. apply Qle_bool_iff in Hle. congruence.
Qed.

(** A sort that keeps equal keys in their original order. *)
Definition insertion_argsort : ArgSort :=
  {| argsort := argsort_by before_le;
     argsort_perm := argsort_by_perm before_le;
     argsort_sorted := argsort_by_sorted before_le before_le_true before_le_false |}.

Lemma nondecreasing_sorted (l : list Q) :
  nondecreasing l = true -> StronglySorted Qle l.
Proof.
  induction l as [| a l IH]; [constructor |].
  destruct l as [| b l]; [repeat constructor |].
  intros Hnd. change (Qle_bool a b && nondecreasing (b :: l) = true) in Hnd.
  apply andb_true_iff in Hnd as [Hab Hrest].
  apply Qle_bool_imp_le in Hab. specialize (IH Hrest).
  constructor; [exact IH |]. constructor; [exact Hab |].
  apply StronglySorted_inv in IH as [_ Hall].
  eapply Forall_impl; [exact Hall |]. simpl. intros x Hx.
  by eapply Qle_trans.
Qed.

Lemma npy_argsort_perm ks : npy_argsort ks ≡ₚ seq 0 (length ks).
Proof.
  unfold npy_argsort.
  destruct (bool_decide (Npysort.aquicksort ks ≡ₚ seq 0 (length ks))) eqn:Hp;
    simpl.
  - destruct (nondecreasing _);
      [by apply bool_decide_eq_true in Hp
      | apply (argsort_by_perm before_le)].
  - apply (argsort_by_perm before_le).
Qed.

Lemma npy_argsort_sorted ks :
  StronglySorted Qle (take_at 0%Q (npy_argsort ks) ks).
Proof.
  unfold npy_argsort.
  destruct (bool_decide (Npysort.aquicksort ks ≡ₚ seq 0 (length ks))); simpl.
  - destruct (nondecreasing _) eqn:Hs;
      [by apply nondecreasing_sorted
      | apply (argsort_by_sorted before_le before_le_true before_le_false)].
  - apply (argsort_by_sorted before_le before_le_true before_le_false).
Qed.

(** numpy's quicksort. *)
Definition npy_quicksort : ArgSort :=
  {| argsort := npy_argsort;
     argsort_perm := npy_argsort_perm;
     argsort_sorted := npy_argsort_sorted |}.

(** * The feature-name contract, clamping and persistence *)

Section PredictorClaims.
Context `{NumLib} `{ArgSort} {E : Type} `{Estimator E}.

(** ** C2: clamping *)

(** C2: every value returned by [predict] lies in the closed interval
    [-10, 60]; when the predictor is trained, the columns of [X] are the
    feature-name contract and the estimator returns [raw], [predict] returns
    [raw] clamped value by value, whatever [raw] holds: a raw value inside
    the interval comes back as it is, any other as the nearer bound. *)
Theorem predict_clamped (p : TransitDelayPredictor) (X : DataFrame) :
  (forall ys, predict p X = Ok ys -> Forall in_range ys) /\
  (forall raw,
      is_trained p = true ->
      feature_names p = Some (columns X) ->
      est_predict (model p) X = Ok raw ->
      exists ys,
        predict p X = Ok ys /\
        length ys = length raw /\
        Forall in_range ys /\
        forall i r, raw !! i = Some r ->
          exists y, ys !! i = Some y /\
            (in_range r -> y == r)%Q /\
            (r < -10 -> y == -10)%Q /\
            (60 < r -> y == 60)%Q).
Proof.
  assert (Hclip : forall raw, Forall in_range (map (np_clip (-10) 60) raw)).
  { intros raw. apply Forall_forall. intros y Hy.
    apply list_elem_of_fmap in Hy as (x & -> & _). apply np_clip_in_range. }
  split.
  - unfold predict. intros ys.
    destruct (is_trained p); simpl; [| discriminate].
    destruct (match feature_names p with
              | Some names =>
                  if decide (columns X ≠ names) then select names X else Ok X
              | None => Raise (KeyError "None")
              end) as [X' | e]; simpl; [| discriminate].
    destruct (est_predict (model p) X') as [raw | e]; simpl; [| discriminate].
    intros [= <-]. apply Hclip.
  - intros raw Htr Hnames Hraw. unfold predict. rewrite Htr, Hnames. simpl.
    destruct (decide (columns X ≠ columns X)) as [Hne | _]; [by destruct Hne |].
    simpl. rewrite Hraw. simpl. eexists. split; [reflexivity |].
    split; [apply length_map |]. split; [apply Hclip |].
    intros i r Hi. exists (np_clip (-10) 60 r).
    split; [by rewrite lookup_map, Hi |].
    split; [apply np_clip_id |]. split; [apply np_clip_below | apply np_clip_above].
Qed.

(** ** C7: the feature-name contract *)

Lemma cols_named_absent c (l : list (string * column)) :
  c ∉ l.*1 -> cols_named c l = [].
Proof.
  unfold cols_named. induction l as [| [k v] l IH]; simpl; [done |].
  intros Hnin. apply not_elem_of_cons in Hnin as [Hne Hnin].
  rewrite filter_cons_False by (simpl; congruence). by apply IH.
Qed.

Lemma cols_named_nodup c (l : list (string * column)) :
  NoDup l.*1 -> c ∈ l.*1 ->
  cols_named c l = [(c, default [] (assoc c l))].
Proof.
  induction l as [| [k v] l IH]; simpl.
  - intros _ Hin. inversion Hin.
  - intros Hnd Hin. apply NoDup_cons in Hnd as [Hk Hnd].
    unfold cols_named in *. destruct (decide (k = c)) as [-> | Hne].
    + rewrite filter_cons_True by done.
      fold (cols_named c l). by rewrite cols_named_absent.
    + rewrite filter_cons_False by (simpl; congruence).
      apply IH; [exact Hnd |].
      apply elem_of_cons in Hin as [-> | Hin]; [done | exact Hin].
Qed.

Lemma select_present (names : list string) (X : DataFrame) :
  NoDup (columns X) -> names ⊆ columns X ->
  select names X = Ok (contract_view names X).
Proof.
  intros Hnd Hsub. unfold select.
  assert (Hnone : filter (fun c => c ∉ columns X) names = []).
  { induction names as [| c names IH]; [done |].
    rewrite filter_cons_False.
    - apply IH. intros x Hx. apply Hsub. by right.
    - intros Hc. apply Hc, Hsub. by left. }
  rewrite Hnone. unfold contract_view. do 2 f_equal.
  clear Hnone. induction names as [| c names IH]; [done |].
  simpl. rewrite cols_named_nodup; [| exact Hnd | apply Hsub; by left].
  simpl. f_equal. apply IH. intros x Hx. apply Hsub. by right.
Qed.

Lemma select_absent (names : list string) (X : DataFrame) (c : string) :
  c ∈ names -> c ∉ columns X -> raises (select names X) "KeyError".
Proof.
  intros Hin Hnin. unfold select.
  destruct (filter (fun c => c ∉ columns X) names) as [| c' rest] eqn:Hf.
  - exfalso. exact (filter_nil_not_elem_of _ _ c Hf Hnin Hin).
  - reflexivity.
Qed.

Lemma assoc_present c (l : list (string * column)) :
  c ∈ l.*1 -> exists v, assoc c l = Some v.
Proof.
  induction l as [| [k v] l IH]; simpl.
  - intros Hin. inversion Hin.
  - intros Hin. destruct (decide (k = c)); [eauto |].
    apply IH. apply elem_of_cons in Hin as [-> | Hin]; [done | exact Hin].
Qed.

Lemma assoc_contract c names (l : list (string * column)) :
  c ∈ names ->
  assoc c (map (fun c => (c, default [] (assoc c l))) names)
  = Some (default [] (assoc c l)).
Proof.
  induction names as [| k names IH]; simpl.
  - intros Hin. inversion Hin.
  - intros Hin. destruct (decide (k = c)) as [-> | Hne]; [done |].
    apply IH. apply elem_of_cons in Hin as [-> | Hin]; [done | exact Hin].
Qed.

Lemma contract_view_columns names X : columns (contract_view names X) = names.
Proof.
  unfold columns, contract_view. simpl.
  induction names as [| c names IH]; simpl; [done | by f_equal].
Qed.

Lemma contract_view_id (X : DataFrame) :
  NoDup (columns X) -> contract_view (columns X) X = X.
Proof.
  destruct X as [idx cols]. unfold contract_view, columns. simpl.
  intros Hnd. f_equal.
  induction cols as [| [k v] cols IH]; simpl; [done |].
  apply NoDup_cons in Hnd as [Hk Hnd].
  destruct (decide (k = k)); [| done]. simpl. f_equal.
  rewrite <- (IH Hnd) at 2. apply map_ext_in. intros c Hc.
  destruct (decide (k = c)) as [-> | _]; [| done].
  exfalso. apply Hk. by apply list_elem_of_In.
Qed.

(** C7 (as the code has it): for a trained predictor with contract [names]
    and a table [X] with distinct column labels that carries every name of
    the contract (in any order, with any extra columns), [predict] hands the
    estimator exactly the contract's columns in the contract's order, taken
    unchanged from [X], and returns the estimator's output clamped; if a
    name of the contract labels no column of [X], [predict] raises a
    [KeyError] and returns no prediction. *)
Theorem predict_contract (p : TransitDelayPredictor) (X : DataFrame) :
  reachable p -> is_trained p = true ->
  exists names,
    feature_names p = Some names /\
    (NoDup (columns X) -> names ⊆ columns X ->
       columns (contract_view names X) = names /\
       df_index (contract_view names X) = df_index X /\
       (forall c, c ∈ names -> get_col c (contract_view names X) = get_col c X) /\
       predict p X
       = rmap (map (np_clip (-10) 60))
              (est_predict (model p) (contract_view names X))) /\
    (forall c, c ∈ names -> c ∉ columns X -> raises (predict p X) "KeyError").
Proof.
  intros Hreach Htr.
  destruct (reachable_inv p Hreach) as [_ Hnames].
  destruct (Hnames Htr) as [names Hn]. exists names. split; [exact Hn |].
  split.
  - intros Hnd Hsub. split; [apply contract_view_columns |].
    split; [reflexivity |]. split.
    + intros c Hc. unfold get_col. simpl. rewrite assoc_contract by exact Hc.
      destruct (assoc_present c (df_columns X) (Hsub c Hc)) as [v ->]. done.
    + unfold predict. rewrite Htr, Hn. simpl.
      destruct (decide (columns X ≠ names)) as [Hne | Heq].
      * rewrite select_present by done. reflexivity.
      * assert (columns X = names) as <- by (destruct (decide (columns X = names)); done).
        rewrite contract_view_id by exact Hnd. reflexivity.
  - intros c Hin Hnin. unfold predict. rewrite Htr, Hn. simpl.
    destruct (decide (columns X ≠ names)) as [Hne | Heq].
    + pose proof (select_absent names X c Hin Hnin) as Hr.
      destruct (select names X); [destruct Hr | exact Hr].
    + exfalso. apply Heq. intros <-. done.
Qed.

(** ** C4: persistence *)

(** C4: saving a trained predictor succeeds, and loading the file gives a
    predictor with the same estimator state, model-type tag, feature-name
    list and trained flag, hence the same object, whose predictions on any
    table are those of the saved one. *)
Theorem save_load_roundtrip (p : TransitDelayPredictor) (path : string)
    (fs : gmap string model_data) (X : DataFrame) :
  reachable p -> is_trained p = true ->
  (save p path fs).1 = Ok tt /\
  exists p',
    load path (save p path fs).2 = Ok p' /\
    model p' = model p /\
    model_type p' = model_type p /\
    feature_names p' = feature_names p /\
    is_trained p' = is_trained p /\
    p' = p /\
    predict p' X = predict p X.
Proof.
  intros Hreach Htr.
  destruct (reachable_inv p Hreach) as [Hty _].
  unfold save. rewrite Htr. simpl. split; [reflexivity |].
  exists p. unfold load. rewrite lookup_insert_eq. simpl.
  destruct (init_valid (model_type p) Hty) as [m ->]. simpl.
  destruct p; simpl in *. subst. auto 10.
Qed.

End PredictorClaims.

(** * Properties of the feature engine *)

(** ** Which objects a computation leaves alone *)

Create HintDb keeps.

Section Keeps.
Context {A B : Type} (P : gset positive).

Lemma keeps_ret (a : A) (Q : A -> Prop) : Q a -> keeps P (ret a) Q.
Proof. intros HQ h _. split; [done |]. simpl. by intros ? [= <-]. Qed.

Lemma keeps_lift (r : result A) : keeps P (lift r) (fun _ => True).
Proof. intros h _. split; done. Qed.

Lemma keeps_bind (m : M A) (k : A -> M B) (Q : A -> Prop) (R : B -> Prop) :
  keeps P m Q -> (forall a, Q a -> keeps P (k a) R) -> keeps P (bind m k) R.
Proof.
  intros Hm Hk h Hdom. destruct (Hm h Hdom) as [Hfr Hres].
  unfold bind. destruct (m h) as [[a | e] h'] eqn:Hmh; simpl in *.
  - assert (Hdom' : P ⊆ dom h').
    { intros l Hl. apply elem_of_dom. rewrite (Hfr l Hl).
      apply elem_of_dom. by apply Hdom. }
    destruct (Hk a (Hres a eq_refl) h' Hdom') as [Hfr' Hres'].
    split; [| exact Hres'].
    intros l Hl. rewrite (Hfr' l Hl). by apply Hfr.
  - split; [exact Hfr | discriminate].
Qed.

End Keeps.

Lemma keeps_deref P (l : positive) : keeps P (deref l) (fun _ => True).
Proof.
  intros h _. unfold deref. destruct (h !! l); split; done.
Qed.

Lemma keeps_modify P (l : positive) (f : DataFrame -> DataFrame) :
  l ∉ P -> keeps P (modify l f) (fun _ => True).
Proof.
  intros Hl h _. unfold modify. destruct (h !! l); simpl; split; try done.
  intros l' Hl'. apply lookup_insert_ne. intros ->. done.
Qed.

(** A new object is none of the old ones. *)
Lemma keeps_alloc P (d : DataFrame) : keeps P (alloc d) (fun l => l ∉ P).
Proof.
  intros h Hdom. unfold alloc. simpl.
  pose proof (is_fresh (dom h)) as Hfresh. split.
  - intros l Hl. apply lookup_insert_ne. intros <-. apply Hfresh. by apply Hdom.
  - intros a [= <-] Ha. apply Hfresh. by apply Hdom.
Qed.

Lemma keeps_forM_ {A} P (l : list A) (body : A -> M unit) :
  (forall a, keeps P (body a) (fun _ => True)) ->
  keeps P (forM_ l body) (fun _ => True).
Proof.
  intros Hbody. induction l as [| a l IH]; simpl.
  - by apply keeps_ret.
  - eapply keeps_bind; [apply Hbody | intros; exact IH].
Qed.

#[export] Hint Resolve keeps_lift keeps_deref keeps_modify keeps_alloc : keeps.

Ltac keeps_steps :=
  repeat match goal with
    | |- keeps _ (ret _) _ => apply keeps_ret; solve [auto]
    | |- keeps _ (bind _ _) _ =>
        eapply keeps_bind; [solve [eauto with keeps] | intros ? ?]
    | |- keeps _ (if ?b then _ else _) _ => destruct b
    end.

Lemma keeps_copy P (df : positive) : keeps P (copy df) (fun l => l ∉ P).
Proof. unfold copy. keeps_steps. apply keeps_alloc. Qed.

Lemma keeps_contains P c (df : positive) :
  keeps P (contains c df) (fun _ => True).
Proof. unfold contains. keeps_steps. Qed.

Lemma keeps_getitem P (df : positive) c : keeps P (getitem df c) (fun _ => True).
Proof. unfold getitem. keeps_steps. apply keeps_lift. Qed.

Lemma keeps_setitem P (df : positive) c v :
  df ∉ P -> keeps P (setitem df c v) (fun _ => True).
Proof. intros. by apply keeps_modify. Qed.

Lemma keeps_setitem_scalar P (df : positive) c x :
  df ∉ P -> keeps P (setitem_scalar df c x) (fun _ => True).
Proof. intros. by apply keeps_modify. Qed.

Lemma keeps_df_sort_values `{ArgSort} P (df : positive) by_ :
  keeps P (df_sort_values df by_) (fun l => l ∉ P).
Proof. unfold df_sort_values. keeps_steps. apply keeps_alloc. Qed.

#[export] Hint Resolve keeps_copy keeps_contains keeps_getitem keeps_setitem
  keeps_setitem_scalar keeps_df_sort_values : keeps.

Section Frame.
Context `{NumLib} `{ArgSort}.
Variable P : gset positive.

Lemma keeps_add_temporal (df : positive) :
  df ∉ P -> keeps P (_add_temporal_features df) (fun l => l ∉ P).
Proof. intros. unfold _add_temporal_features. keeps_steps. Qed.

Lemma keeps_add_delay (df : positive) :
  df ∉ P -> keeps P (_add_delay_features df) (fun l => l ∉ P).
Proof. intros. unfold _add_delay_features. keeps_steps. Qed.

Lemma keeps_add_lag self (df : positive) :
  df ∉ P -> keeps P (_add_lag_features self df) (fun l => l ∉ P).
Proof.
  intros. unfold _add_lag_features. keeps_steps.
  eapply keeps_bind.
  { apply keeps_forM_. intros hours. unfold add_lag. keeps_steps. auto with keeps. }
  intros _ _. eapply keeps_bind.
  { apply keeps_forM_. intros w. unfold add_rolling. keeps_steps. auto with keeps. }
  intros _ _. by apply keeps_ret.
Qed.

Lemma keeps_add_route (df : positive) :
  df ∉ P -> keeps P (_add_route_features df) (fun l => l ∉ P).
Proof. intros. unfold _add_route_features. keeps_steps. Qed.

Lemma keeps_add_weather (df : positive) :
  df ∉ P -> keeps P (_add_weather_features df) (fun l => l ∉ P).
Proof. intros. unfold _add_weather_features. keeps_steps. Qed.

Lemma keeps_add_event (df : positive) :
  df ∉ P -> keeps P (_add_event_features df) (fun l => l ∉ P).
Proof. intros. unfold _add_event_features. keeps_steps. Qed.

Lemma keeps_sort_by_timestamp (df : positive) :
  df ∉ P -> keeps P (sort_by_timestamp df) (fun l => l ∉ P).
Proof.
  intros. unfold sort_by_timestamp. keeps_steps. apply keeps_df_sort_values.
Qed.

Lemma keeps_create_features self (df : positive) iw ie :
  keeps P (create_features self df iw ie) (fun l => l ∉ P).
Proof.
  unfold create_features, derive_features.
  eapply keeps_bind; [apply keeps_copy |]. intros df1 Hdf1.
  eapply keeps_bind; [by apply keeps_sort_by_timestamp |]. intros df2 Hdf2.
  eapply keeps_bind; [by apply keeps_add_temporal |]. intros df3 Hdf3.
  eapply keeps_bind; [by apply keeps_add_delay |]. intros df4 Hdf4.
  eapply keeps_bind; [by apply keeps_add_lag |]. intros df5 Hdf5.
  eapply keeps_bind; [by apply keeps_add_route |]. intros df6 Hdf6.
  eapply keeps_bind.
  { instantiate (1 := fun l => l ∉ P). destruct iw;
      [by apply keeps_add_weather | by apply keeps_ret]. }
  intros df7 Hdf7. eapply keeps_bind.
  { instantiate (1 := fun l => l ∉ P). destruct ie;
      [by apply keeps_add_event | by apply keeps_ret]. }
  intros df8 Hdf8. by apply keeps_ret.
Qed.

End Frame.

(** ** Running the engine on one object *)

Lemma rmapM_ok {A B} (f : A -> result B) (g : A -> B) (l : list A) :
  Forall (fun x => f x = Ok (g x)) l -> rmapM f l = Ok (map g l).
Proof.
  induction 1 as [| x l Hx _ IH]; simpl; [done |]. by rewrite Hx, IH.
Qed.

Lemma rmapM_length {A B} (f : A -> result B) (l : list A) (k : list B) :
  rmapM f l = Ok k -> length k = length l.
Proof.
  revert k. induction l as [| x l IH]; simpl; intros k.
  - by intros [= <-].
  - destruct (f x); simpl; [| discriminate].
    destruct (rmapM f l) as [k' |]; simpl; [| discriminate].
    intros [= <-]. simpl. f_equal. by apply IH.
Qed.

Lemma rmapM_lookup {A B} (f : A -> result B) (l : list A) (k : list B) i x :
  rmapM f l = Ok k -> l !! i = Some x ->
  exists y, k !! i = Some y /\ f x = Ok y.
Proof.
  revert k i. induction l as [| a l IH]; simpl; intros k i; [done |].
  destruct (f a) as [b |] eqn:Hfa; simpl; [| discriminate].
  destruct (rmapM f l) as [k' |]; simpl; [| discriminate].
  intros [= <-]. destruct i as [| i]; simpl.
  - intros [= <-]. eauto.
  - intros Hi. by apply IH.
Qed.

Lemma zip_with_r_map {A B C D} (f : B -> C -> result D) (g : A -> B)
    (g' : A -> C) (r : A -> D) (l : list A) :
  Forall (fun x => f (g x) (g' x) = Ok (r x)) l ->
  zip_with_r f (map g l) (map g' l) = Ok (map r l).
Proof.
  induction 1 as [| x l Hx _ IH]; simpl; [done |]. by rewrite Hx, IH.
Qed.

Lemma assoc_set_eq c v (l : list (string * column)) :
  assoc c (assoc_set c v l) = Some v.
Proof.
  induction l as [| [k w] l IH]; simpl.
  - by destruct (decide (c = c)).
  - destruct (decide (k = c)) as [-> | Hne]; simpl.
    + by destruct (decide (c = c)).
    + by destruct (decide (k = c)).
Qed.

Lemma assoc_set_ne c c' v (l : list (string * column)) :
  c <> c' -> assoc c' (assoc_set c v l) = assoc c' l.
Proof.
  intros Hne. induction l as [| [k w] l IH]; simpl.
  - by destruct (decide (c = c')).
  - destruct (decide (k = c)) as [-> | Hk]; simpl.
    + by destruct (decide (c = c')).
    + by rewrite IH.
Qed.

Lemma get_col_set_col_eq c v d : get_col c (set_col c v d) = Ok v.
Proof. unfold get_col, set_col. simpl. by rewrite assoc_set_eq. Qed.

Lemma get_col_set_col_ne c c' v d :
  c <> c' -> get_col c' (set_col c v d) = get_col c' d.
Proof. intros. unfold get_col, set_col. simpl. by rewrite assoc_set_ne. Qed.

Lemma has_col_assoc c d : has_col c d = bool_decide (is_Some (assoc c (df_columns d))).
Proof.
  unfold has_col, columns. apply bool_decide_ext.
  induction (df_columns d) as [| [k w] l IH]; simpl.
  - split; [intros Hin; inversion Hin | intros [? ?]; done].
  - destruct (decide (k = c)) as [-> | Hne].
    + split; [eauto | intros _; by left].
    + rewrite <- IH. rewrite elem_of_cons. simpl. intuition congruence.
Qed.

Lemma has_col_get_col c d v : get_col c d = Ok v -> has_col c d = true.
Proof.
  rewrite has_col_assoc. unfold get_col.
  destruct (assoc c (df_columns d)); [| discriminate].
  intros _. apply bool_decide_eq_true. eauto.
Qed.

Lemma has_col_set_col_ne c c' v d :
  c <> c' -> has_col c' (set_col c v d) = has_col c' d.
Proof.
  intros. rewrite !has_col_assoc. unfold set_col. simpl.
  by rewrite assoc_set_ne.
Qed.

Lemma has_col_set_col_eq c v d : has_col c (set_col c v d) = true.
Proof. eapply has_col_get_col, get_col_set_col_eq. Qed.

Section Run.
Context {A : Type} (h : gmap positive DataFrame) (df : positive)
        (d : DataFrame) (Hd : h !! df = Some d).

Lemma bind_contains c (k : bool -> M A) :
  bind (contains c df) k h = k (has_col c d) h.
Proof. unfold contains, bind, deref, ret. by rewrite Hd. Qed.

Lemma bind_deref (k : DataFrame -> M A) : bind (deref df) k h = k d h.
Proof. unfold bind, deref. by rewrite Hd. Qed.

Lemma bind_getitem c (k : column -> M A) :
  bind (getitem df c) k h
  = match get_col c d with
    | Ok v => k v h
    | Raise e => (Raise e, h)
    end.
Proof.
  unfold getitem, bind, deref, lift. rewrite Hd. by destruct (get_col c d).
Qed.

Lemma bind_setitem c v (k : unit -> M A) :
  bind (setitem df c v) k h = k tt (<[df := set_col c v d]> h).
Proof. unfold setitem, bind, modify. by rewrite Hd. Qed.

Lemma bind_setitem_scalar c x (k : unit -> M A) :
  bind (setitem_scalar df c x) k h
  = k tt (<[df := set_col c (broadcast x d) d]> h).
Proof. unfold setitem_scalar, bind, modify. by rewrite Hd. Qed.

End Run.

Lemma bind_lift {A B} (r : result A) (k : A -> M B) h :
  bind (lift r) k h = match r with
                      | Ok a => k a h
                      | Raise e => (Raise e, h)
                      end.
Proof. unfold bind, lift. by destruct r. Qed.

Lemma bind_ret {A B} (a : A) (k : A -> M B) h : bind (ret a) k h = k a h.
Proof. reflexivity. Qed.

(** One step of a run on the object [df]. *)
Ltac run_lookup := first [eassumption | apply lookup_insert_eq].

Ltac run_step :=
  first
    [ rewrite bind_ret
    | rewrite bind_lift
    | erewrite bind_contains by run_lookup
    | erewrite bind_deref by run_lookup
    | erewrite bind_getitem by run_lookup
    | erewrite bind_setitem by run_lookup; rewrite ?insert_insert_eq
    | erewrite bind_setitem_scalar by run_lookup; rewrite ?insert_insert_eq ].

Ltac cols :=
  repeat first
    [ rewrite get_col_set_col_eq
    | rewrite get_col_set_col_ne by discriminate
    | rewrite has_col_set_col_eq
    | rewrite has_col_set_col_ne by discriminate ].

(** ** Temporal features *)

Lemma dt_field_ok f ts :
  Forall datetimelike ts -> dt_field f ts = Ok (map (dt_cell f) ts).
Proof.
  intros Hts. apply rmapM_ok. eapply Forall_impl; [exact Hts |].
  by intros [| | |].
Qed.

Lemma floats_dt f ts : floats (map (dt_cell f) ts) = Ok (map (dt_opt f) ts).
Proof.
  unfold floats. induction ts as [| c ts IH]; simpl; [done |].
  rewrite IH. by destruct c.
Qed.

Lemma map_num_dt g f ts :
  map_num g (map (dt_cell f) ts)
  = Ok (map (fun c => of_float (g <$> dt_opt f c)) ts).
Proof.
  unfold map_num. rewrite floats_dt. simpl. by rewrite map_map.
Qed.

Lemma bit_or_flag a b : bit_or (flag a) (flag b) = Ok (flag (a || b)).
Proof. by destruct a, b. Qed.

Lemma zip_bit_or_flags {A} (g g' : A -> bool) (l : list A) :
  zip_with_r bit_or (map (fun x => flag (g x)) l) (map (fun x => flag (g' x)) l)
  = Ok (map (fun x => flag (g x || g' x)) l).
Proof.
  apply zip_with_r_map, Forall_forall. intros x _. apply bit_or_flag.
Qed.

Lemma to_datetime_datetimelike `{NumLib} s s' :
  to_datetime s = Ok s' -> Forall datetimelike s'.
Proof.
  intros Hs. apply Forall_forall. intros c' Hc'.
  apply list_elem_of_lookup in Hc' as [i Hi].
  assert (Hlen : length s' = length s) by (eapply rmapM_length; exact Hs).
  destruct (s !! i) as [c |] eqn:Hc.
  - destruct (rmapM_lookup _ _ _ _ _ Hs Hc) as (y & Hy & Hf).
    rewrite Hi in Hy. injection Hy as <-.
    destruct c; simpl in Hf; try (by inversion Hf);
      destruct (parse_datetime _); by inversion Hf.
  - apply lookup_ge_None in Hc. apply lookup_lt_Some in Hi. lia.
Qed.

Section Temporal.
Context `{NumLib} `{ArgSort}.

(** What [_add_temporal_features] leaves in the frame. *)
Lemma add_temporal_run (h : gmap positive DataFrame) (df : positive)
    (d : DataFrame) (ts : column) :
  h !! df = Some d ->
  get_col "timestamp" d = Ok ts ->
  Forall datetimelike ts ->
  exists d',
    _add_temporal_features df h = (Ok df, <[df := d']> h) /\
    df_index d' = df_index d /\
    get_col "timestamp" d' = Ok ts /\
    get_col "hour" d' = Ok (map (dt_cell hour_of) ts) /\
    get_col "is_morning_peak" d'
    = Ok (map (fun c => flag (between 7 9 (dt_opt hour_of c))) ts) /\
    get_col "is_evening_peak" d'
    = Ok (map (fun c => flag (between 16 18 (dt_opt hour_of c))) ts) /\
    get_col "is_peak_hour" d'
    = Ok (map (fun c => flag (between 7 9 (dt_opt hour_of c)
                              || between 16 18 (dt_opt hour_of c))) ts).
Proof.
  intros Hd Hts Hdt. unfold _add_temporal_features.
  run_step. rewrite (has_col_get_col _ _ _ Hts). simpl.
  repeat (run_step; cols;
          rewrite ?Hts, ?dt_field_ok, ?floats_dt, ?map_num_dt by done;
          rewrite ?map_map, ?zip_bit_or_flags).
  unfold ret. eexists. split; [reflexivity |].
  cols. rewrite Hts. repeat split.
Qed.

Lemma between_inject_Z (lo hi z : Z) :
  between (inject_Z lo) (inject_Z hi) (Some (inject_Z z)) = true
  <-> (lo <= z <= hi)%Z.
Proof.
  unfold between. rewrite andb_true_iff, !Qle_bool_iff, <- !Zle_Qle. tauto.
Qed.

(** ** C10: peak flags *)

(** C10: after [_add_temporal_features], for every row that carries an
    instant [t], the three peak flags are 0/1 valued, [is_morning_peak] is 1
    exactly when the hour of [t] is in 7..9, [is_evening_peak] is 1 exactly
    when it is in 16..18, and [is_peak_hour] is 1 exactly when one of the
    two is 1. *)
Theorem peak_flags (h : gmap positive DataFrame) (df : positive)
    (d : DataFrame) (ts : column) :
  h !! df = Some d ->
  get_col "timestamp" d = Ok ts ->
  Forall datetimelike ts ->
  exists d' morning evening peak,
    _add_temporal_features df h = (Ok df, <[df := d']> h) /\
    get_col "is_morning_peak" d' = Ok morning /\
    get_col "is_evening_peak" d' = Ok evening /\
    get_col "is_peak_hour" d' = Ok peak /\
    forall i t,
      ts !! i = Some (Time t) ->
      exists m e p : bool,
        morning !! i = Some (Num (if m then 1 else 0)) /\
        evening !! i = Some (Num (if e then 1 else 0)) /\
        peak !! i = Some (Num (if p then 1 else 0)) /\
        (m = true <-> (7 <= hour_of t <= 9)%Z) /\
        (e = true <-> (16 <= hour_of t <= 18)%Z) /\
        (p = true <-> m = true \/ e = true).
Proof.
  intros Hd Hts Hdt.
  destruct (add_temporal_run h df d ts Hd Hts Hdt)
    as (d' & Hrun & _ & _ & _ & Hm & He & Hp).
  exists d'. eexists. eexists. eexists.
  split; [exact Hrun |]. split; [exact Hm |]. split; [exact He |].
  split; [exact Hp |].
  intros i t Hi.
  exists (between 7 9 (dt_opt hour_of (Time t))),
         (between 16 18 (dt_opt hour_of (Time t))),
         (between 7 9 (dt_opt hour_of (Time t))
          || between 16 18 (dt_opt hour_of (Time t))).
  rewrite !lookup_map, Hi. simpl.
  split; [done |]. split; [done |]. split; [done |].
  split; [apply (between_inject_Z 7 9) |].
  split; [apply (between_inject_Z 16 18) |].
  apply orb_true_iff.
Qed.

End Temporal.

(** ** Delay target *)



Lemma floats_lookup s xs i c :
  floats s = Ok xs -> s !! i = Some c ->
  exists o, xs !! i = Some o /\ as_float c = Ok o.
Proof. apply rmapM_lookup. Qed.

Section Delay.
Context `{NumLib} `{ArgSort}.


(** ** The delay step *)


End Delay.

(** ** Rolling windows *)

Lemma seq_strongly_sorted a n : StronglySorted lt (seq a n).
Proof.
  revert a. induction n as [| n IH]; intros a; simpl; constructor.
  - apply IH.
  - apply Forall_forall. intros x Hx. apply elem_of_seq in Hx. lia.
Qed.

Lemma filter_strongly_sorted {A} (R : A -> A -> Prop) (P : A -> Prop)
    `{forall x, Decision (P x)} (l : list A) :
  StronglySorted R l -> StronglySorted R (filter P l).
Proof.
  induction 1 as [| a l Hs IH Hall]; [constructor |].
  rewrite filter_cons. destruct (decide (P a)); [| exact IH].
  constructor; [exact IH |].
  apply Forall_forall. intros x Hx. apply list_elem_of_filter in Hx as [_ Hx].
  rewrite Forall_forall in Hall. by apply Hall.
Qed.

Lemma group_rows_sorted keys k : StronglySorted lt (group_rows keys k).
Proof. apply filter_strongly_sorted, seq_strongly_sorted. Qed.

Lemma filter_lt_nil (i a : nat) (l : list nat) :
  Forall (lt a) l -> (i <= a)%nat -> filter (fun j => (j < i)%nat) l = [].
Proof.
  intros Hall Hia. induction Hall as [| x l Hx _ IH]; [done |].
  rewrite filter_cons_False by lia. exact IH.
Qed.

Lemma filter_le_nil (i a : nat) (l : list nat) :
  Forall (lt a) l -> (i <= a)%nat -> filter (fun j => (j <= i)%nat) l = [].
Proof.
  intros Hall Hia. induction Hall as [| x l Hx _ IH]; [done |].
  rewrite filter_cons_False by lia. exact IH.
Qed.

(** In an increasing list that holds [i], the elements up to [i] are the
    first [rank + 1] ones. *)
Lemma sorted_take_rank (l : list nat) (i : nat) :
  StronglySorted lt l -> i ∈ l ->
  take (S (rank_in l i)) l = filter (fun j => (j <= i)%nat) l.
Proof.
  unfold rank_in. induction 1 as [| a l Hs IH Hall]; intros Hin.
  - inversion Hin.
  - destruct (lt_eq_lt_dec a i) as [[Hlt | ->] | Hgt].
    + rewrite filter_cons_True by done.
      rewrite (filter_cons_True (fun j => (j <= i)%nat)) by lia.
      simpl. f_equal. apply IH.
      apply elem_of_cons in Hin as [-> | Hin]; [lia | exact Hin].
    + rewrite filter_cons_False by lia.
      rewrite (filter_cons_True (fun j => (j <= i)%nat)) by lia.
      rewrite (filter_lt_nil i i l Hall), (filter_le_nil i i l Hall) by lia.
      reflexivity.
    + exfalso. apply elem_of_cons in Hin as [-> | Hin]; [lia |].
      rewrite Forall_forall in Hall. specialize (Hall i Hin). lia.
Qed.

Lemma rank_in_lt (l : list nat) (i : nat) :
  StronglySorted lt l -> i ∈ l -> (rank_in l i < length l)%nat.
Proof.
  intros Hs Hin. unfold rank_in.
  apply (length_filter_lt _ _ i); [exact Hin | lia].
Qed.

Lemma cell_eqb_refl k : is_nan k = false -> cell_eqb k k = true.
Proof.
  destruct k; simpl; intros; try done.
  - apply Qeq_bool_iff. reflexivity.
  - by apply bool_decide_eq_true.
  - apply Z.eqb_refl.
Qed.

Lemma group_rows_self keys i k :
  keys !! i = Some k -> is_nan k = false -> i ∈ group_rows keys k.
Proof.
  intros Hi Hk. unfold group_rows. apply list_elem_of_filter. split.
  - unfold in_group. rewrite Hi. by rewrite cell_eqb_refl.
  - apply elem_of_seq. apply lookup_lt_Some in Hi. lia.
Qed.

Lemma take_at_take {A} (d : A) n rows (xs : list A) :
  take n (take_at d rows xs) = take_at d (take n rows) xs.
Proof. unfold take_at. symmetry. apply (fmap_take (fun i => nth i xs d)). Qed.

Lemma take_at_drop {A} (d : A) n rows (xs : list A) :
  drop n (take_at d rows xs) = take_at d (drop n rows) xs.
Proof. unfold take_at. symmetry. apply (fmap_drop (fun i => nth i xs d)). Qed.

Lemma take_at_length {A} (d : A) rows (xs : list A) :
  length (take_at d rows xs) = length rows.
Proof. apply length_map. Qed.

(** The window that [rolling] gives row [i] inside its group is made of the
    last [w] rows of the route up to [i]. *)
Lemma window_group (w : nat) (keys : list cell) (xs : list (option Q)) i k :
  keys !! i = Some k -> is_nan k = false ->
  window w (take_at None (group_rows keys k) xs)
         (rank_in (group_rows keys k) i)
  = take_at None (trailing_rows w keys i) xs.
Proof.
  intros Hi Hk. unfold window, trailing_rows, route_rows_upto. rewrite Hi.
  pose proof (group_rows_sorted keys k) as Hs.
  pose proof (group_rows_self keys i k Hi Hk) as Hin.
  rewrite take_at_take, take_at_drop.
  rewrite (sorted_take_rank _ _ Hs Hin).
  do 2 f_equal.
  rewrite <- (sorted_take_rank _ _ Hs Hin).
  rewrite length_take. pose proof (rank_in_lt _ _ Hs Hin). lia.
Qed.

Lemma rolling_mean_lookup w p (gv : list (option Q)) r :
  (r < length gv)%nat ->
  rolling_mean w p gv !! r
  = Some (let obs := observed (window w gv r) in
          if decide (p <= length obs /\ 1 <= length obs)%nat
          then Some (mean obs) else None).
Proof.
  intros Hr. unfold rolling_mean. rewrite lookup_map.
  by rewrite lookup_seq_lt.
Qed.

Lemma rolling_std_lookup `{NumLib} w p (gv : list (option Q)) r :
  (r < length gv)%nat ->
  rolling_std w p gv !! r
  = Some (let obs := observed (window w gv r) in
          if decide (p <= length obs /\ 2 <= length obs)%nat
          then Some (np_sqrt (var obs)) else None).
Proof.
  intros Hr. unfold rolling_std. rewrite lookup_map.
  by rewrite lookup_seq_lt.
Qed.

Lemma transform_lookup f (keys : list cell) (xs : list (option Q)) i k :
  keys !! i = Some k -> is_nan k = false ->
  transform f keys xs !! i
  = Some (mjoin (f (take_at None (group_rows keys k) xs)
                 !! rank_in (group_rows keys k) i)).
Proof.
  intros Hi Hk. unfold transform. rewrite list_lookup_imap, Hi. simpl.
  by rewrite Hk.
Qed.

Lemma bind_ok {A B} (m : M A) (k : A -> M B) h a h' :
  m h = (Ok a, h') -> bind m k h = k a h'.
Proof. unfold bind. by intros ->. Qed.

Lemma run_setitem (h : gmap positive DataFrame) df d c v :
  h !! df = Some d -> setitem df c v h = (Ok tt, <[df := set_col c v d]> h).
Proof. unfold setitem, modify. by intros ->. Qed.

Section Rolling.
Context `{NumLib} `{ArgSort}.

Lemma transform_rolling_mean w (keys : list cell) xs i k :
  keys !! i = Some k -> is_nan k = false ->
  transform (rolling_mean w 1) keys xs !! i = Some (trailing_mean w keys xs i).
Proof.
  intros Hi Hk. rewrite (transform_lookup _ _ _ _ _ Hi Hk).
  rewrite rolling_mean_lookup.
  - simpl. rewrite (window_group _ _ _ _ _ Hi Hk). unfold trailing_mean. simpl.
    f_equal. repeat case_decide; done || lia.
  - rewrite take_at_length. apply rank_in_lt;
      [apply group_rows_sorted | by apply group_rows_self].
Qed.

Lemma transform_rolling_std w (keys : list cell) xs i k :
  keys !! i = Some k -> is_nan k = false ->
  transform (rolling_std w 1) keys xs !! i = Some (trailing_std w keys xs i).
Proof.
  intros Hi Hk. rewrite (transform_lookup _ _ _ _ _ Hi Hk).
  rewrite rolling_std_lookup.
  - simpl. rewrite (window_group _ _ _ _ _ Hi Hk). unfold trailing_std. simpl.
    f_equal. repeat case_decide; done || lia.
  - rewrite take_at_length. apply rank_in_lt;
      [apply group_rows_sorted | by apply group_rows_self].
Qed.

Lemma transform_nan f (keys : list cell) xs i :
  keys !! i = Some NaN -> transform f keys xs !! i = Some None.
Proof. intros Hi. unfold transform. by rewrite list_lookup_imap, Hi. Qed.

Lemma mean_name_fresh w : mean_name w <> "route_id" /\ mean_name w <> "delay_minutes".
Proof. split; discriminate. Qed.

Lemma add_rolling_run (h : gmap positive DataFrame) df d w keys vals xs :
  h !! df = Some d ->
  get_col "route_id" d = Ok keys ->
  get_col "delay_minutes" d = Ok vals ->
  floats vals = Ok xs ->
  add_rolling df w h
  = (Ok tt,
     <[df := set_col (std_name w)
               (map of_float (transform (rolling_std w 1) keys xs))
               (set_col (mean_name w)
                  (map of_float (transform (rolling_mean w 1) keys xs)) d)]> h).
Proof.
  intros Hd Hk Hv Hx. unfold add_rolling.
  fold (mean_name w). fold (std_name w).
  destruct (mean_name_fresh w) as [Hm1 Hm2].
  repeat (run_step; rewrite ?get_col_set_col_ne by done; rewrite ?Hk, ?Hv, ?Hx).
  erewrite run_setitem by run_lookup. by rewrite insert_insert_eq.
Qed.

Lemma bind_assoc {A B C} (m : M A) (k : A -> M B) (k' : B -> M C) h :
  bind (bind m k) k' h = bind m (fun a => bind (k a) k') h.
Proof. unfold bind. by destruct (m h) as [[a | e] h']. Qed.

Lemma rolled_inputs w v v' d :
  get_col "route_id" (set_col (std_name w) v (set_col (mean_name w) v' d))
  = get_col "route_id" d /\
  get_col "delay_minutes" (set_col (std_name w) v (set_col (mean_name w) v' d))
  = get_col "delay_minutes" d.
Proof. split; by rewrite !get_col_set_col_ne by discriminate. Qed.

(** ** C6: rolling features *)

(** C6 (as the code has it): on a table with [route_id] and a numeric
    [delay_minutes], and with no lag horizon configured, [_add_lag_features]
    returns, and for each window [w] of 3, 6 and 12 the columns
    [delay_rolling_mean_{w}h] and [delay_rolling_std_{w}h] hold, for every
    row of a route, the mean and the sample standard deviation of the last
    [w] observations of that route up to the row (rows counted, timestamps
    not looked at); the mean needs one observed value and the standard
    deviation two, and is missing otherwise, as it is for a row without a
    route. *)
Theorem rolling_features (h : gmap positive DataFrame) (df : positive)
    (d : DataFrame) (keys vals : list cell) (xs : list (option Q)) :
  h !! df = Some d ->
  get_col "route_id" d = Ok keys ->
  get_col "delay_minutes" d = Ok vals ->
  floats vals = Ok xs ->
  exists d',
    _add_lag_features {| lag_hours := [] |} df h = (Ok df, <[df := d']> h) /\
    forall w, w ∈ [3; 6; 12]%nat ->
      exists means stds,
        get_col (mean_name w) d' = Ok means /\
        get_col (std_name w) d' = Ok stds /\
        forall i k, keys !! i = Some k ->
          means !! i
          = Some (if is_nan k then NaN
                  else of_float (trailing_mean w keys xs i)) /\
          stds !! i
          = Some (if is_nan k then NaN
                  else of_float (trailing_std w keys xs i)).
Proof.
  intros Hd Hk Hv Hx. unfold _add_lag_features.
  do 2 run_step.
  rewrite (has_col_get_col _ _ _ Hk), (has_col_get_col _ _ _ Hv).
  cbn [negb orb lag_hours forM_]. run_step.
  rewrite !bind_assoc.
  erewrite bind_ok by (eapply add_rolling_run; [run_lookup | eauto ..]).
  rewrite !bind_assoc.
  erewrite bind_ok
    by (eapply add_rolling_run;
        [run_lookup | rewrite (proj1 (rolled_inputs _ _ _ _)); eauto
         | rewrite (proj2 (rolled_inputs _ _ _ _)); eauto | eauto]).
  rewrite insert_insert_eq, !bind_assoc.
  erewrite bind_ok
    by (eapply add_rolling_run;
        [run_lookup
         | rewrite !(proj1 (rolled_inputs _ _ _ _)); eauto
         | rewrite !(proj2 (rolled_inputs _ _ _ _)); eauto | eauto]).
  rewrite insert_insert_eq.
  eexists. split; [reflexivity |].
  assert (Hrow : forall (f : list (option Q)) (t : nat -> option Q) i k,
            keys !! i = Some k ->
            (is_nan k = false -> f !! i = Some (t i)) ->
            (k = NaN -> f !! i = Some None) ->
            map of_float f !! i
            = Some (if is_nan k then NaN else of_float (t i))).
  { intros f t i k Hi Hval Hnan. rewrite lookup_map.
    destruct (is_nan k) eqn:Hn.
    - destruct k; try discriminate. by rewrite Hnan.
    - by rewrite Hval. }
  intros w Hw.
  do 2 eexists. split; [| split].
  3: { intros i k Hi. split.
       - apply (Hrow (transform (rolling_mean w 1) keys xs)
                  (trailing_mean w keys xs) i k Hi).
         + intros Hn. by apply transform_rolling_mean with k.
         + intros ->. by apply transform_nan.
       - apply (Hrow (transform (rolling_std w 1) keys xs)
                  (trailing_std w keys xs) i k Hi).
         + intros Hn. by apply transform_rolling_std with k.
         + intros ->. by apply transform_nan. }
  - repeat (apply elem_of_cons in Hw as [-> | Hw]);
      [.. | inversion Hw];
      repeat first [ rewrite get_col_set_col_eq; reflexivity
                   | rewrite get_col_set_col_ne by (vm_compute; discriminate) ].
  - repeat (apply elem_of_cons in Hw as [-> | Hw]);
      [.. | inversion Hw];
      repeat first [ rewrite get_col_set_col_eq; reflexivity
                   | rewrite get_col_set_col_ne by (vm_compute; discriminate) ].
Qed.

End Rolling.

Local Open Scope list_scope.

(** ** Sorting by timestamp *)

Lemma non_nan_positions (pre items : list (option Q)) :
  filter (fun i => is_Some (mjoin ((pre ++ items)%list !! i)))
         (seq (length pre) (length items))
  = positions_from (length pre) items.
Proof.
  revert pre. induction items as [| x items IH]; intros pre; [done |].
  simpl seq.
  specialize (IH (pre ++ [x])%list). rewrite <- app_assoc in IH. simpl in IH.
  rewrite length_app in IH. simpl in IH.
  replace (length pre + 1)%nat with (S (length pre)) in IH by lia.
  destruct x as [q |].
  - rewrite filter_cons_True
      by (rewrite list_lookup_middle by done; simpl; eauto).
    simpl. f_equal. exact IH.
  - rewrite filter_cons_False
      by (rewrite list_lookup_middle by done; simpl; by intros [? ?]).
    exact IH.
Qed.

Lemma positions_from_length a items :
  length (positions_from a items) = length (omap id items).
Proof.
  revert a. induction items as [| [q |] items IH]; intros a; simpl; auto.
Qed.

Lemma positions_from_keys (pre items : list (option Q)) :
  map (fun i => mjoin ((pre ++ items)%list !! i)) (positions_from (length pre) items)
  = map Some (omap id items).
Proof.
  revert pre. induction items as [| x items IH]; intros pre; [done |].
  specialize (IH (pre ++ [x])%list). rewrite <- app_assoc in IH. simpl in IH.
  rewrite length_app in IH. simpl in IH.
  replace (length pre + 1)%nat with (S (length pre)) in IH by lia.
  destruct x as [q |]; simpl.
  - rewrite list_lookup_middle by done. simpl. f_equal. exact IH.
  - exact IH.
Qed.

Lemma take_at_seq {A} (d : A) (l : list A) : take_at d (seq 0 (length l)) l = l.
Proof.
  unfold take_at. induction l as [| a l IH] using rev_ind; [done |].
  rewrite length_app. simpl. rewrite seq_app, map_app. simpl. f_equal.
  - rewrite <- IH at 2. apply map_ext_in. intros i Hi.
    apply in_seq in Hi. apply app_nth1. lia.
  - rewrite app_nth2 by lia. by rewrite Nat.sub_diag.
Qed.

Lemma take_at_app {A} (d : A) p q (l : list A) :
  take_at d (p ++ q) l = take_at d p l ++ take_at d q l.
Proof. apply map_app. Qed.

Lemma sorted_transfer {A B C} (R : B -> B -> Prop) (R' : C -> C -> Prop)
    (f : A -> B) (g : A -> C) (l : list A) :
  (forall x y, x ∈ l -> y ∈ l -> R (f x) (f y) -> R' (g x) (g y)) ->
  StronglySorted R (map f l) -> StronglySorted R' (map g l).
Proof.
  induction l as [| a l IH]; simpl; intros Hrel Hs; [constructor |].
  apply StronglySorted_inv in Hs as [Hs Hall]. constructor.
  - apply IH; [| exact Hs]. intros x y Hx Hy. apply Hrel; by right.
  - apply Forall_forall. intros c Hc.
    apply list_elem_of_fmap in Hc as (y & -> & Hy).
    apply Hrel; [by left | by right |].
    rewrite Forall_forall in Hall. apply Hall.
    apply list_elem_of_fmap. eauto.
Qed.

Lemma sort_key_dt k :
  Forall datetimelike k -> rmapM sort_key k = Ok (map dt_key k).
Proof.
  intros Hk. apply rmapM_ok. eapply Forall_impl; [exact Hk |].
  by intros [| | |].
Qed.

Lemma all_nan_sorted (l : list cell) :
  Forall (fun c => c = NaN) l -> StronglySorted cell_le l.
Proof.
  induction 1 as [| c l -> Hl IH]; constructor; [exact IH |].
  eapply Forall_impl; [exact Hl |]. by intros ? ->.
Qed.

Section Sorting.
Context `{ArgSort}.

Lemma nargsort_perm (items : list (option Q)) :
  nargsort true items ≡ₚ seq 0 (length items).
Proof.
  unfold nargsort.
  pose proof (non_nan_positions [] items) as Hpos. simpl in Hpos.
  etrans; [| apply (filter_app_complement
                      (fun i => is_Some (mjoin (items !! i))))].
  apply Permutation_app; [| done].
  rewrite Hpos.
  rewrite <- (take_at_seq 0%nat (positions_from 0 items)) at 2.
  unfold take_at. apply Permutation_map.
  rewrite positions_from_length. apply argsort_perm.
Qed.

Lemma nargsort_sorted (k : list cell) :
  Forall datetimelike k ->
  StronglySorted cell_le (take_at NaN (nargsort true (map dt_key k)) k).
Proof.
  intros Hk. unfold nargsort. set (items := map dt_key k).
  pose proof (non_nan_positions [] items) as Hpos. simpl in Hpos.
  rewrite Hpos, take_at_app.
  pose proof (positions_from_keys [] items) as Hkeys. simpl in Hkeys.
  pose proof (positions_from_length 0 items) as Hlen.
  set (non_nans := omap id items) in *.
  set (idxs := positions_from 0 items) in *.
  assert (Hcell : forall j, j ∈ argsort non_nans ->
            exists t, nth (nth j idxs 0%nat) k NaN = Time t /\
                      nth j non_nans 0%Q = inject_Z t).
  { intros j Hj. rewrite (argsort_perm non_nans) in Hj.
    apply elem_of_seq in Hj as [_ Hj]. simpl in Hj.
    destruct (lookup_lt_is_Some_2 non_nans j Hj) as [q Hq].
    destruct (lookup_lt_is_Some_2 idxs j ltac:(lia)) as [i Hi].
    assert (Hjq : map (fun i => mjoin (items !! i)) idxs !! j
                  = map Some non_nans !! j) by (by rewrite Hkeys).
    rewrite !lookup_map, Hi, Hq in Hjq. simpl in Hjq. injection Hjq as Hjq.
    rewrite (nth_lookup_Some _ _ _ _ Hi), (nth_lookup_Some _ _ _ _ Hq).
    unfold items in Hjq. rewrite lookup_map in Hjq.
    destruct (k !! i) as [c |] eqn:Hc; [| done]. simpl in Hjq.
    rewrite (nth_lookup_Some _ _ _ _ Hc).
    destruct c; simpl in Hjq; try done. injection Hjq as <-. eauto. }
  assert (Hnans : Forall (fun c => c = NaN)
            (take_at NaN
               (filter (fun i => ~ is_Some (mjoin (items !! i)))
                       (seq 0 (length items))) k)).
  { apply Forall_forall. intros c Hc. unfold take_at in Hc.
    apply list_elem_of_fmap in Hc as (i & -> & Hi).
    apply list_elem_of_filter in Hi as [Hnan Hi].
    apply elem_of_seq in Hi as [_ Hi]. simpl in Hi.
    unfold items in Hnan, Hi. rewrite length_map in Hi.
    destruct (lookup_lt_is_Some_2 k i Hi) as [c Hc].
    rewrite lookup_map, Hc in Hnan. simpl in Hnan.
    rewrite (nth_lookup_Some _ _ _ _ Hc).
    rewrite Forall_forall in Hk.
    pose proof (Hk c (list_elem_of_lookup_2 _ _ _ Hc)) as Hdt.
    destruct c; simpl in *; try done. destruct Hnan. eauto. }
  apply StronglySorted_app_2.
  - intros x1 x2 Hx1 Hx2. rewrite Forall_forall in Hnans.
    rewrite (Hnans x2 Hx2). by destruct x1.
  - unfold take_at at 1. unfold take_at at 1. rewrite map_map.
    eapply (sorted_transfer Qle cell_le (fun j => nth j non_nans 0%Q));
      [| apply argsort_sorted].
    intros x y Hx Hy Hle.
    destruct (Hcell x Hx) as (tx & -> & Hqx).
    destruct (Hcell y Hy) as (ty & -> & Hqy).
    rewrite Hqx, Hqy in Hle. unfold cell_le. by rewrite Zle_Qle.
  - by apply all_nan_sorted.
Qed.

End Sorting.

Lemma bind_alloc {A} (d : DataFrame) (k : positive -> M A)
    (h : gmap positive DataFrame) :
  bind (alloc d) k h = k (fresh (dom h)) (<[fresh (dom h) := d]> h).
Proof. reflexivity. Qed.

Lemma get_col_take_rows c p d :
  get_col c (take_rows p d) = rmap (take_at NaN p) (get_col c d).
Proof.
  unfold get_col, take_rows. simpl.
  induction (df_columns d) as [| [k v] l IH]; simpl; [done |].
  destruct (decide (k = c)); [done | exact IH].
Qed.

Section SortStep.
Context `{NumLib} `{ArgSort}.

(** ** C8: the order of the rows *)

(** C8 (as the code has it): on a table with a [timestamp] column that can
    be coerced, [create_features] coerces the column on its copy, lets
    [sort_values] build a new table whose rows are a permutation of the
    copy's rows with the timestamps in ascending order (missing ones last),
    and runs every later feature step on that new table.  Which of two rows
    with equal timestamps comes first is left to the sort. *)
Theorem sorted_by_timestamp (self : TransitFeatureEngine) (df : positive)
    (include_weather include_events : bool) (h : gmap positive DataFrame)
    (d : DataFrame) (ts ts' : list cell) :
  h !! df = Some d ->
  get_col "timestamp" d = Ok ts ->
  to_datetime ts = Ok ts' ->
  let d1 := set_col "timestamp" ts' d in
  let h1 := <[fresh (dom h) := d1]> h in
  exists p,
    p ≡ₚ seq 0 (length ts) /\
    StronglySorted cell_le (take_at NaN p ts') /\
    get_col "timestamp" (take_rows p d1) = Ok (take_at NaN p ts') /\
    df_index (take_rows p d1) = take_at 0%Z p (df_index d) /\
    create_features self df include_weather include_events h
    = derive_features self (fresh (dom h1)) include_weather include_events
        (<[fresh (dom h1) := take_rows p d1]> h1).
Proof.
  intros Hd Hts Hts' d1 h1.
  pose proof (to_datetime_datetimelike _ _ Hts') as Hdt.
  exists (nargsort true (map dt_key ts')).
  split.
  { rewrite nargsort_perm, length_map.
    by rewrite (rmapM_length _ _ _ Hts'). }
  split; [by apply nargsort_sorted |].
  split.
  { rewrite get_col_take_rows. unfold d1. by rewrite get_col_set_col_eq. }
  split; [reflexivity |].
  unfold create_features, copy.
  rewrite bind_assoc. erewrite bind_deref by exact Hd. rewrite bind_alloc.
  unfold sort_by_timestamp. rewrite bind_assoc.
  run_step. rewrite (has_col_get_col _ _ _ Hts).
  rewrite bind_assoc. run_step. rewrite Hts.
  rewrite bind_assoc. run_step. rewrite Hts'.
  rewrite bind_assoc. run_step. fold d1. fold h1.
  unfold df_sort_values. rewrite !bind_assoc.
  erewrite bind_deref by (unfold h1; run_lookup).
  rewrite bind_assoc, bind_lift.
  unfold sort_values. unfold d1 at 1. rewrite get_col_set_col_eq. simpl.
  rewrite (sort_key_dt _ Hdt). simpl.
  rewrite bind_alloc. reflexivity.
Qed.

End SortStep.

(** ** Lag features *)

Lemma group_keys_nonempty (keys : list cell) k :
  k ∈ keys -> is_nan k = false -> group_keys keys <> [].
Proof.
  induction keys as [| c keys IH]; intros Hin Hk.
  - inversion Hin.
  - simpl. destruct (is_nan c) eqn:Hc; [| done].
    apply IH; [| exact Hk].
    apply elem_of_cons in Hin as [-> | Hin]; [congruence | exact Hin].
Qed.

Lemma groupby_shift_raises index (keys vals : list cell) freq k :
  k ∈ keys -> is_nan k = false ->
  raises (groupby_shift index keys vals freq) "NotImplementedError".
Proof.
  intros Hin Hk. unfold groupby_shift.
  pose proof (group_keys_nonempty keys k Hin Hk) as Hne.
  destruct (group_keys keys) as [| k0 ks]; [done |]. reflexivity.
Qed.

Section Lag.
Context `{NumLib} `{ArgSort}.

(** With a lag horizon configured and a route on some row,
    [_add_lag_features] raises in the first turn of its first loop, before
    any column is written. *)
Lemma lag_features_raise (self : TransitFeatureEngine) (df : positive)
    (h : gmap positive DataFrame) (d : DataFrame) (keys vals : list cell)
    (k : cell) :
  h !! df = Some d ->
  get_col "route_id" d = Ok keys ->
  get_col "delay_minutes" d = Ok vals ->
  lag_hours self <> [] ->
  k ∈ keys -> is_nan k = false ->
  raises (_add_lag_features self df h).1 "NotImplementedError" /\
  (_add_lag_features self df h).2 = h.
Proof.
  intros Hd Hk Hv Hlag Hin Hnan. unfold _add_lag_features.
  do 2 run_step.
  rewrite (has_col_get_col _ _ _ Hk), (has_col_get_col _ _ _ Hv).
  cbn [negb orb]. destruct (lag_hours self) as [| hours rest]; [done |].
  cbn [forM_]. unfold add_lag. rewrite !bind_assoc.
  run_step. rewrite bind_assoc. run_step. rewrite Hk.
  rewrite bind_assoc. run_step. rewrite Hv.
  rewrite bind_assoc, bind_lift.
  pose proof (groupby_shift_raises (df_index d) keys vals
                (pretty hours ++ "H")%string k Hin Hnan) as Hr.
  destruct (groupby_shift _ _ _ _) as [s | e]; [destruct Hr |].
  split; [exact Hr | reflexivity].
Qed.

End Lag.

(** ** C9: the caller's table *)

(** C9: [create_features] leaves every DataFrame object that existed before
    the call exactly as it was, the caller's [df] included, whether the call
    returns or raises and whichever optional feature groups are enabled; the
    table it returns is a new object. *)
Theorem create_features_keeps_input `{NumLib} `{ArgSort}
    (self : TransitFeatureEngine) (df : positive)
    (include_weather include_events : bool) (h : gmap positive DataFrame) :
  h ⊆ (create_features self df include_weather include_events h).2 /\
  (create_features self df include_weather include_events h).2 !! df = h !! df /\
  (forall out,
     (create_features self df include_weather include_events h).1 = Ok out ->
     h !! out = None /\ out <> df /\ is_Some (h !! df)).
Proof.
  destruct (keeps_create_features (dom h) self df include_weather
              include_events h) as [Hfr Hres]; [done |].
  assert (Hdf : h !! df = None ->
                create_features self df include_weather include_events h
                = (Raise (Exn "ReferenceError" "no such object"), h)).
  { intros Hnone. unfold create_features, copy, bind, deref.
    by rewrite Hnone. }
  split; [| split].
  - apply map_subseteq_spec. intros l d Hl. rewrite Hfr; [done |].
    apply elem_of_dom. eauto.
  - destruct (h !! df) as [d |] eqn:Hd.
    + rewrite Hfr; [done |]. apply elem_of_dom. eauto.
    + by rewrite (Hdf eq_refl).
  - intros out Hout. pose proof (Hres out Hout) as Hfresh.
    apply not_elem_of_dom in Hfresh.
    destruct (h !! df) as [d |] eqn:Hd.
    + repeat split; [done | | eauto]. intros ->. congruence.
    + rewrite (Hdf eq_refl) in Hout. discriminate.
Qed.

(** * Further properties of the predictor *)

Section PredictorMore.
Context `{NumLib} `{ArgSort} {E : Type} `{Estimator E}.

(** ** Construction *)

(** [__init__] builds a predictor for exactly two tags; the predictor is
    untrained and has no contract.  Any other tag raises a [ValueError] that
    quotes the tag, and no predictor exists. *)
Theorem init_accepts_two_tags (mt : string) :
  (mt = "random_forest" \/ mt = "gradient_boosting" <->
   exists p, __init__ mt = Ok p) /\
  (forall p, __init__ mt = Ok p ->
     model_type p = mt /\ is_trained p = false /\ feature_names p = None /\
     (mt = "random_forest" -> model p = RandomForestRegressor) /\
     (mt = "gradient_boosting" -> model p = GradientBoostingRegressor)) /\
  (mt <> "random_forest" -> mt <> "gradient_boosting" ->
   __init__ mt = Raise (ValueError ("Unknown model type: " ++ mt)%string)).
Proof.
  unfold __init__. split; [| split].
  - split.
    + intros [-> | ->]; simpl; eauto.
    + intros [p Hp].
      destruct (decide (mt = "random_forest")); [by left |].
      destruct (decide (mt = "gradient_boosting")); [by right | discriminate].
  - intros p Hp.
    destruct (decide (mt = "random_forest")) as [-> | ?].
    { inversion Hp; subst; simpl. repeat split; (done || discriminate). }
    destruct (decide (mt = "gradient_boosting")) as [-> | ?];
      inversion Hp; subst; simpl. repeat split; (done || discriminate).
  - intros Hrf Hgb.
    destruct (decide (mt = "random_forest")); [done |].
    by destruct (decide (mt = "gradient_boosting")).
Qed.

(** ** Training *)

(** Whatever [train] does next, it has already replaced the feature-name
    contract by the columns of [X]; it never changes the model-type tag and
    never clears the trained flag; when it returns metrics the predictor is
    trained. *)
Theorem train_effects (X : DataFrame) (y : list cell) (vs : Q)
    (p : TransitDelayPredictor) :
  feature_names (train X y vs p).2 = Some (columns X) /\
  model_type (train X y vs p).2 = model_type p /\
  (is_trained p = true -> is_trained (train X y vs p).2 = true) /\
  (forall m, (train X y vs p).1 = Ok m -> is_trained (train X y vs p).2 = true).
Proof.
  unfold train; simpl.
  destruct (time_series_split 5 (nrows X)) as [folds | e];
    [| simpl; repeat split; (done || discriminate)].
  destruct (cv_loop folds X y (model p) []) as [[scores | e] m];
    [| simpl; repeat split; (done || discriminate)].
  destruct (est_fit m X y) as [m' | e];
    [| simpl; repeat split; (done || discriminate)].
  simpl. repeat split; done.
Qed.

(** With fewer than six rows the cross-validation split refuses: [train]
    raises a [ValueError] before the estimator is fitted once, and the only
    trace of the call is the overwritten contract. *)
Theorem train_too_few_rows (X : DataFrame) (y : list cell) (vs : Q)
    (p : TransitDelayPredictor) :
  (nrows X < 6)%nat ->
  raises (train X y vs p).1 "ValueError" /\
  (train X y vs p).2
  = mkPredictor (model_type p) (model p) (Some (columns X)) (is_trained p).
Proof.
  intros Hn. unfold train, time_series_split.
  destruct (decide (nrows X < 6)%nat); [| lia]. simpl. done.
Qed.

(** A call to [train] that returns leaves a predictor that accepts the
    training table: [predict] on it returns the in-sample output of the
    final fit, clamped, and raises nothing. *)
Theorem train_then_predict (X : DataFrame) (y : list cell) (vs : Q)
    (p : TransitDelayPredictor) (m : metrics) :
  (train X y vs p).1 = Ok m ->
  exists raw ys,
    est_predict (model (train X y vs p).2) X = Ok raw /\
    target y = Ok ys /\
    mae m = mean_absolute_error ys raw /\
    predict (train X y vs p).2 X = Ok (map (np_clip (-10) 60) raw).
Proof.
  unfold train; simpl.
  destruct (time_series_split 5 (nrows X)) as [folds | e]; [| discriminate].
  destruct (cv_loop folds X y (model p) []) as [[scores | e] m0];
    [| discriminate].
  destruct (est_fit m0 X y) as [m' | e]; [| discriminate].
  simpl. destruct (est_predict m' X) as [raw | e] eqn:Hraw; [| discriminate].
  simpl. destruct (target y) as [ys | e]; [| discriminate]. simpl.
  intros [= <-]. exists raw, ys. repeat split.
  unfold predict. simpl.
  destruct (decide (columns X ≠ columns X)) as [Hne | _]; [by destruct Hne |].
  simpl. by rewrite Hraw.
Qed.

(** ** Prediction *)

Lemma predict_via_contract (p : TransitDelayPredictor) (X : DataFrame) names :
  is_trained p = true -> feature_names p = Some names ->
  NoDup (columns X) -> names ⊆ columns X ->
  predict p X
  = rmap (map (np_clip (-10) 60))
         (est_predict (model p) (contract_view names X)).
Proof.
  intros Htr Hn Hnd Hsub. unfold predict. rewrite Htr, Hn. simpl.
  destruct (decide (columns X ≠ names)) as [Hne | Heq].
  - rewrite select_present by done. reflexivity.
  - assert (columns X = names) as <-
      by (destruct (decide (columns X = names)); done).
    rewrite contract_view_id by exact Hnd. reflexivity.
Qed.

(** Only the row labels and the columns named by the contract matter to
    [predict]: two tables that agree on them get the same answer, whatever
    else they hold and in whatever order. *)
Theorem predict_ignores_the_rest (p : TransitDelayPredictor)
    (X X' : DataFrame) (names : list string) :
  is_trained p = true -> feature_names p = Some names ->
  NoDup (columns X) -> NoDup (columns X') ->
  names ⊆ columns X -> names ⊆ columns X' ->
  df_index X = df_index X' ->
  (forall c, c ∈ names -> get_col c X = get_col c X') ->
  predict p X = predict p X'.
Proof.
  intros Htr Hn Hnd Hnd' Hsub Hsub' Hidx Hcols.
  rewrite (predict_via_contract p X names), (predict_via_contract p X' names)
    by done.
  do 2 f_equal. unfold contract_view. rewrite Hidx. f_equal.
  apply map_ext_in. intros c Hc. apply list_elem_of_In in Hc.
  f_equal. specialize (Hcols c Hc). unfold get_col in Hcols.
  destruct (assoc_present c (df_columns X) (Hsub c Hc)) as [v Hv].
  destruct (assoc_present c (df_columns X') (Hsub' c Hc)) as [v' Hv'].
  rewrite Hv, Hv' in *. by inversion Hcols.
Qed.

(** The point estimates of [predict_with_confidence] are those of
    [predict], clamped; an estimator without members gets the constant 2.0
    for every row, and an ensemble gets one deviation per row of [X], with
    every member having predicted on [X] as it was passed. *)
Theorem confidence_shape (p : TransitDelayPredictor) (X : DataFrame)
    (preds stds : list Q) :
  predict_with_confidence p X = Ok (preds, stds) ->
  predict p X = Ok preds /\
  (estimators_ (model p) = None ->
   stds = map (fun _ => 2%Q) preds /\ length stds = length preds) /\
  (forall trees, estimators_ (model p) = Some trees ->
     length stds = nrows X /\
     exists outs, rmapM (fun tree => est_predict tree X) trees = Ok outs /\
       stds = map (fun j => np_std (across 0%Q outs j)) (seq 0 (nrows X))).
Proof.
  unfold predict_with_confidence.
  destruct (predict p X) as [ps | e]; simpl; [| discriminate].
  destruct (estimators_ (model p)) as [trees |].
  - destruct (rmapM (fun tree => est_predict tree X) trees) as [outs | e] eqn:Ho;
      simpl; [| discriminate].
    intros [= <- <-]. split; [done |]. split; [discriminate |].
    intros ? [= <-]. split; [by rewrite length_map, length_seq |].
    exists outs. by rewrite Ho.
  - intros [= <- <-]. split; [done |]. split; [| discriminate].
    intros _. split; [done | by rewrite length_map].
Qed.

End PredictorMore.

(** ** Ranking by importance *)

Lemma omap_id_Some {A} (l : list A) : omap id (map Some l) = l.
Proof. induction l as [| a l IH]; simpl; [done | by f_equal]. Qed.

Lemma positions_from_Some a (l : list Q) :
  positions_from a (map Some l) = seq a (length l).
Proof.
  revert a. induction l as [| q l IH]; intros a; simpl; [done |].
  by rewrite IH.
Qed.

Lemma filter_none (P : nat -> Prop) `{forall x, Decision (P x)} (l : list nat) :
  Forall (fun x => ~ P x) l -> filter P l = [].
Proof.
  induction 1 as [| x l Hx _ IH]; [done |].
  by rewrite filter_cons_False.
Qed.

Lemma strongly_sorted_rev {A} (R : A -> A -> Prop) (l : list A) :
  StronglySorted R l -> StronglySorted (flip R) (rev l).
Proof.
  induction 1 as [| a l Hs IH Hall]; simpl; [constructor |].
  apply StronglySorted_app_2.
  - intros x1 x2 Hx1 Hx2. apply list_elem_of_singleton in Hx2 as ->.
    rewrite Forall_forall in Hall. apply Hall.
    apply list_elem_of_In. apply in_rev. by apply list_elem_of_In.
  - exact IH.
  - repeat constructor.
Qed.

Lemma nth_rev_seq (n j : nat) :
  (j < n)%nat -> nth j (rev (seq 0 n)) 0%nat = (n - S j)%nat.
Proof.
  intros Hj. rewrite rev_nth by (by rewrite length_seq).
  rewrite length_seq. rewrite seq_nth by lia. lia.
Qed.

Section Ranking.
Context `{ArgSort}.

(** Without missing keys, a descending sort is the ascending sort of the
    reversed keys, read backwards. *)
Lemma nargsort_descending (l : list Q) :
  nargsort false (map Some l)
  = rev (take_at 0%nat (argsort (rev l)) (rev (seq 0 (length l)))).
Proof.
  unfold nargsort. rewrite omap_id_Some, length_map.
  pose proof (non_nan_positions [] (map Some l)) as Hpos.
  simpl in Hpos. rewrite length_map, positions_from_Some in Hpos.
  rewrite Hpos. rewrite filter_none; [by rewrite app_nil_r |].
  apply Forall_forall. intros i Hi Hn. apply Hn.
  apply elem_of_seq in Hi as [_ Hi]. simpl in Hi.
  destruct (lookup_lt_is_Some_2 l i Hi) as [q Hq].
  rewrite lookup_map, Hq. simpl. eauto.
Qed.

Lemma nargsort_descending_perm (l : list Q) :
  nargsort false (map Some l) ≡ₚ seq 0 (length l).
Proof.
  rewrite nargsort_descending. rewrite <- Permutation_rev.
  unfold take_at. rewrite (argsort_perm (rev l)), length_rev.
  pose proof (take_at_seq 0%nat (rev (seq 0 (length l)))) as Hs.
  unfold take_at in Hs. rewrite length_rev, length_seq in Hs.
  rewrite Hs. by rewrite <- Permutation_rev.
Qed.

Lemma nargsort_descending_sorted (l : list Q) :
  StronglySorted (flip Qle) (take_at 0%Q (nargsort false (map Some l)) l).
Proof.
  rewrite nargsort_descending. unfold take_at. rewrite map_rev.
  apply strongly_sorted_rev. rewrite map_map.
  pose proof (argsort_sorted (rev l)) as Hs. unfold take_at in Hs.
  erewrite map_ext_in; [exact Hs |].
  intros j Hj. simpl. apply list_elem_of_In in Hj.
  rewrite (argsort_perm (rev l)) in Hj. apply elem_of_seq in Hj as [_ Hj].
  simpl in Hj. rewrite length_rev in Hj.
  rewrite nth_rev_seq by exact Hj. by rewrite rev_nth by exact Hj.
Qed.

End Ranking.

Section Importance.
Context `{NumLib} `{ArgSort} {E : Type} `{Estimator E}.

(** For a trained predictor whose estimator exposes one importance per
    feature of the contract, [get_feature_importance] returns the pairs
    (feature, importance), every pair once, in descending order of
    importance; an estimator that exposes none gives the empty table instead
    of an error. *)
Theorem importance_ranked (p : TransitDelayPredictor) (names : list string) :
  is_trained p = true ->
  feature_names p = Some names ->
  (feature_importances_ (model p) = None ->
   get_feature_importance p = Ok empty_frame) /\
  (forall imps,
     feature_importances_ (model p) = Some imps ->
     length names = length imps ->
     exists order ranked,
       order ≡ₚ seq 0 (length names) /\
       get_feature_importance p = Ok ranked /\
       get_col "feature" ranked
       = Ok (map (fun i => Str (nth i names ""%string)) order) /\
       get_col "importance" ranked
       = Ok (map (fun i => Num (nth i imps 0%Q)) order) /\
       StronglySorted (flip Qle) (map (fun i => nth i imps 0%Q) order)).
Proof.
  intros Htr Hn. unfold get_feature_importance. rewrite Htr, Hn. simpl.
  split; [by intros -> |].
  intros imps -> Hlen.
  destruct (decide (length names = length imps)); [| done].
  exists (nargsort false (map Some imps)). eexists.
  pose proof (nargsort_descending_perm imps) as Hperm.
  split; [by rewrite Hlen |].
  unfold sort_values. simpl.
  assert (Hkeys : rmapM sort_key (map Num imps) = Ok (map Some imps)).
  { pose proof (rmapM_ok sort_key (fun c => match c with
                                          | Num q => Some q
                                          | _ => None
                                          end) (map Num imps)) as Hk.
    rewrite map_map in Hk. apply Hk. apply Forall_forall.
    intros c Hc. apply list_elem_of_fmap in Hc as (q & -> & _). done. }
  rewrite Hkeys. simpl. split; [reflexivity |].
  assert (Hin : forall i, In i (nargsort false (map Some imps)) ->
                  (i < length imps)%nat).
  { intros i Hi. apply list_elem_of_In in Hi. rewrite Hperm in Hi.
    apply elem_of_seq in Hi. lia. }
  split; [| split].
  - unfold get_col, take_rows, take_at. simpl. f_equal.
    apply map_ext_in. intros i Hi. apply Hin in Hi.
    rewrite <- Hlen in Hi.
    rewrite (nth_indep _ NaN (Str "")) by (by rewrite length_map).
    apply (map_nth Str).
  - unfold get_col, take_rows, take_at. simpl. f_equal.
    apply map_ext_in. intros i Hi. apply Hin in Hi.
    rewrite (nth_indep _ NaN (Num 0)) by (by rewrite length_map).
    apply (map_nth Num).
  - apply nargsort_descending_sorted.
Qed.

End Importance.

(** * Further properties of the feature engine *)

Section EngineMore.
Context `{NumLib} `{ArgSort}.

(** ** Tables without the columns the steps look for *)

(** On a table with no [timestamp], no [delay_seconds], not both of
    [aimed_arrival] and [expected_arrival], and no [route_id], every step of
    [create_features] is skipped: the call returns a new object that is an
    exact copy of the input, with no column added. *)
Theorem create_features_skips_all (self : TransitFeatureEngine)
    (df : positive) (h : gmap positive DataFrame) (d : DataFrame) :
  h !! df = Some d ->
  has_col "timestamp" d = false ->
  has_col "delay_seconds" d = false ->
  has_col "aimed_arrival" d && has_col "expected_arrival" d = false ->
  has_col "route_id" d = false ->
  create_features self df false false h
  = (Ok (fresh (dom h)), <[fresh (dom h) := d]> h).
Proof.
  intros Hd Hts Hsec Hpair Hroute. unfold create_features, copy.
  rewrite bind_assoc. erewrite bind_deref by exact Hd. rewrite bind_alloc.
  unfold sort_by_timestamp. rewrite bind_assoc. run_step. rewrite Hts.
  rewrite bind_ret. unfold derive_features.
  unfold _add_temporal_features. rewrite bind_assoc. run_step. rewrite Hts.
  cbn [negb]. rewrite bind_ret.
  unfold _add_delay_features. rewrite bind_assoc. run_step. rewrite Hsec.
  rewrite bind_assoc. run_step. rewrite bind_assoc. run_step. rewrite Hpair.
  rewrite bind_ret.
  unfold _add_lag_features. rewrite bind_assoc. run_step.
  rewrite bind_assoc. run_step. rewrite Hroute.
  rewrite orb_true_r. rewrite bind_ret.
  unfold _add_route_features. rewrite bind_assoc. run_step. rewrite Hroute.
  cbn [negb]. rewrite bind_ret. reflexivity.
Qed.

(** ** Calendar columns *)

Lemma isin_weekend (z : Z) :
  isin [5; 6]%Q (Some (inject_Z z)) = true <-> (z = 5 \/ z = 6)%Z.
Proof.
  unfold isin. simpl. rewrite orb_false_r, orb_true_iff.
  rewrite !Qeq_bool_iff. unfold Qeq. simpl. lia.
Qed.

(** After [_add_temporal_features] on a datetime column: a row with an
    instant [t] has its hour in 0..23 and its day of week in 0..6 (Monday
    0), and [is_weekend] is 1 exactly on days 5 and 6; a row whose timestamp
    is missing has an unknown hour and day, yet all its flags are 0, not
    unknown.  The row labels and every column that is not one of the twelve
    temporal columns are left as they were. *)
Theorem calendar_columns (h : gmap positive DataFrame) (df : positive)
    (d : DataFrame) (ts : list cell) :
  h !! df = Some d ->
  get_col "timestamp" d = Ok ts ->
  Forall datetimelike ts ->
  exists d' hour dow weekend morning evening peak,
    _add_temporal_features df h = (Ok df, <[df := d']> h) /\
    df_index d' = df_index d /\
    (forall c, c ∉ temporal_names -> get_col c d' = get_col c d) /\
    get_col "hour" d' = Ok hour /\
    get_col "day_of_week" d' = Ok dow /\
    get_col "is_weekend" d' = Ok weekend /\
    get_col "is_morning_peak" d' = Ok morning /\
    get_col "is_evening_peak" d' = Ok evening /\
    get_col "is_peak_hour" d' = Ok peak /\
    (forall i t, ts !! i = Some (Time t) ->
       hour !! i = Some (Num (inject_Z (hour_of t))) /\
       (0 <= hour_of t <= 23)%Z /\
       dow !! i = Some (Num (inject_Z (dayofweek_of t))) /\
       (0 <= dayofweek_of t <= 6)%Z /\
       exists w : bool,
         weekend !! i = Some (Num (if w then 1 else 0)) /\
         (w = true <-> dayofweek_of t = 5 \/ dayofweek_of t = 6)%Z) /\
    (forall i, ts !! i = Some NaN ->
       hour !! i = Some NaN /\ dow !! i = Some NaN /\
       weekend !! i = Some (Num 0) /\ morning !! i = Some (Num 0) /\
       evening !! i = Some (Num 0) /\ peak !! i = Some (Num 0)).
Proof.
  intros Hd Hts Hdt. unfold _add_temporal_features.
  run_step. rewrite (has_col_get_col _ _ _ Hts). simpl.
  repeat (run_step; cols;
          rewrite ?Hts, ?dt_field_ok, ?floats_dt, ?map_num_dt by done;
          rewrite ?map_map, ?zip_bit_or_flags).
  unfold ret. eexists. do 6 eexists. split; [reflexivity |].
  split; [reflexivity |]. split.
  { intros c Hc.
    repeat (rewrite get_col_set_col_ne;
            [| intros <-; apply Hc; unfold temporal_names;
               repeat (first [by left | right])]).
    reflexivity. }
  cols. do 6 (split; [reflexivity |]). split.
  - intros i t Hi. rewrite !lookup_map, Hi. simpl.
    split; [done |].
    split; [unfold hour_of; pose proof (Z.mod_pos_bound (t / ns_per_hour) 24);
            lia |].
    split; [done |].
    split; [unfold dayofweek_of;
            pose proof (Z.mod_pos_bound (t / ns_per_day + 3) 7); lia |].
    eexists. split; [reflexivity |]. apply isin_weekend.
  - intros i Hi. rewrite !lookup_map, Hi. simpl. repeat split.
Qed.

(** ** Placeholder columns *)

(** [_add_weather_features] and [_add_event_features] write constants, one
    per row: [temperature] and [precipitation] are all unknown, [is_rainy],
    [is_holiday] and [nearby_event] are all 0.  A column of one of these
    names that the table brought along is overwritten; the row labels and
    every other column stay as they were. *)
Theorem placeholders_overwrite (h : gmap positive DataFrame) (df : positive)
    (d : DataFrame) :
  h !! df = Some d ->
  (exists d',
     _add_weather_features df h = (Ok df, <[df := d']> h) /\
     df_index d' = df_index d /\
     get_col "temperature" d' = Ok (replicate (nrows d) NaN) /\
     get_col "precipitation" d' = Ok (replicate (nrows d) NaN) /\
     get_col "is_rainy" d' = Ok (replicate (nrows d) (Num 0)) /\
     forall c, c ∉ ["temperature"; "precipitation"; "is_rainy"]%string ->
       get_col c d' = get_col c d) /\
  (exists d',
     _add_event_features df h = (Ok df, <[df := d']> h) /\
     df_index d' = df_index d /\
     get_col "is_holiday" d' = Ok (replicate (nrows d) (Num 0)) /\
     get_col "nearby_event" d' = Ok (replicate (nrows d) (Num 0)) /\
     forall c, c ∉ ["is_holiday"; "nearby_event"]%string ->
       get_col c d' = get_col c d).
Proof.
  intros Hd. split.
  - unfold _add_weather_features. repeat run_step. unfold ret.
    eexists. split; [reflexivity |]. split; [reflexivity |].
    cols. do 3 (split; [reflexivity |]).
    intros c Hc.
    repeat (rewrite get_col_set_col_ne;
            [| intros <-; apply Hc; repeat (first [by left | right])]).
    reflexivity.
  - unfold _add_event_features. repeat run_step. unfold ret.
    eexists. split; [reflexivity |]. split; [reflexivity |].
    cols. do 2 (split; [reflexivity |]).
    intros c Hc.
    repeat (rewrite get_col_set_col_ne;
            [| intros <-; apply Hc; repeat (first [by left | right])]).
    reflexivity.
Qed.

(** ** Route aggregates *)

Lemma Qeq_bool_trans_r (a b c : Q) :
  Qeq_bool a b = true -> Qeq_bool c a = Qeq_bool c b.
Proof.
  intros Hab. apply Qeq_bool_iff in Hab.
  destruct (Qeq_bool c a) eqn:Hca, (Qeq_bool c b) eqn:Hcb; try done.
  - apply Qeq_bool_iff in Hca.
    assert (Qeq_bool c b = true) by (apply Qeq_bool_iff; by rewrite Hca).
    congruence.
  - apply Qeq_bool_iff in Hcb.
    assert (Qeq_bool c a = true) by (apply Qeq_bool_iff; by rewrite Hcb, Hab).
    congruence.
Qed.

Lemma cell_eqb_same_group (a b c : cell) :
  cell_eqb a b = true -> cell_eqb c a = cell_eqb c b.
Proof.
  destruct a, b; simpl; try done; intros Hab; destruct c; simpl; try done.
  - by apply Qeq_bool_trans_r.
  - apply bool_decide_eq_true in Hab. by subst.
  - apply Z.eqb_eq in Hab. by subst.
Qed.

Lemma group_rows_same_route (keys : list cell) (a b : cell) :
  cell_eqb a b = true -> group_rows keys a = group_rows keys b.
Proof.
  intros Hab. unfold group_rows. apply list_filter_iff. intros j.
  unfold in_group. destruct (keys !! j) as [c |]; [| done].
  by rewrite (cell_eqb_same_group a b c Hab).
Qed.

(** [route_avg_delay] and [route_delay_std] of a row are the mean and the
    sample standard deviation of the observed delays of all rows of its
    route in the table, rows after it included; two rows of the same route
    carry the same pair, and a row without a route carries unknowns. *)
Theorem route_aggregates (h : gmap positive DataFrame) (df : positive)
    (d : DataFrame) (keys vals : list cell) (xs : list (option Q)) :
  h !! df = Some d ->
  get_col "route_id" d = Ok keys ->
  get_col "delay_minutes" d = Ok vals ->
  floats vals = Ok xs ->
  exists d' avg std,
    _add_route_features df h = (Ok df, <[df := d']> h) /\
    get_col "route_avg_delay" d' = Ok avg /\
    get_col "route_delay_std" d' = Ok std /\
    (forall i k, keys !! i = Some k -> is_nan k = false ->
       avg !! i
       = Some (of_float
                 (agg_mean (observed (take_at None (group_rows keys k) xs)))) /\
       std !! i
       = Some (of_float
                 (agg_std (observed (take_at None (group_rows keys k) xs))))) /\
    (forall i j ki kj,
       keys !! i = Some ki -> keys !! j = Some kj -> cell_eqb ki kj = true ->
       avg !! i = avg !! j /\ std !! i = std !! j) /\
    (forall i, keys !! i = Some NaN ->
       avg !! i = Some NaN /\ std !! i = Some NaN).
Proof.
  intros Hd Hk Hv Hx. unfold _add_route_features.
  run_step. rewrite (has_col_get_col _ _ _ Hk). cbn [negb].
  repeat (run_step; cols; rewrite ?Hk, ?Hv, ?Hx).
  unfold ret. eexists. do 2 eexists. split; [reflexivity |].
  cols. do 2 (split; [reflexivity |]).
  assert (Hrow : forall agg i k, keys !! i = Some k ->
            map of_float (group_agg agg keys xs) !! i
            = Some (if is_nan k then NaN
                    else of_float
                           (agg (observed
                                   (take_at None (group_rows keys k) xs))))).
  { intros agg i k Hi. unfold group_agg. rewrite !lookup_map, Hi. simpl.
    by destruct (is_nan k). }
  split; [| split].
  - intros i k Hi Hn. rewrite !(Hrow _ i k Hi), Hn. done.
  - intros i j ki kj Hi Hj Heq.
    rewrite !(Hrow _ i ki Hi), !(Hrow _ j kj Hj).
    rewrite (group_rows_same_route keys ki kj Heq).
    assert (is_nan ki = false /\ is_nan kj = false) as [-> ->]
      by (destruct ki, kj; done).
    done.
  - intros i Hi. rewrite !(Hrow _ i NaN Hi). done.
Qed.

(** ** The list of feature names *)

Lemma string_length_append (s t : string) :
  String.length (s ++ t)%string = (String.length s + String.length t)%nat.
Proof. induction s as [| a s IH]; simpl; [done | by rewrite IH]. Qed.

Lemma string_append_cancel_r (s s' t : string) :
  (s ++ t)%string = (s' ++ t)%string -> s = s'.
Proof.
  revert s'. induction s as [| a s IH]; intros [| a' s'] Heq.
  - done.
  - apply (f_equal String.length) in Heq.
    change (String.length t = S (String.length (s' ++ t)%string)) in Heq.
    rewrite string_length_append in Heq. exfalso. lia.
  - apply (f_equal String.length) in Heq.
    change (S (String.length (s ++ t)%string) = String.length t) in Heq.
    rewrite string_length_append in Heq. exfalso. lia.
  - injection Heq as -> Heq. f_equal. by apply IH.
Qed.

Lemma lag_name_inj (a b : Z) : lag_name a = lag_name b -> a = b.
Proof.
  unfold lag_name. intros Heq.
  apply (inj (String.append "delay_lag_")) in Heq.
  apply string_append_cancel_r in Heq. by apply (inj pretty).
Qed.

Lemma lag_name_not_fixed (a : Z) :
  (lag_name a ∉ fixed_names) /\ (lag_name a ∉ not_features).
Proof.
  unfold lag_name, fixed_names, temporal_names, not_features.
  split; intros Hin; simpl in Hin;
    repeat (apply elem_of_cons in Hin as [Heq | Hin]; [discriminate |]);
    inversion Hin.
Qed.

Lemma get_feature_names_perm `{NumLib} `{ArgSort} (self : TransitFeatureEngine) :
  get_feature_names self ≡ₚ map lag_name (lag_hours self) ++ fixed_names.
Proof.
  unfold get_feature_names.
  change (concat (map (fun w : nat => ["delay_rolling_mean_" ++ pretty w ++ "h";
                                       "delay_rolling_std_" ++ pretty w ++ "h"]%string)
                      [3; 6; 12]%nat))
    with ["delay_rolling_mean_3h"; "delay_rolling_std_3h";
          "delay_rolling_mean_6h"; "delay_rolling_std_6h";
          "delay_rolling_mean_12h"; "delay_rolling_std_12h"]%string.
  fold temporal_names. unfold fixed_names.
  rewrite (app_assoc temporal_names). rewrite (Permutation_app_comm temporal_names).
  rewrite <- !app_assoc. reflexivity.
Qed.

Lemma fixed_names_plain :
  NoDup fixed_names /\ forall c, c ∈ not_features -> c ∉ fixed_names.
Proof.
  split.
  - exact (bool_decide_unpack (NoDup fixed_names) I).
  - intros c Hc.
    unfold not_features in Hc.
    repeat (apply elem_of_cons in Hc as [-> | Hc];
            [match goal with
             | |- ?x ∉ ?l => exact (bool_decide_unpack (x ∉ l) I)
             end |]).
    inversion Hc.
Qed.

(** [get_feature_names] lists the twenty fixed names and one name per lag
    horizon; it never lists a raw input column, the target [delay_minutes]
    or a placeholder column; and its names are pairwise distinct exactly
    when the configured lag horizons are. *)
Theorem feature_names_shape (self : TransitFeatureEngine) :
  length (get_feature_names self) = (20 + length (lag_hours self))%nat /\
  (forall c, c ∈ not_features -> c ∉ get_feature_names self) /\
  (forall hours, hours ∈ lag_hours self ->
     lag_name hours ∈ get_feature_names self) /\
  (NoDup (get_feature_names self) <-> NoDup (lag_hours self)).
Proof.
  pose proof (get_feature_names_perm self) as Hperm.
  destruct fixed_names_plain as [Hnd Hnot].
  split; [| split; [| split]].
  - rewrite Hperm, length_app, length_map. simpl. lia.
  - intros c Hc. rewrite Hperm. rewrite elem_of_app. intros [Hin | Hin].
    + apply list_elem_of_fmap in Hin as (a & -> & _).
      by apply (proj2 (lag_name_not_fixed a)).
    + by apply (Hnot c).
  - intros hours Hin. rewrite Hperm. apply elem_of_app. left.
    apply list_elem_of_fmap. eauto.
  - rewrite Hperm. rewrite NoDup_app. split.
    + intros (Hlags & _ & _).
      apply (NoDup_fmap_1 lag_name). exact Hlags.
    + intros Hlags. split; [| split; [| exact Hnd]].
      * apply NoDup_fmap_2_strong; [| exact Hlags].
        intros a b _ _. apply lag_name_inj.
      * intros c Hc. apply list_elem_of_fmap in Hc as (a & -> & _).
        apply (proj1 (lag_name_not_fixed a)).
Qed.

(** ** The first observation of a route *)

Lemma sorted_all_equal (l : list nat) (i : nat) :
  StronglySorted lt l -> i ∈ l -> (forall x, x ∈ l -> x = i) -> l = [i].
Proof.
  intros Hs Hin Hall. destruct l as [| a l]; [inversion Hin |].
  assert (a = i) as -> by (apply Hall; by left).
  destruct l as [| b l]; [done |].
  apply StronglySorted_inv in Hs as [_ Hlt].
  apply Forall_cons in Hlt as [Hlt _].
  assert (b = i) by (apply Hall; right; by left). lia.
Qed.

Lemma route_rows_first (keys : list cell) (i : nat) (k : cell) :
  keys !! i = Some k -> is_nan k = false ->
  (forall j, (j < i)%nat -> in_group keys k j = false) ->
  route_rows_upto keys i = [i].
Proof.
  intros Hi Hk Hfirst. unfold route_rows_upto. rewrite Hi.
  apply sorted_all_equal.
  - apply filter_strongly_sorted, group_rows_sorted.
  - apply list_elem_of_filter. split; [lia | by apply group_rows_self].
  - intros x Hx. apply list_elem_of_filter in Hx as [Hle Hx].
    unfold group_rows in Hx. apply list_elem_of_filter in Hx as [Hg _].
    destruct (decide (x = i)) as [-> | Hne]; [done |].
    rewrite Hfirst in Hg by lia. done.
Qed.

(** In one turn of the rolling loop, the first row of a route (no earlier
    row carries the route) with an observed delay [x] gets [x] as its
    rolling mean and an unknown rolling standard deviation, for every
    window of at least one row. *)
Theorem first_observation_rolling (h : gmap positive DataFrame)
    (df : positive) (d : DataFrame) (w : nat) (keys vals : list cell)
    (xs : list (option Q)) (i : nat) (k : cell) (x : Q) :
  h !! df = Some d ->
  get_col "route_id" d = Ok keys ->
  get_col "delay_minutes" d = Ok vals ->
  floats vals = Ok xs ->
  (1 <= w)%nat ->
  keys !! i = Some k -> is_nan k = false ->
  (forall j, (j < i)%nat -> in_group keys k j = false) ->
  xs !! i = Some (Some x) ->
  exists d' means stds,
    add_rolling df w h = (Ok tt, <[df := d']> h) /\
    get_col (mean_name w) d' = Ok means /\
    get_col (std_name w) d' = Ok stds /\
    (exists q, means !! i = Some (Num q) /\ (q == x)%Q) /\
    stds !! i = Some NaN.
Proof.
  intros Hd Hk Hv Hx Hw Hi Hnan Hfirst Hxi.
  rewrite (add_rolling_run h df d w keys vals xs Hd Hk Hv Hx).
  do 3 eexists. split; [reflexivity |].
  rewrite get_col_set_col_ne by discriminate.
  rewrite !get_col_set_col_eq. do 2 (split; [reflexivity |]).
  rewrite !lookup_map.
  rewrite (transform_rolling_mean w keys xs i k Hi Hnan).
  rewrite (transform_rolling_std w keys xs i k Hi Hnan).
  unfold trailing_mean, trailing_std, trailing_rows.
  rewrite (route_rows_first keys i k Hi Hnan Hfirst).
  replace (length [i] - w)%nat with 0%nat by (simpl; lia).
  simpl. rewrite (nth_lookup_Some _ _ _ _ Hxi). simpl.
  split; [| done].
  eexists. split; [reflexivity |].
  rewrite Qred_correct. unfold mean, Qsum, count. simpl. field.
Qed.

End EngineMore.

(** ** The whole pipeline without lag horizons *)

Lemma has_col_true c d : has_col c d = true -> exists v, get_col c d = Ok v.
Proof.
  rewrite has_col_assoc. intros Hc. apply bool_decide_eq_true in Hc as [v Hv].
  exists v. unfold get_col. by rewrite Hv.
Qed.

Lemma has_col_same c d d' :
  get_col c d' = get_col c d -> has_col c d' = has_col c d.
Proof.
  rewrite !has_col_assoc. unfold get_col. intros Heq.
  apply bool_decide_ext.
  destruct (assoc c (df_columns d')), (assoc c (df_columns d));
    try discriminate; split; intros [? ?]; eauto; done.
Qed.

Lemma has_col_take_rows c p d : has_col c (take_rows p d) = has_col c d.
Proof.
  rewrite !has_col_assoc. apply bool_decide_ext. unfold take_rows. simpl.
  induction (df_columns d) as [| [k v] l IH]; simpl; [done |].
  destruct (decide (k = c)); [split; eauto | exact IH].
Qed.

Lemma adds_has_col names d d' c :
  adds names d d' -> has_col c d = true -> has_col c d' = true.
Proof.
  intros (_ & Hnew & Hold) Hc. destruct (decide (c ∈ names)) as [Hin | Hnin].
  - by apply Hnew.
  - rewrite (has_col_same c d d') by (by apply Hold). done.
Qed.

Lemma adds_trans n1 n2 d d1 d2 :
  adds n1 d d1 -> adds n2 d1 d2 -> adds (n1 ++ n2)%list d d2.
Proof.
  intros H1 H2. pose proof (fun c => adds_has_col _ _ _ c H2) as Hmono.
  destruct H1 as (Hi1 & Hn1 & Ho1), H2 as (Hi2 & Hn2 & Ho2).
  split; [congruence |]. split.
  - intros c Hc. apply elem_of_app in Hc as [Hc | Hc];
      [apply Hmono; by apply Hn1 | by apply Hn2].
  - intros c Hc. apply not_elem_of_app in Hc as [Hc1 Hc2].
    rewrite Ho2, Ho1; done.
Qed.

Lemma adds_refl d : adds [] d d.
Proof. repeat split. intros c Hc. inversion Hc. Qed.

(** Deciding a statement about concrete column names. *)
Ltac decide_names :=
  match goal with
  | |- _ ∉ _ => apply (proj1 (bool_decide_eq_false _)); vm_compute; reflexivity
  | |- _ ∈ _ => apply (proj1 (bool_decide_eq_true _)); vm_compute; reflexivity
  | |- _ <> _ => vm_compute; discriminate
  end.

(** A chain of column assignments adds the assigned columns. *)
Ltac adds_frame :=
  split; [reflexivity |]; split;
  [ let c := fresh "c" in
    let Hc := fresh "Hc" in
    intros c Hc;
    repeat (apply elem_of_cons in Hc as [-> | Hc];
            [repeat first [ apply has_col_set_col_eq
                          | rewrite has_col_set_col_ne by decide_names ] |]);
    inversion Hc
  | let c := fresh "c" in
    let Hc := fresh "Hc" in
    intros c Hc;
    repeat (rewrite get_col_set_col_ne;
            [| intros <-; apply Hc; decide_names ]);
    reflexivity ].

Lemma floats_map_of_float (g : Q -> Q) (xs : list (option Q)) :
  floats (map (fun o => of_float (g <$> o)) xs)
  = Ok (map (fun o => Qred <$> (g <$> o)) xs).
Proof.
  unfold floats. induction xs as [| [q |] xs IH]; simpl; [done | |];
    by rewrite IH.
Qed.

Lemma floats_take_at p vals xs :
  floats vals = Ok xs -> floats (take_at NaN p vals) = Ok (take_at None p xs).
Proof.
  intros Hx. unfold floats, take_at.
  induction p as [| i p IH]; simpl; [done |]. rewrite IH.
  assert (as_float (nth i vals NaN) = Ok (nth i xs None)) as ->; [| done].
  destruct (vals !! i) as [c |] eqn:Hc.
  - destruct (floats_lookup _ _ _ _ Hx Hc) as (o & Ho & Hf).
    by rewrite (nth_lookup_Some _ _ _ _ Hc), (nth_lookup_Some _ _ _ _ Ho).
  - pose proof (rmapM_length _ _ _ Hx) as Hlen.
    apply lookup_ge_None in Hc. by rewrite !nth_overflow by lia.
Qed.

Lemma datetimelike_take_at p ts :
  Forall datetimelike ts -> Forall datetimelike (take_at NaN p ts).
Proof.
  intros Hts. apply Forall_forall. intros c Hc. unfold take_at in Hc.
  apply list_elem_of_fmap in Hc as (i & -> & _).
  destruct (ts !! i) as [c |] eqn:Hi.
  - rewrite (nth_lookup_Some _ _ _ _ Hi). rewrite Forall_forall in Hts.
    apply Hts. by eapply list_elem_of_lookup_2.
  - apply lookup_ge_None in Hi. by rewrite nth_overflow by lia.
Qed.

Section Pipeline.
Context `{NumLib} `{ArgSort}.

Lemma add_temporal_adds (h : gmap positive DataFrame) df d ts :
  h !! df = Some d ->
  get_col "timestamp" d = Ok ts ->
  Forall datetimelike ts ->
  exists d',
    _add_temporal_features df h = (Ok df, <[df := d']> h) /\
    adds temporal_names d d'.
Proof.
  intros Hd Hts Hdt. unfold _add_temporal_features.
  run_step. rewrite (has_col_get_col _ _ _ Hts). simpl.
  repeat (run_step; cols;
          rewrite ?Hts, ?dt_field_ok, ?floats_dt, ?map_num_dt by done;
          rewrite ?map_map, ?zip_bit_or_flags).
  unfold ret. eexists. split; [reflexivity |].
  unfold temporal_names. adds_frame.
Qed.

Lemma add_delay_seconds_run (h : gmap positive DataFrame) df d s xs :
  h !! df = Some d ->
  get_col "delay_seconds" d = Ok s ->
  floats s = Ok xs ->
  _add_delay_features df h
  = (Ok df,
     <[df := set_col "delay_minutes"
               (map (fun o => of_float ((fun x => x / 60)%Q <$> o)) xs) d]> h).
Proof.
  intros Hd Hs Hxs. unfold _add_delay_features.
  run_step. rewrite (has_col_get_col _ _ _ Hs).
  run_step. rewrite Hs. run_step. unfold map_num. rewrite Hxs. simpl.
  run_step. reflexivity.
Qed.

Lemma add_rolling_adds (h : gmap positive DataFrame) df d keys vals xs :
  h !! df = Some d ->
  get_col "route_id" d = Ok keys ->
  get_col "delay_minutes" d = Ok vals ->
  floats vals = Ok xs ->
  exists d',
    _add_lag_features {| lag_hours := [] |} df h = (Ok df, <[df := d']> h) /\
    adds [mean_name 3; std_name 3; mean_name 6; std_name 6;
          mean_name 12; std_name 12] d d'.
Proof.
  intros Hd Hk Hv Hx. unfold _add_lag_features.
  do 2 run_step.
  rewrite (has_col_get_col _ _ _ Hk), (has_col_get_col _ _ _ Hv).
  cbn [negb orb lag_hours forM_]. run_step.
  rewrite !bind_assoc.
  erewrite bind_ok by (eapply add_rolling_run; [run_lookup | eauto ..]).
  rewrite !bind_assoc.
  erewrite bind_ok
    by (eapply add_rolling_run;
        [run_lookup | rewrite (proj1 (rolled_inputs _ _ _ _)); eauto
         | rewrite (proj2 (rolled_inputs _ _ _ _)); eauto | eauto]).
  rewrite insert_insert_eq, !bind_assoc.
  erewrite bind_ok
    by (eapply add_rolling_run;
        [run_lookup
         | rewrite !(proj1 (rolled_inputs _ _ _ _)); eauto
         | rewrite !(proj2 (rolled_inputs _ _ _ _)); eauto | eauto]).
  rewrite insert_insert_eq.
  eexists. split; [reflexivity |]. adds_frame.
Qed.

Lemma add_route_adds (h : gmap positive DataFrame) df d keys vals xs :
  h !! df = Some d ->
  get_col "route_id" d = Ok keys ->
  get_col "delay_minutes" d = Ok vals ->
  floats vals = Ok xs ->
  exists d',
    _add_route_features df h = (Ok df, <[df := d']> h) /\
    adds ["route_avg_delay"; "route_delay_std"]%string d d'.
Proof.
  intros Hd Hk Hv Hx. unfold _add_route_features.
  run_step. rewrite (has_col_get_col _ _ _ Hk). cbn [negb].
  repeat (run_step; cols; rewrite ?Hk, ?Hv, ?Hx).
  unfold ret. eexists. split; [reflexivity |]. adds_frame.
Qed.

Lemma add_weather_adds (h : gmap positive DataFrame) df d :
  h !! df = Some d ->
  exists d',
    _add_weather_features df h = (Ok df, <[df := d']> h) /\
    adds ["temperature"; "precipitation"; "is_rainy"]%string d d'.
Proof.
  intros Hd. unfold _add_weather_features. repeat run_step. unfold ret.
  eexists. split; [reflexivity |]. adds_frame.
Qed.

Lemma add_event_adds (h : gmap positive DataFrame) df d :
  h !! df = Some d ->
  exists d',
    _add_event_features df h = (Ok df, <[df := d']> h) /\
    adds ["is_holiday"; "nearby_event"]%string d d'.
Proof.
  intros Hd. unfold _add_event_features. repeat run_step. unfold ret.
  eexists. split; [reflexivity |]. adds_frame.
Qed.

End Pipeline.

Lemma has_col_set_col_mono c c' v d :
  has_col c' d = true -> has_col c' (set_col c v d) = true.
Proof.
  intros Hc. destruct (decide (c = c')) as [-> | Hne].
  - apply has_col_set_col_eq.
  - by rewrite has_col_set_col_ne.
Qed.

Section WholePipeline.
Context `{NumLib} `{ArgSort}.

(** The first step of [create_features] on a table whose [timestamp]
    column can be coerced: the feature steps run on a new object that holds
    the sorted rows of the copy. *)
Lemma create_features_sorted (self : TransitFeatureEngine) (df : positive)
    (h : gmap positive DataFrame) (d : DataFrame)
    (include_weather include_events : bool) (ts ts' : list cell) :
  h !! df = Some d ->
  get_col "timestamp" d = Ok ts ->
  to_datetime ts = Ok ts' ->
  exists (out : positive) (hs : gmap positive DataFrame),
    create_features self df include_weather include_events h
    = derive_features self out include_weather include_events hs /\
    hs !! out = Some (take_rows (nargsort true (map dt_key ts'))
                        (set_col "timestamp" ts' d)).
Proof.
  intros Hd Hts Hts'.
  pose proof (to_datetime_datetimelike _ _ Hts') as Hdt.
  set (d1 := set_col "timestamp" ts' d).
  set (h1 := <[fresh (dom h) := d1]> h).
  exists (fresh (dom h1)),
    (<[fresh (dom h1) := take_rows (nargsort true (map dt_key ts')) d1]> h1).
  split; [| apply lookup_insert_eq].
  unfold create_features, copy.
  rewrite bind_assoc. erewrite bind_deref by exact Hd. rewrite bind_alloc.
  unfold sort_by_timestamp. rewrite bind_assoc.
  run_step. rewrite (has_col_get_col _ _ _ Hts).
  rewrite bind_assoc. run_step. rewrite Hts.
  rewrite bind_assoc. run_step. rewrite Hts'.
  rewrite bind_assoc. run_step. fold d1. fold h1.
  unfold df_sort_values. rewrite !bind_assoc.
  erewrite bind_deref by (unfold h1; run_lookup).
  rewrite bind_assoc, bind_lift.
  unfold sort_values. unfold d1 at 1. rewrite get_col_set_col_eq. simpl.
  rewrite (sort_key_dt _ Hdt). simpl.
  rewrite bind_alloc. reflexivity.
Qed.

(** The run of [create_features] up to the lag step, on a table with a
    [timestamp] column that can be coerced, a [route_id] column and a
    numeric [delay_seconds] column: the copy is sorted, the temporal
    columns and the target are written, and the rest of the pipeline
    starts on the result. *)
Lemma create_features_prefix (self : TransitFeatureEngine) (df : positive)
    (h : gmap positive DataFrame) (d : DataFrame)
    (include_weather include_events : bool)
    (ts ts' keys secs : list cell) (xs : list (option Q)) :
  h !! df = Some d ->
  get_col "timestamp" d = Ok ts ->
  to_datetime ts = Ok ts' ->
  get_col "route_id" d = Ok keys ->
  get_col "delay_seconds" d = Ok secs ->
  floats secs = Ok xs ->
  let p := nargsort true (map dt_key ts') in
  let m := map (fun o => of_float ((fun x => x / 60)%Q <$> o))
               (take_at None p xs) in
  exists (out : positive) (hs : gmap positive DataFrame) (e : DataFrame)
         (ys : list (option Q)),
    create_features self df include_weather include_events h
    = bind (_add_lag_features self out)
        (fun df => bind (_add_route_features df)
           (fun df => bind (if include_weather then _add_weather_features df
                            else ret df)
              (fun df => bind (if include_events then _add_event_features df
                               else ret df)
                 (fun df => ret df)))) hs /\
    hs !! out = Some e /\
    adds (temporal_names ++ ["delay_minutes"]%string)%list
         (take_rows p (set_col "timestamp" ts' d)) e /\
    get_col "route_id" e = Ok (take_at NaN p keys) /\
    get_col "delay_minutes" e = Ok m /\
    floats m = Ok ys.
Proof.
  intros Hd Hts Hts' Hk Hs Hx p m.
  pose proof (to_datetime_datetimelike _ _ Hts') as Hdt.
  destruct (create_features_sorted self df h d include_weather include_events
              ts ts' Hd Hts Hts') as (l2 & h2 & Hrun & Hl2).
  fold p in Hl2. set (ds := take_rows p (set_col "timestamp" ts' d)) in *.
  assert (Hts2 : get_col "timestamp" ds = Ok (take_at NaN p ts')).
  { unfold ds. rewrite get_col_take_rows.
    by rewrite get_col_set_col_eq. }
  assert (Hk2 : get_col "route_id" ds = Ok (take_at NaN p keys)).
  { unfold ds. rewrite get_col_take_rows.
    rewrite get_col_set_col_ne by discriminate. by rewrite Hk. }
  assert (Hs2 : get_col "delay_seconds" ds = Ok (take_at NaN p secs)).
  { unfold ds. rewrite get_col_take_rows.
    rewrite get_col_set_col_ne by discriminate. by rewrite Hs. }
  pose proof (floats_take_at p _ _ Hx) as Hx2.
  destruct (add_temporal_adds h2 l2 ds _ Hl2 Hts2
              (datetimelike_take_at p _ Hdt)) as (e1 & Hrun1 & Hadd1).
  assert (Hs3 : get_col "delay_seconds" e1 = Ok (take_at NaN p secs)).
  { rewrite (proj2 (proj2 Hadd1)) by decide_names. exact Hs2. }
  pose proof (add_delay_seconds_run (<[l2 := e1]> h2) l2 e1 _ _
                (lookup_insert_eq _ _ _) Hs3 Hx2) as Hrun2.
  rewrite insert_insert_eq in Hrun2. fold m in Hrun2.
  set (e2 := set_col "delay_minutes" m e1) in Hrun2.
  assert (Hadd2 : adds ["delay_minutes"]%string e1 e2)
    by (unfold e2; adds_frame).
  exists l2, (<[l2 := e2]> h2), e2. eexists.
  split.
  { rewrite Hrun. unfold derive_features.
    rewrite (bind_ok _ _ _ _ _ Hrun1). cbv beta.
    rewrite (bind_ok _ _ _ _ _ Hrun2). reflexivity. }
  split; [apply lookup_insert_eq |].
  split; [exact (adds_trans _ _ _ _ _ Hadd1 Hadd2) |].
  split.
  { rewrite (proj2 (proj2 Hadd2)) by decide_names.
    rewrite (proj2 (proj2 Hadd1)) by decide_names. exact Hk2. }
  split; [apply get_col_set_col_eq |].
  apply (floats_map_of_float (fun x => x / 60)%Q).
Qed.

(** With no lag horizon configured, [create_features] returns on every
    table that has a [timestamp] column that can be coerced, a [route_id]
    column and a numeric [delay_seconds] column.  The table it returns holds
    the rows of the input in ascending order of the coerced timestamps
    (missing ones last), has every column that [get_feature_names] lists,
    has [delay_minutes] with the seconds of each row divided by 60, still
    has every column of the input, and carries each column the pipeline
    does not write unchanged but for the order of its rows. *)
Theorem create_features_without_lags (self : TransitFeatureEngine)
    (df : positive) (h : gmap positive DataFrame) (d : DataFrame)
    (include_weather include_events : bool)
    (ts ts' keys secs : list cell) (xs : list (option Q)) :
  lag_hours self = [] ->
  h !! df = Some d ->
  get_col "timestamp" d = Ok ts ->
  to_datetime ts = Ok ts' ->
  get_col "route_id" d = Ok keys ->
  get_col "delay_seconds" d = Ok secs ->
  floats secs = Ok xs ->
  exists out d' p,
    (create_features self df include_weather include_events h).1 = Ok out /\
    (create_features self df include_weather include_events h).2 !! out
    = Some d' /\
    p ≡ₚ seq 0 (length ts) /\
    StronglySorted cell_le (take_at NaN p ts') /\
    get_col "timestamp" d' = Ok (take_at NaN p ts') /\
    df_index d' = take_at 0%Z p (df_index d) /\
    (forall c, c ∈ get_feature_names self -> has_col c d' = true) /\
    get_col "delay_minutes" d'
    = Ok (map (fun o => of_float ((fun x => x / 60)%Q <$> o))
              (take_at None p xs)) /\
    (forall c, has_col c d = true -> has_col c d' = true) /\
    (forall c, c ∉ written_names ->
       get_col c d' = rmap (take_at NaN p) (get_col c d)).
Proof.
  intros Hlag Hd Hts Hts' Hk Hs Hx.
  destruct self as [lags]. simpl in Hlag. subst lags.
  pose proof (to_datetime_datetimelike _ _ Hts') as Hdt.
  destruct (create_features_prefix {| lag_hours := [] |} df h d
              include_weather include_events ts ts' keys secs xs
              Hd Hts Hts' Hk Hs Hx)
    as (l2 & hs & e2 & ys & Hrun & Hl2 & Hadd2 & Hk3 & Hv3 & Hx3).
  set (p := nargsort true (map dt_key ts')) in *.
  set (m := map (fun o => of_float ((fun x => x / 60)%Q <$> o))
                (take_at None p xs)) in *.
  set (ds := take_rows p (set_col "timestamp" ts' d)) in *.
  (* rolling features *)
  destruct (add_rolling_adds hs l2 e2 _ _ _ Hl2 Hk3 Hv3 Hx3)
    as (e3 & Hrun3 & Hadd3).
  assert (Hk4 : get_col "route_id" e3 = Ok (take_at NaN p keys)).
  { rewrite (proj2 (proj2 Hadd3)) by decide_names. exact Hk3. }
  assert (Hv4 : get_col "delay_minutes" e3 = Ok m).
  { rewrite (proj2 (proj2 Hadd3)) by decide_names. exact Hv3. }
  (* route features *)
  destruct (add_route_adds (<[l2 := e3]> hs) l2 e3 _ _ _
              (lookup_insert_eq _ _ _) Hk4 Hv4 Hx3) as (e4 & Hrun4 & Hadd4).
  rewrite insert_insert_eq in Hrun4.
  (* placeholders *)
  set (weather := if include_weather
                  then ["temperature"; "precipitation"; "is_rainy"]%string
                  else []).
  set (events := if include_events
                 then ["is_holiday"; "nearby_event"]%string else []).
  assert (exists e5,
            (if include_weather then _add_weather_features l2 else ret l2)
              (<[l2 := e4]> hs) = (Ok l2, <[l2 := e5]> hs) /\
            adds weather e4 e5) as (e5 & Hrun5 & Hadd5).
  { unfold weather. destruct include_weather.
    - destruct (add_weather_adds (<[l2 := e4]> hs) l2 e4
                  (lookup_insert_eq _ _ _)) as (e5 & Hrun5 & Hadd5).
      rewrite insert_insert_eq in Hrun5. eauto.
    - exists e4. split; [reflexivity | apply adds_refl]. }
  assert (exists e6,
            (if include_events then _add_event_features l2 else ret l2)
              (<[l2 := e5]> hs) = (Ok l2, <[l2 := e6]> hs) /\
            adds events e5 e6) as (e6 & Hrun6 & Hadd6).
  { unfold events. destruct include_events.
    - destruct (add_event_adds (<[l2 := e5]> hs) l2 e5
                  (lookup_insert_eq _ _ _)) as (e6 & Hrun6 & Hadd6).
      rewrite insert_insert_eq in Hrun6. eauto.
    - exists e5. split; [reflexivity | apply adds_refl]. }
  assert (Hall : create_features {| lag_hours := [] |} df include_weather
                   include_events h
                 = (Ok l2, <[l2 := e6]> hs)).
  { rewrite Hrun.
    rewrite (bind_ok _ _ _ _ _ Hrun3). cbv beta.
    rewrite (bind_ok _ _ _ _ _ Hrun4). cbv beta.
    rewrite (bind_ok _ _ _ _ _ Hrun5). cbv beta.
    rewrite (bind_ok _ _ _ _ _ Hrun6). reflexivity. }
  pose proof (adds_trans _ _ _ _ _ Hadd3
                (adds_trans _ _ _ _ _ Hadd4
                   (adds_trans _ _ _ _ _ Hadd5 Hadd6))) as Htail.
  pose proof (adds_trans _ _ _ _ _ Hadd2 Htail) as (Hidx & Hnew & Hold).
  exists l2, e6, p. rewrite Hall. simpl.
  split; [reflexivity |]. split; [apply lookup_insert_eq |].
  split.
  { unfold p. rewrite nargsort_perm, length_map.
    by rewrite (rmapM_length _ _ _ Hts'). }
  split; [by apply nargsort_sorted |].
  split.
  { rewrite Hold.
    - unfold ds. rewrite get_col_take_rows. by rewrite get_col_set_col_eq.
    - unfold weather, events.
      destruct include_weather, include_events; decide_names. }
  split; [by rewrite Hidx |].
  split.
  { intros c Hc. apply Hnew.
    assert (Hnames : get_feature_names {| lag_hours := [] |} = fixed_names)
      by (vm_compute; reflexivity).
    rewrite Hnames in Hc. unfold fixed_names in Hc.
    apply elem_of_app in Hc as [Hc | Hc].
    - apply elem_of_app. left. apply elem_of_app. by left.
    - apply elem_of_app. right.
      rewrite app_assoc. apply elem_of_app. left.
      cbn [app] in Hc.
      repeat (apply elem_of_cons in Hc as [-> | Hc]; [decide_names |]).
      inversion Hc. }
  split.
  { rewrite (proj2 (proj2 Htail)); [exact Hv3 |].
    unfold weather, events.
    destruct include_weather, include_events; decide_names. }
  split.
  { intros c Hc.
    eapply (adds_has_col _ ds e6 c); [by repeat split |].
    unfold ds. rewrite has_col_take_rows.
    by apply has_col_set_col_mono. }
  intros c Hc. rewrite Hold.
  - unfold ds. rewrite get_col_take_rows.
    rewrite get_col_set_col_ne; [done |].
    intros <-. apply Hc. decide_names.
  - intros Hin. apply Hc. clear -Hin.
    unfold weather, events in Hin.
    destruct include_weather, include_events;
      unfold temporal_names in Hin; cbn [app] in Hin;
      repeat (apply elem_of_cons in Hin as [-> | Hin]; [decide_names |]);
      inversion Hin.
Qed.

Lemma bind_raises {A B} (m : M A) (k : A -> M B) (h : gmap positive DataFrame)
    (cls : string) :
  raises (m h).1 cls -> raises (bind m k h).1 cls.
Proof.
  unfold bind. destruct (m h) as [[a | e] h']; simpl; [intros [] | done].
Qed.

(** With at least one lag horizon configured, [create_features] does not
    return on any such table in which some row has a route: the sort, the
    temporal columns and the target go through, and the first turn of the
    lag loop raises [NotImplementedError], because the rows are labelled by
    position and not by time. *)
Theorem create_features_with_lags_raises (self : TransitFeatureEngine)
    (df : positive) (h : gmap positive DataFrame) (d : DataFrame)
    (include_weather include_events : bool)
    (ts ts' keys secs : list cell) (xs : list (option Q))
    (i : nat) (k : cell) :
  lag_hours self <> [] ->
  h !! df = Some d ->
  get_col "timestamp" d = Ok ts ->
  to_datetime ts = Ok ts' ->
  get_col "route_id" d = Ok keys ->
  get_col "delay_seconds" d = Ok secs ->
  floats secs = Ok xs ->
  keys !! i = Some k -> is_nan k = false -> (i < length ts)%nat ->
  raises (create_features self df include_weather include_events h).1
         "NotImplementedError".
Proof.
  intros Hlag Hd Hts Hts' Hk Hs Hx Hi Hnan Hlt.
  destruct (create_features_prefix self df h d
              include_weather include_events ts ts' keys secs xs
              Hd Hts Hts' Hk Hs Hx)
    as (l2 & hs & e2 & ys & Hrun & Hl2 & _ & Hk3 & Hv3 & _).
  rewrite Hrun. apply bind_raises.
  apply (lag_features_raise self l2 hs e2 _ _ k Hl2 Hk3 Hv3 Hlag); [| exact Hnan].
  unfold take_at. apply list_elem_of_fmap. exists i.
  split; [by rewrite (nth_lookup_Some _ _ _ _ Hi) |].
  rewrite nargsort_perm, length_map, (rmapM_length _ _ _ Hts').
  apply elem_of_seq. lia.
Qed.

(** ** A table with routes and no delay *)

Lemma get_col_absent c d :
  has_col c d = false -> get_col c d = Raise (KeyError c).
Proof.
  rewrite has_col_assoc. unfold get_col. intros Hc.
  destruct (assoc c (df_columns d)) as [v |]; [| done].
  apply bool_decide_eq_false in Hc. destruct Hc. eauto.
Qed.

(** From the delay step on, on an object that has [route_id] and neither a
    delay nor a source for one. *)
Lemma route_step_raises (self : TransitFeatureEngine) (out : positive)
    (hs : gmap positive DataFrame) (e : DataFrame)
    (include_weather include_events : bool) :
  hs !! out = Some e ->
  has_col "delay_seconds" e = false ->
  has_col "aimed_arrival" e && has_col "expected_arrival" e = false ->
  has_col "delay_minutes" e = false ->
  has_col "route_id" e = true ->
  raises
    (bind (_add_delay_features out)
       (fun df => bind (_add_lag_features self df)
          (fun df => bind (_add_route_features df)
             (fun df => bind (if include_weather then _add_weather_features df
                              else ret df)
                (fun df => bind (if include_events then _add_event_features df
                                 else ret df)
                   (fun df => ret df))))) hs).1 "KeyError".
Proof.
  intros He Hsec Hpair Hdelay Hroute.
  destruct (has_col_true _ _ Hroute) as [keys Hk].
  unfold _add_delay_features. rewrite bind_assoc. run_step. rewrite Hsec.
  rewrite bind_assoc. run_step. rewrite bind_assoc. run_step. rewrite Hpair.
  rewrite bind_ret.
  unfold _add_lag_features. rewrite bind_assoc. run_step.
  rewrite bind_assoc. run_step. rewrite Hdelay. cbn [negb orb].
  rewrite bind_ret.
  unfold _add_route_features. rewrite bind_assoc. run_step. rewrite Hroute.
  cbn [negb]. rewrite bind_assoc. run_step. rewrite Hk.
  rewrite bind_assoc. run_step.
  rewrite (get_col_absent _ _ Hdelay). done.
Qed.

(** A table that names routes but carries no delay (no [delay_minutes] and
    no source to derive it from), and whose [timestamp] column, if it has
    one, can be coerced, passes the lag step, which checks for both
    columns, and fails in the route step, which checks for [route_id] only:
    [create_features] raises a [KeyError], whatever the optional groups. *)
Theorem create_features_route_without_delay (self : TransitFeatureEngine)
    (df : positive) (h : gmap positive DataFrame) (d : DataFrame)
    (include_weather include_events : bool) :
  h !! df = Some d ->
  (has_col "timestamp" d = false \/
   exists ts ts', get_col "timestamp" d = Ok ts /\ to_datetime ts = Ok ts') ->
  has_col "delay_seconds" d = false ->
  has_col "aimed_arrival" d && has_col "expected_arrival" d = false ->
  has_col "delay_minutes" d = false ->
  has_col "route_id" d = true ->
  raises (create_features self df include_weather include_events h).1
         "KeyError".
Proof.
  intros Hd [Hts | (ts & ts' & Hts & Hts')] Hsec Hpair Hdelay Hroute.
  - unfold create_features, copy.
    rewrite bind_assoc. erewrite bind_deref by exact Hd. rewrite bind_alloc.
    unfold sort_by_timestamp. rewrite bind_assoc. run_step. rewrite Hts.
    rewrite bind_ret. unfold derive_features.
    unfold _add_temporal_features. rewrite bind_assoc. run_step. rewrite Hts.
    cbn [negb]. rewrite bind_ret.
    apply (route_step_raises self _ _ d); [apply lookup_insert_eq | done ..].
  - pose proof (to_datetime_datetimelike _ _ Hts') as Hdt.
    destruct (create_features_sorted self df h d include_weather
                include_events ts ts' Hd Hts Hts') as (l2 & h2 & Hrun & Hl2).
    set (p := nargsort true (map dt_key ts')) in *.
    set (ds := take_rows p (set_col "timestamp" ts' d)) in *.
    assert (Hts2 : get_col "timestamp" ds = Ok (take_at NaN p ts')).
    { unfold ds. rewrite get_col_take_rows. by rewrite get_col_set_col_eq. }
    destruct (add_temporal_adds h2 l2 ds _ Hl2 Hts2
                (datetimelike_take_at p _ Hdt)) as (e1 & Hrun1 & Hadd1).
    assert (Hsame : forall c, c ∉ temporal_names -> c <> "timestamp" ->
                      has_col c e1 = has_col c d).
    { intros c Hc Hne.
      rewrite (has_col_same c ds e1) by (by apply Hadd1).
      unfold ds. rewrite has_col_take_rows.
      by rewrite has_col_set_col_ne. }
    rewrite Hrun. unfold derive_features.
    rewrite (bind_ok _ _ _ _ _ Hrun1). cbv beta.
    apply (route_step_raises self _ _ e1); [apply lookup_insert_eq | ..].
    + rewrite Hsame by (decide_names || discriminate). exact Hsec.
    + rewrite !Hsame by (decide_names || discriminate). exact Hpair.
    + rewrite Hsame by (decide_names || discriminate). exact Hdelay.
    + rewrite Hsame by (decide_names || discriminate). exact Hroute.
Qed.

End WholePipeline.

(** * Closed instances *)

#[local] Existing Instance plain_numlib.
#[local] Existing Instance insertion_argsort.
#[local] Existing Instance slope_estimator.

Lemma untrained_guard_witness :
  __init__ "random_forest" = Ok fresh_predictor /\
  (predict fresh_predictor X_far
     = Raise (ValueError "Model must be trained before making predictions") /\
   predict_with_confidence fresh_predictor X_far
     = Raise (ValueError "Model must be trained before making predictions") /\
   get_feature_importance fresh_predictor
     = Raise (ValueError "Model must be trained first") /\
   save fresh_predictor "model.joblib" ∅
     = (Raise (ValueError "Cannot save untrained model"), ∅)).
Proof.
  split; [reflexivity |].
  apply (untrained_guard "random_forest" fresh_predictor X_far "model.joblib" ∅).
  reflexivity.
Defined.

(** The exception raised on an untrained predictor is not of a class named
    [NotTrainedError]: the source has no such class. *)
Lemma untrained_error_class :
  __init__ "random_forest" = Ok fresh_predictor /\
  ~ raises (predict fresh_predictor X_far) "NotTrainedError" /\
  ~ raises (predict_with_confidence fresh_predictor X_far) "NotTrainedError" /\
  ~ raises (get_feature_importance fresh_predictor) "NotTrainedError" /\
  ~ raises (save fresh_predictor "model.joblib" ∅).1 "NotTrainedError".
Proof.
  split; [reflexivity |].
  repeat split; simpl; discriminate.
Qed.

Lemma trained_predictor_reachable : reachable trained_predictor.
Proof.
  unfold trained_predictor. apply reach_train.
  apply (reach_init "random_forest"). reflexivity.
Defined.

Example trained_predictor_value :
  trained_predictor
  = mkPredictor "random_forest" 10%Q (Some ["hour"; "is_peak_hour"]) true.
Proof. reflexivity. Qed.

(** Raw outputs -50, 200 and 5 come back as -10, 60 and 5. *)
Lemma predict_clamped_witness :
  (is_trained trained_predictor = true /\
   feature_names trained_predictor = Some (columns X_far) /\
   est_predict (model trained_predictor) X_far = Ok [-50; 200; 5]%Q) /\
  predict trained_predictor X_far = Ok [-10; 60; 5]%Q /\
  Forall in_range [-10; 60; 5]%Q.
Proof.
  destruct (predict_clamped trained_predictor X_far) as [Hall Hraw].
  destruct (Hraw [-50; 200; 5]%Q eq_refl eq_refl eq_refl)
    as (ys & Hp & _ & Hin & _).
  split; [repeat split |]. split; [reflexivity |].
  apply Hall. reflexivity.
Defined.

Lemma save_load_roundtrip_witness :
  (reachable trained_predictor /\ is_trained trained_predictor = true) /\
  (save trained_predictor "model.joblib" ∅).1 = Ok tt /\
  load "model.joblib" (save trained_predictor "model.joblib" ∅).2
  = Ok trained_predictor /\
  forall p', load "model.joblib" (save trained_predictor "model.joblib" ∅).2
             = Ok p' ->
             predict p' X_far = predict trained_predictor X_far.
Proof.
  destruct (save_load_roundtrip trained_predictor "model.joblib" ∅ X_far
              trained_predictor_reachable eq_refl)
    as (Hsave & p' & Hload & _ & _ & _ & _ & Heq & Hpred).
  split; [split; [exact trained_predictor_reachable | reflexivity] |].
  split; [exact Hsave |]. subst p'. split; [exact Hload |].
  intros p'' Hload'. rewrite Hload in Hload'. by inversion Hload'.
Defined.

Lemma X_shuffled_nodup : NoDup (columns X_shuffled).
Proof. exact (bool_decide_unpack (NoDup (columns X_shuffled)) I). Defined.

Lemma X_shuffled_has_contract :
  ["hour"; "is_peak_hour"] ⊆ columns X_shuffled.
Proof.
  intros c Hc.
  repeat (apply elem_of_cons in Hc as [-> | Hc];
          [match goal with
           | |- ?x ∈ ?l => exact (bool_decide_unpack (x ∈ l) I)
           end |]).
  inversion Hc.
Defined.

(** The shuffled table with an extra column gives the predictions of the
    contract-ordered one; the table without [is_peak_hour] gives a
    [KeyError]. *)
Lemma predict_contract_witness :
  (reachable trained_predictor /\ is_trained trained_predictor = true) /\
  feature_names trained_predictor = Some ["hour"; "is_peak_hour"] /\
  columns (contract_view ["hour"; "is_peak_hour"] X_shuffled)
  = ["hour"; "is_peak_hour"] /\
  predict trained_predictor X_shuffled = Ok [-10; 60; 5]%Q /\
  raises (predict trained_predictor X_missing) "KeyError".
Proof.
  destruct (predict_contract trained_predictor X_shuffled
              trained_predictor_reachable eq_refl)
    as (names & Hnames & Hsel & _).
  injection Hnames as <-.
  destruct (Hsel X_shuffled_nodup X_shuffled_has_contract)
    as (Hcols & _ & _ & Hpred).
  split; [split; [exact trained_predictor_reachable | reflexivity] |].
  split; [reflexivity |]. split; [exact Hcols |]. split; [exact Hpred |].
  reflexivity.
Defined.

(** The exception raised for a missing feature is not of a class named
    [FeatureMismatchError]: it is the [KeyError] of the column selection. *)
Lemma missing_feature_error_class :
  is_trained trained_predictor = true /\
  feature_names trained_predictor = Some ["hour"; "is_peak_hour"] /\
  columns X_missing = ["hour"] /\
  ~ raises (predict trained_predictor X_missing) "FeatureMismatchError".
Proof.
  repeat split. simpl. discriminate.
Qed.

(** ** The feature engine on the example tables *)

Lemma datetimelike_times (l : list Z) : Forall datetimelike (map Time l).
Proof. induction l; constructor; [exact I | assumption]. Qed.

(** C1: on the table of [test_delay_calculation] (ten hourly rows of route
    14 with [delay_seconds]), [create_features] of the default engine does
    not return: it raises [NotImplementedError] on the first lag horizon,
    where the claim gives [delay_lag_1h] the delays of one hour before. *)
Theorem create_features_raises_on_test_table :
  let r := create_features default_engine 1%positive false false
             {[1%positive := test_table]} in
  raises r.1 "NotImplementedError" /\
  r.2 !! 1%positive = Some test_table /\
  map (asof_lag 1
         (map (fun n => Time (t0 + hours (Z.of_nat n))) (seq 0 10))
         (replicate 10 (Str "14"))
         (map Some [0; 1; 2; 3; 4; 5; -1; -2; 0; 3]%Q))
      (seq 0 10)
  = None :: map Some [0; 1; 2; 3; 4; 5; -1; -2; 0]%Q.
Proof. vm_compute. repeat split. Qed.

(** C5: on the table of [test_delay_calculation], with the engine as the
    test builds it, [create_features] derives [delay_minutes] on its working
    copy as the claim has it (60 seconds give 1, 180 seconds give 3) and
    then raises in the lag loop: no table comes back, and the caller gets no
    [delay_minutes] at all, where the claim and the test have 1.0 and 2.0 in
    rows 1 and 2.  The same engine without lag horizons returns the
    column. *)
Theorem create_features_loses_delay_target :
  let r := create_features default_engine 1%positive false false
             {[1%positive := test_table]} in
  let r0 := create_features {| lag_hours := [] |} 1%positive false false
              {[1%positive := test_table]} in
  let minutes := map Num [0; 1; 2; 3; 4; 5; -1; -2; 0; 3]%Q in
  get_col "delay_seconds" test_table
  = Ok (map (fun z => Num (inject_Z z))
            [0; 60; 120; 180; 240; 300; -60; -120; 0; 180]%Z) /\
  raises r.1 "NotImplementedError" /\
  (forall out, r.1 <> Ok out) /\
  (exists d', r.2 !! 3%positive = Some d' /\
     get_col "delay_minutes" d' = Ok minutes /\
     has_col "delay_lag_1h" d' = false) /\
  (exists out d', r0.1 = Ok out /\ r0.2 !! out = Some d' /\
     get_col "delay_minutes" d' = Ok minutes).
Proof.
  intros r r0 minutes. split; [reflexivity |].
  split; [vm_compute; reflexivity |].
  split; [intros out; vm_compute; discriminate |].
  split.
  - eexists. split; [vm_compute; reflexivity |].
    split; vm_compute; reflexivity.
  - eexists _, _. split; [vm_compute; reflexivity |].
    split; vm_compute; reflexivity.
Qed.

Lemma lag_features_raise_witness :
  let h : gmap positive DataFrame := {[1%positive := sparse_table]} in
  raises (_add_lag_features default_engine 1%positive h).1
         "NotImplementedError" /\
  (_add_lag_features default_engine 1%positive h).2 = h.
Proof.
  apply (lag_features_raise default_engine 1%positive _ sparse_table
           [Str "14"; Str "14"; Str "14"] [Num 0; Num 6; Num 12] (Str "14")).
  - reflexivity.
  - reflexivity.
  - reflexivity.
  - discriminate.
  - by left.
  - reflexivity.
Defined.

(** The peak flags of the test table: hours 7, 8 and 9 are morning peak. *)
Lemma peak_flags_witness :
  let h : gmap positive DataFrame := {[1%positive := test_table]} in
  let ts := map (fun n => Time (t0 + hours (Z.of_nat n))) (seq 0 10) in
  (h !! 1%positive = Some test_table /\
   get_col "timestamp" test_table = Ok ts /\
   Forall datetimelike ts) /\
  exists d' morning evening peak,
    _add_temporal_features 1%positive h = (Ok 1%positive, <[1%positive := d']> h) /\
    get_col "is_morning_peak" d' = Ok morning /\
    get_col "is_evening_peak" d' = Ok evening /\
    get_col "is_peak_hour" d' = Ok peak /\
    forall i t,
      ts !! i = Some (Time t) ->
      exists m e p : bool,
        morning !! i = Some (Num (if m then 1 else 0)) /\
        evening !! i = Some (Num (if e then 1 else 0)) /\
        peak !! i = Some (Num (if p then 1 else 0)) /\
        (m = true <-> (7 <= hour_of t <= 9)%Z) /\
        (e = true <-> (16 <= hour_of t <= 18)%Z) /\
        (p = true <-> m = true \/ e = true).
Proof.
  intros h ts.
  assert (Hdt : Forall datetimelike ts).
  { apply (datetimelike_times
             (map (fun n => (t0 + hours (Z.of_nat n))%Z) (seq 0 10))). }
  split; [repeat split; exact Hdt |].
  exact (peak_flags h 1%positive test_table ts eq_refl eq_refl Hdt).
Defined.

(** The column written for the test table. *)
Example test_table_morning_peak :
  exists d',
    (_add_temporal_features 1%positive {[1%positive := test_table]}).2
      !! 1%positive = Some d' /\
    get_col "is_morning_peak" d'
    = Ok (map Num [0; 0; 0; 0; 0; 0; 0; 1; 1; 1]%Q).
Proof. eexists. split; vm_compute; reflexivity. Qed.


Example delay_minutes_values :
  (exists d',
     (_add_delay_features 1%positive {[1%positive := both_sources_table]}).2
       !! 1%positive = Some d' /\
     get_col "delay_minutes" d' = Ok [Num 3; Num (-1)] /\
     get_col "aimed_arrival" d' = get_col "aimed_arrival" both_sources_table) /\
  (exists d',
     (_add_delay_features 1%positive {[1%positive := pair_table]}).2
       !! 1%positive = Some d' /\
     get_col "delay_minutes" d' = Ok [Num 5]).
Proof. split; eexists; repeat split; vm_compute; reflexivity. Qed.

(** Three observations ten hours apart: every 3-row window holds them all,
    a 3-hour window holds one. *)
Lemma rolling_features_witness :
  let h : gmap positive DataFrame := {[1%positive := sparse_table]} in
  let keys := [Str "14"; Str "14"; Str "14"] in
  let xs := [Some 0%Q; Some 6%Q; Some 12%Q] in
  (h !! 1%positive = Some sparse_table /\
   get_col "route_id" sparse_table = Ok keys /\
   get_col "delay_minutes" sparse_table = Ok [Num 0; Num 6; Num 12] /\
   floats [Num 0; Num 6; Num 12] = Ok xs) /\
  exists d',
    _add_lag_features {| lag_hours := [] |} 1%positive h
    = (Ok 1%positive, <[1%positive := d']> h) /\
    exists means,
      get_col (mean_name 3) d' = Ok means /\
      means !! 2%nat = Some (of_float (trailing_mean 3 keys xs 2)) /\
      of_float (trailing_mean 3 keys xs 2) = Num 6.
Proof.
  intros h keys xs.
  destruct (rolling_features h 1%positive sparse_table keys
              [Num 0; Num 6; Num 12] xs eq_refl eq_refl eq_refl eq_refl)
    as (d' & Hrun & Hcols).
  assert (Hw : (3 : nat) ∈ [3; 6; 12]%nat) by (by left).
  destruct (Hcols 3%nat Hw) as (means & stds & Hmeans & _ & Hrows).
  destruct (Hrows 2%nat (Str "14") eq_refl) as [Hm _].
  split; [repeat split |].
  exists d'. split; [exact Hrun |].
  exists means. split; [exact Hmeans |]. split; [exact Hm | reflexivity].
Defined.

(** With no lag horizon configured the pipeline returns on the sparse
    table, and [delay_rolling_mean_3h] is not the mean over the trailing
    three hours. *)
Lemma rolling_window_counts_rows :
  let times := [Time t0; Time (t0 + hours 10); Time (t0 + hours 20)] in
  let keys := [Str "14"; Str "14"; Str "14"] in
  let xs := [Some 0%Q; Some 6%Q; Some 12%Q] in
  let over_hours :=
    map (fun i => of_float (time_window_mean 3 times keys xs i)) (seq 0 3) in
  let r := create_features {| lag_hours := [] |} 1%positive false false
             {[1%positive := sparse_table]} in
  get_col "timestamp" sparse_table = Ok times /\
  get_col "route_id" sparse_table = Ok keys /\
  floats [Num 0; Num 6; Num 12] = Ok xs /\
  over_hours = [Num 0; Num 6; Num 12] /\
  exists out d',
    r.1 = Ok out /\ r.2 !! out = Some d' /\
    get_col "delay_rolling_mean_3h" d' = Ok [Num 0; Num 3; Num 6] /\
    get_col "delay_rolling_mean_3h" d' <> Ok over_hours.
Proof.
  intros times keys xs over_hours r.
  do 4 (split; [reflexivity |]).
  eexists _, _. split; [vm_compute; reflexivity |].
  split; [vm_compute; reflexivity |].
  split; [vm_compute; reflexivity |].
  vm_compute. discriminate.
Qed.

(** The table with two rows at the same instant. *)
Lemma sorted_by_timestamp_witness :
  let h : gmap positive DataFrame := {[1%positive := tied_table]} in
  let ts := [Time t0; Time t0] in
  let d1 := set_col "timestamp" ts tied_table in
  let h1 := <[fresh (dom h) := d1]> h in
  (h !! 1%positive = Some tied_table /\
   get_col "timestamp" tied_table = Ok ts /\
   to_datetime ts = Ok ts) /\
  exists p,
    p ≡ₚ seq 0 (length ts) /\
    StronglySorted cell_le (take_at NaN p ts) /\
    get_col "timestamp" (take_rows p d1) = Ok (take_at NaN p ts) /\
    df_index (take_rows p d1) = take_at 0%Z p (df_index tied_table) /\
    create_features default_engine 1%positive false false h
    = derive_features default_engine (fresh (dom h1)) false false
        (<[fresh (dom h1) := take_rows p d1]> h1).
Proof.
  intros h ts d1 h1. split; [repeat split |].
  exact (sorted_by_timestamp default_engine 1%positive false false h
           tied_table ts ts eq_refl eq_refl eq_refl).
Defined.

(** Eighteen rows that carry one timestamp, sorted by numpy's quicksort:
    the partition exchanges rows 1..15 end for end, so the rows do not come
    out in the order they went in. *)
Lemma ties_not_kept :
  let r := @create_features plain_numlib npy_quicksort default_engine
             1%positive false false {[1%positive := burst_table]} in
  df_index burst_table = map Z.of_nat (seq 0 18) /\
  get_col "timestamp" burst_table = Ok (replicate 18 (Time t0)) /\
  Npysort.aquicksort (replicate 18 (inject_Z t0))
  = [0; 15; 14; 13; 12; 11; 10; 9; 8; 7; 6; 5; 4; 3; 2; 1; 16; 17]%nat /\
  exists out d',
    r.1 = Ok out /\ r.2 !! out = Some d' /\
    df_index d'
    = [0; 15; 14; 13; 12; 11; 10; 9; 8; 7; 6; 5; 4; 3; 2; 1; 16; 17]%Z /\
    ~ ties_keep_order d'.
Proof.
  intros r. do 2 (split; [reflexivity |]).
  split; [vm_compute; reflexivity |].
  eexists _, _. split; [vm_compute; reflexivity |].
  split; [vm_compute; reflexivity |].
  split; [reflexivity |].
  intros Hkeep.
  specialize (Hkeep (replicate 18 (Time t0)) 1%nat 2%nat 15%Z 14%Z (Time t0)
                eq_refl ltac:(lia) eq_refl eq_refl eq_refl eq_refl).
  lia.
Qed.

(** Up to seventeen keys the routine is an insertion sort and leaves equal
    keys where they were; the two-row table comes back as it went in. *)
Example short_ties_kept :
  Npysort.aquicksort (replicate 17 (inject_Z t0)) = seq 0 17 /\
  let r := @create_features plain_numlib npy_quicksort default_engine
             1%positive false false {[1%positive := tied_table]} in
  exists out d', r.1 = Ok out /\ r.2 !! out = Some d' /\
    df_index d' = [0; 1]%Z.
Proof.
  split; [vm_compute; reflexivity |].
  eexists _, _. split; [vm_compute; reflexivity |].
  split; vm_compute; reflexivity.
Qed.

(** The caller's table after a call that returns and after a call that
    raises. *)
Example caller_table_unchanged :
  (create_features {| lag_hours := [] |} 1%positive true true
     {[1%positive := sparse_table]}).2 !! 1%positive = Some sparse_table /\
  (create_features default_engine 1%positive true true
     {[1%positive := test_table]}).2 !! 1%positive = Some test_table.
Proof. split; vm_compute; reflexivity. Qed.

(** Without a route column the whole pipeline returns: the rows come out
    in time order and 180 seconds have become 3 minutes. *)
Example create_features_delay_minutes :
  let r := create_features default_engine 1%positive false false
             {[1%positive := deviation_table]} in
  exists out d',
    r.1 = Ok out /\ r.2 !! out = Some d' /\
    df_index d' = [1; 0]%Z /\
    get_col "delay_seconds" d' = Ok [Num 180; Num 60] /\
    get_col "delay_minutes" d' = Ok [Num 3; Num 1].
Proof.
  intros r. eexists _, _. split; [vm_compute; reflexivity |].
  split; [vm_compute; reflexivity |]. repeat split.
Qed.

Example default_feature_names :
  get_feature_names default_engine
  = ["hour"; "day_of_week"; "day_of_month"; "month"; "is_weekend";
     "is_morning_peak"; "is_evening_peak"; "is_peak_hour"; "hour_sin";
     "hour_cos"; "dow_sin"; "dow_cos"; "delay_lag_1h"; "delay_lag_3h";
     "delay_lag_24h"; "delay_lag_168h"; "delay_rolling_mean_3h";
     "delay_rolling_std_3h"; "delay_rolling_mean_6h"; "delay_rolling_std_6h";
     "delay_rolling_mean_12h"; "delay_rolling_std_12h"; "route_avg_delay";
     "route_delay_std"]%string.
Proof. vm_compute. reflexivity. Qed.

(** ** The further properties on the examples *)

#[local] Existing Instance committee_estimator.

(** Three rows are too few for five folds: the trained predictor keeps its
    slope and its flag, and its contract is now that of the refused table. *)
Lemma train_too_few_rows_witness :
  (nrows X_missing < 6)%nat /\
  raises (train X_missing [Num 1; Num 2; Num 3] (1 # 5) trained_predictor).1
         "ValueError" /\
  (train X_missing [Num 1; Num 2; Num 3] (1 # 5) trained_predictor).2
  = mkPredictor "random_forest" 10%Q (Some ["hour"]) true.
Proof.
  assert (Hn : (nrows X_missing < 6)%nat) by (vm_compute; lia).
  split; [exact Hn |].
  exact (train_too_few_rows X_missing [Num 1; Num 2; Num 3] (1 # 5)
           trained_predictor Hn).
Defined.

Lemma train_then_predict_witness :
  exists m,
    (train X_train y_train (1 # 5) fresh_predictor).1 = Ok m /\
    exists raw ys,
      est_predict (model trained_predictor) X_train = Ok raw /\
      target y_train = Ok ys /\
      mae m = mean_absolute_error ys raw /\
      predict trained_predictor X_train = Ok (map (np_clip (-10) 60) raw).
Proof.
  eexists. split; [vm_compute; reflexivity |].
  apply (train_then_predict X_train y_train (1 # 5) fresh_predictor).
  vm_compute. reflexivity.
Defined.

Lemma X_far_has_contract : ["hour"; "is_peak_hour"] ⊆ columns X_far.
Proof.
  intros c Hc.
  repeat (apply elem_of_cons in Hc as [-> | Hc];
          [match goal with
           | |- ?x ∈ ?l => exact (bool_decide_unpack (x ∈ l) I)
           end |]).
  inversion Hc.
Defined.

(** The table with an extra column and its columns in another order gets
    the predictions of the plain one. *)
Lemma predict_ignores_the_rest_witness :
  columns X_far = ["hour"; "is_peak_hour"] /\
  columns X_shuffled = ["extra"; "is_peak_hour"; "hour"] /\
  predict trained_predictor X_far = predict trained_predictor X_shuffled.
Proof.
  do 2 (split; [reflexivity |]).
  apply (predict_ignores_the_rest trained_predictor X_far X_shuffled
           ["hour"; "is_peak_hour"]).
  - reflexivity.
  - reflexivity.
  - exact (bool_decide_unpack (NoDup (columns X_far)) I).
  - exact X_shuffled_nodup.
  - exact X_far_has_contract.
  - exact X_shuffled_has_contract.
  - reflexivity.
  - intros c Hc.
    repeat (apply elem_of_cons in Hc as [-> | Hc]; [reflexivity |]).
    inversion Hc.
Defined.

(** The committee of two members gives one deviation per row. *)
Lemma confidence_shape_witness :
  predict_with_confidence trained_committee X_far
  = Ok ([-10; 60; 5 # 2]%Q, [20000 # 32; 320000 # 32; 200 # 32]%Q) /\
  predict trained_committee X_far = Ok [-10; 60; 5 # 2]%Q /\
  estimators_ (model trained_committee) = Some [[0%Q]; [10%Q]] /\
  length [20000 # 32; 320000 # 32; 200 # 32]%Q = nrows X_far.
Proof.
  assert (Hrun : predict_with_confidence trained_committee X_far
                 = Ok ([-10; 60; 5 # 2]%Q,
                       [20000 # 32; 320000 # 32; 200 # 32]%Q))
    by (vm_compute; reflexivity).
  split; [exact Hrun |].
  destruct (confidence_shape trained_committee X_far _ _ Hrun)
    as (Hp & _ & Htrees).
  split; [exact Hp |]. split; [reflexivity |].
  destruct (Htrees [[0%Q]; [10%Q]] eq_refl) as [Hlen _]. exact Hlen.
Defined.

(** The single regressor has no members: every row gets 2.0. *)
Example confidence_fallback :
  estimators_ (model trained_predictor) = None /\
  predict_with_confidence trained_predictor X_far
  = Ok ([-10; 60; 5]%Q, [2; 2; 2]%Q).
Proof. split; vm_compute; reflexivity. Qed.

Lemma importance_ranked_witness :
  (is_trained trained_committee = true /\
   feature_names trained_committee = Some ["hour"; "is_peak_hour"] /\
   feature_importances_ (model trained_committee) = Some [0; 10]%Q) /\
  exists order ranked,
    order ≡ₚ seq 0 2 /\
    get_feature_importance trained_committee = Ok ranked /\
    get_col "feature" ranked
    = Ok (map (fun i => Str (nth i ["hour"; "is_peak_hour"] ""%string)) order) /\
    get_col "importance" ranked
    = Ok (map (fun i => Num (nth i [0; 10]%Q 0%Q)) order) /\
    StronglySorted (flip Qle) (map (fun i => nth i [0; 10]%Q 0%Q) order).
Proof.
  split; [repeat split |].
  destruct (importance_ranked trained_committee ["hour"; "is_peak_hour"]
              eq_refl eq_refl) as [_ Hsome].
  exact (Hsome [0; 10]%Q eq_refl eq_refl).
Defined.

(** The ranking of the committee, and the empty table of the regressor that
    exposes no importances. *)
Example committee_importance :
  get_feature_importance trained_committee
  = Ok (mkDF [1; 0]%Z
          [("feature", [Str "is_peak_hour"; Str "hour"]);
           ("importance", [Num 10; Num 0])]) /\
  get_feature_importance trained_predictor = Ok empty_frame.
Proof. split; vm_compute; reflexivity. Qed.

Lemma create_features_skips_all_witness :
  let h : gmap positive DataFrame := {[1%positive := ids_table]} in
  create_features default_engine 1%positive false false h
  = (Ok (fresh (dom h)), <[fresh (dom h) := ids_table]> h).
Proof.
  intros h.
  apply (create_features_skips_all default_engine 1%positive h ids_table);
    reflexivity.
Defined.

Lemma create_features_route_without_delay_witness :
  let h : gmap positive DataFrame := {[1%positive := routes_table]} in
  columns routes_table = ["timestamp"; "route_id"] /\
  raises (create_features default_engine 1%positive true true h).1
         "KeyError".
Proof.
  intros h. split; [reflexivity |].
  apply (create_features_route_without_delay default_engine 1%positive h
           routes_table true true); try reflexivity.
  right. exists [Time (t0 + hours 1); Time t0], [Time (t0 + hours 1); Time t0].
  split; reflexivity.
Defined.

(** Saturday 08:00 is hour 8 of day 5, a weekend day; the row without a
    timestamp has no hour and is no weekend row. *)
Lemma calendar_columns_witness :
  let h : gmap positive DataFrame := {[1%positive := calendar_table]} in
  let ts := [Time (t0 + hours (5 * 24 + 8)); NaN] in
  (get_col "timestamp" calendar_table = Ok ts /\ Forall datetimelike ts) /\
  exists d' hour dow weekend,
    _add_temporal_features 1%positive h
    = (Ok 1%positive, <[1%positive := d']> h) /\
    get_col "hour" d' = Ok hour /\
    get_col "day_of_week" d' = Ok dow /\
    get_col "is_weekend" d' = Ok weekend /\
    get_col "entity_id" d' = get_col "entity_id" calendar_table /\
    hour !! 0%nat = Some (Num 8) /\ dow !! 0%nat = Some (Num 5) /\
    weekend !! 0%nat = Some (Num 1) /\
    hour !! 1%nat = Some NaN /\ weekend !! 1%nat = Some (Num 0).
Proof.
  intros h ts.
  assert (Hdt : Forall datetimelike ts) by (repeat constructor).
  split; [split; [reflexivity | exact Hdt] |].
  destruct (calendar_columns h 1%positive calendar_table ts eq_refl eq_refl Hdt)
    as (d' & hour & dow & weekend & morning & evening & peak & Hrun & _
        & Hothers & Hh & Hd & Hw & _ & _ & _ & Htime & Hnat).
  destruct (Htime 0%nat _ eq_refl) as (Hh0 & _ & Hd0 & _ & w & Hw0 & Hiff).
  destruct (Hnat 1%nat eq_refl) as (Hh1 & _ & Hw1 & _).
  assert (w = true) as -> by (apply Hiff; left; vm_compute; reflexivity).
  exists d', hour, dow, weekend.
  split; [exact Hrun |]. split; [exact Hh |]. split; [exact Hd |].
  split; [exact Hw |]. split; [apply Hothers; decide_names |].
  split; [exact Hh0 |]. split; [exact Hd0 |]. split; [exact Hw0 |].
  split; [exact Hh1 | exact Hw1].
Defined.

(** The table's own [temperature] readings are replaced by unknowns. *)
Lemma placeholders_overwrite_witness :
  let h : gmap positive DataFrame := {[1%positive := weather_table]} in
  get_col "temperature" weather_table = Ok [Num 12; Num 14] /\
  exists d',
    _add_weather_features 1%positive h
    = (Ok 1%positive, <[1%positive := d']> h) /\
    get_col "temperature" d' = Ok [NaN; NaN] /\
    get_col "entity_id" d' = get_col "entity_id" weather_table.
Proof.
  intros h. split; [reflexivity |].
  destruct (placeholders_overwrite h 1%positive weather_table eq_refl)
    as [(d' & Hrun & _ & Ht & _ & _ & Hothers) _].
  exists d'. split; [exact Hrun |]. split; [exact Ht |].
  apply Hothers. decide_names.
Defined.

(** Route 14 has delays 2 and 4: both of its rows carry the mean 3. *)
Lemma route_aggregates_witness :
  let h : gmap positive DataFrame := {[1%positive := two_routes_table]} in
  let keys := [Str "14"; Str "38"; Str "14"; NaN] in
  (get_col "route_id" two_routes_table = Ok keys /\
   floats [Num 2; Num 5; Num 4; Num 1]
   = Ok [Some 2%Q; Some 5%Q; Some 4%Q; Some 1%Q]) /\
  exists d' avg std,
    _add_route_features 1%positive h
    = (Ok 1%positive, <[1%positive := d']> h) /\
    get_col "route_avg_delay" d' = Ok avg /\
    get_col "route_delay_std" d' = Ok std /\
    avg !! 0%nat = Some (Num 3) /\ avg !! 2%nat = avg !! 0%nat /\
    avg !! 3%nat = Some NaN /\ std !! 3%nat = Some NaN.
Proof.
  intros h keys. split; [split; reflexivity |].
  destruct (route_aggregates h 1%positive two_routes_table keys
              [Num 2; Num 5; Num 4; Num 1]
              [Some 2%Q; Some 5%Q; Some 4%Q; Some 1%Q]
              eq_refl eq_refl eq_refl eq_refl)
    as (d' & avg & std & Hrun & Ha & Hs & Hrow & Hsame & Hnan).
  exists d', avg, std. do 3 (split; [assumption |]).
  split.
  { destruct (Hrow 0%nat (Str "14") eq_refl eq_refl) as [H0 _]. exact H0. }
  split.
  { destruct (Hsame 2%nat 0%nat (Str "14") (Str "14") eq_refl eq_refl eq_refl)
      as [Heq _]. exact Heq. }
  exact (Hnan 3%nat eq_refl).
Defined.

(** Row 1 is the first row of route 38, with a delay of 5 minutes. *)
Lemma first_observation_rolling_witness :
  let h : gmap positive DataFrame := {[1%positive := two_routes_table]} in
  exists d' means stds,
    add_rolling 1%positive 3 h = (Ok tt, <[1%positive := d']> h) /\
    get_col (mean_name 3) d' = Ok means /\
    get_col (std_name 3) d' = Ok stds /\
    (exists q, means !! 1%nat = Some (Num q) /\ (q == 5)%Q) /\
    stds !! 1%nat = Some NaN.
Proof.
  intros h.
  apply (first_observation_rolling h 1%positive two_routes_table 3
           [Str "14"; Str "38"; Str "14"; NaN]
           [Num 2; Num 5; Num 4; Num 1]
           [Some 2%Q; Some 5%Q; Some 4%Q; Some 1%Q]
           1%nat (Str "38") 5%Q).
  - reflexivity.
  - reflexivity.
  - reflexivity.
  - reflexivity.
  - lia.
  - reflexivity.
  - reflexivity.
  - intros j Hj. assert (j = 0%nat) as -> by lia. reflexivity.
  - reflexivity.
Defined.

(** With no lag horizon the table of [test_delay_calculation] goes through
    the whole pipeline. *)
Lemma create_features_without_lags_witness :
  let r := create_features {| lag_hours := [] |} 1%positive false false
             {[1%positive := test_table]} in
  exists out d',
    r.1 = Ok out /\ r.2 !! out = Some d' /\
    (forall c, c ∈ get_feature_names {| lag_hours := [] |} ->
       has_col c d' = true) /\
    has_col "delay_minutes" d' = true /\
    has_col "route_id" d' = true.
Proof.
  intros r.
  pose (h := ({[1%positive := test_table]} : gmap positive DataFrame)).
  destruct (create_features_without_lags {| lag_hours := [] |} 1%positive
              h test_table false false
              (map (fun n => Time (t0 + hours (Z.of_nat n))) (seq 0 10))
              (map (fun n => Time (t0 + hours (Z.of_nat n))) (seq 0 10))
              (replicate 10 (Str "14"))
              (map (fun z => Num (inject_Z z))
                   [0; 60; 120; 180; 240; 300; -60; -120; 0; 180]%Z)
              (map (fun z => Some (inject_Z z))
                   [0; 60; 120; 180; 240; 300; -60; -120; 0; 180]%Z)
              eq_refl eq_refl eq_refl eq_refl eq_refl eq_refl eq_refl)
    as (out & d' & p & Hout & Hd' & _ & _ & _ & _ & Hnames & Hdm & Hmono & _).
  exists out, d'. split; [exact Hout |]. split; [exact Hd' |].
  split; [exact Hnames |].
  split; [exact (has_col_get_col _ _ _ Hdm) |].
  apply Hmono. reflexivity.
Defined.

(** The minutes that [test_delay_calculation] expects. *)
Example test_table_without_lags :
  let r := create_features {| lag_hours := [] |} 1%positive false false
             {[1%positive := test_table]} in
  exists out d',
    r.1 = Ok out /\ r.2 !! out = Some d' /\
    get_col "delay_minutes" d'
    = Ok (map Num [0; 1; 2; 3; 4; 5; -1; -2; 0; 3]%Q) /\
    get_col "hour" d' = Ok (map Num [0; 1; 2; 3; 4; 5; 6; 7; 8; 9]%Q).
Proof.
  intros r. eexists _, _. split; [vm_compute; reflexivity |].
  split; [vm_compute; reflexivity |]. split; vm_compute; reflexivity.
Qed.

(** With the default horizons the same table does not get through, the
    placeholder groups switched on or not. *)
Lemma create_features_with_lags_raises_witness :
  lag_hours default_engine = [1; 3; 24; 168]%Z /\
  raises (create_features default_engine 1%positive true true
            {[1%positive := test_table]}).1 "NotImplementedError".
Proof.
  split; [reflexivity |].
  pose (h := ({[1%positive := test_table]} : gmap positive DataFrame)).
  apply (create_features_with_lags_raises default_engine 1%positive
           h test_table true true
           (map (fun n => Time (t0 + hours (Z.of_nat n))) (seq 0 10))
           (map (fun n => Time (t0 + hours (Z.of_nat n))) (seq 0 10))
           (replicate 10 (Str "14"))
           (map (fun z => Num (inject_Z z))
                [0; 60; 120; 180; 240; 300; -60; -120; 0; 180]%Z)
           (map (fun z => Some (inject_Z z))
                [0; 60; 120; 180; 240; 300; -60; -120; 0; 180]%Z)
           0%nat (Str "14")); try reflexivity.
  - discriminate.
  - simpl. lia.
Defined.
